(** * Home Facelift Copilot: the refinement protocol, the verifier and the
      memory propagator, as Rocq functions

    The development embeds [app/tools.py] and [app/memory_store.py].
    Python text is a sequence of code points, Python values that travel
    through JSON and through the session dictionary are one inductive type,
    and code that raises or that touches the session, the disk or a remote
    service runs in a state-and-exception monad over an explicit store.
    What the hosted models answer, what the clock and the random source give
    and what the standard library's decoders return are inputs: fields of a
    [World] and of a [PyLib], over which every statement quantifies. *)

From Stdlib Require Import String Ascii NArith ZArith List Lia DecimalString.
From Stdlib Require Import Floats.SpecFloat.
From stdpp Require Import base option list gmap.

Set Warnings "-register-all".

Open Scope N_scope.
Open Scope list_scope.

(** ** Python strings *)

Module Py.

(** A [str] is a sequence of Unicode code points. *)
Definition pystr := list N.

Fixpoint bytes_of_string (s : string) : list N :=
  match s with
  | EmptyString => []
  | String a s' => N_of_ascii a :: bytes_of_string s'
  end.

(** Literals are written as Rocq strings, which hold the UTF-8 bytes of the
    source file; [utf8_decode] turns them into the code points Python sees. *)
Fixpoint utf8_decode (bs : list N) : pystr :=
  match bs with
  | [] => []
  | b :: bs1 =>
    if b <? 128 then b :: utf8_decode bs1
    else match bs1 with
    | [] => [b]
    | c1 :: bs2 =>
      if b <? 224 then ((b - 192) * 64 + (c1 - 128)) :: utf8_decode bs2
      else match bs2 with
      | [] => [b; c1]
      | c2 :: bs3 =>
        if b <? 240
        then ((b - 224) * 4096 + (c1 - 128) * 64 + (c2 - 128)) :: utf8_decode bs3
        else match bs3 with
        | [] => [b; c1; c2]
        | c3 :: bs4 =>
          ((b - 240) * 262144 + (c1 - 128) * 4096 + (c2 - 128) * 64 + (c3 - 128))
            :: utf8_decode bs4
        end
      end
    end
  end.

Definition u (s : string) : pystr := utf8_decode (bytes_of_string s).

(** [str(n)] for an integer. *)
Definition str_of_Z (z : Z) : pystr :=
  bytes_of_string (NilZero.string_of_int (Z.to_int z)).

Definition chr (n : N) : pystr := [n].

(** [len(s)] *)
Definition len (s : pystr) : Z := Z.of_nat (length s).

(** [len(l)] for a list *)
Definition len_list {A} (l : list A) : Z := Z.of_nat (length l).

(** [str.isspace] on one code point, the set of CPython's
    [Py_UNICODE_ISSPACE]; the regular expression class [\s] on [str]
    patterns is the same set. *)
Definition isspace (c : N) : bool :=
  ((9 <=? c) && (c <=? 13)) || ((28 <=? c) && (c <=? 32))
  || (c =? 133) || (c =? 160) || (c =? 5760)
  || ((8192 <=? c) && (c <=? 8202))
  || (c =? 8232) || (c =? 8233) || (c =? 8239) || (c =? 8287) || (c =? 12288).

Fixpoint lstrip (s : pystr) : pystr :=
  match s with
  | c :: s' => if isspace c then lstrip s' else s
  | [] => []
  end.

Definition rstrip (s : pystr) : pystr := rev (lstrip (rev s)).

(** [s.strip()] *)
Definition strip (s : pystr) : pystr := rstrip (lstrip s).

Fixpoint eqb (a b : pystr) : bool :=
  match a, b with
  | [], [] => true
  | x :: a', y :: b' => (x =? y) && eqb a' b'
  | _, _ => false
  end.

(** [s.startswith(p)] *)
Fixpoint startswith (s p : pystr) : bool :=
  match p, s with
  | [], _ => true
  | x :: p', y :: s' => (x =? y) && startswith s' p'
  | _ :: _, [] => false
  end.

(** [s.endswith(p)] *)
Definition endswith (s p : pystr) : bool := startswith (rev s) (rev p).

(** [needle in s] *)
Fixpoint contains (s needle : pystr) : bool :=
  startswith s needle ||
  match s with
  | [] => false
  | _ :: s' => contains s' needle
  end.

(** [s.find(needle)], [None] for -1 *)
Fixpoint find (s needle : pystr) : option nat :=
  if startswith s needle then Some O
  else match s with
       | [] => None
       | _ :: s' => S <$> find s' needle
       end.

(** [s.split(sep)] for a non-empty separator: the pieces between the
    non-overlapping occurrences of [sep], scanned left to right.  [skip]
    counts the code points of a separator still to be dropped, [cur] holds
    the current piece in reverse. *)
Fixpoint split_go (sep : pystr) (skip : nat) (cur : pystr) (s : pystr)
  : list pystr :=
  match s with
  | [] => [rev cur]
  | c :: s' =>
    match skip with
    | S k => split_go sep k cur s'
    | O =>
      if startswith s sep
      then rev cur :: split_go sep (length sep - 1) [] s'
      else split_go sep O (c :: cur) s'
    end
  end.

Definition split (s sep : pystr) : list pystr := split_go sep O [] s.

(** [sep.join(l)] *)
Fixpoint join (sep : pystr) (l : list pystr) : pystr :=
  match l with
  | [] => []
  | [x] => x
  | x :: l' => x ++ sep ++ join sep l'
  end.

(** [s.replace(a, b)] for a non-empty [a] *)
Definition replace (s a b : pystr) : pystr := join b (split s a).

(** Slices [s[:n]] and [s[n:]] for a non-negative bound. *)
Definition slice_to {A} (n : nat) (s : list A) : list A := take n s.
Definition slice_from {A} (n : nat) (s : list A) : list A := drop n s.

End Py.

Import Py.

(** ** Python values, exceptions and results *)

(** The values that JSON decoding produces and that the session dictionary
    holds.  A [dict] keeps its insertion order, as in Python. *)
Inductive pyval :=
| VNone
| VBool (b : bool)
| VInt (z : Z)
| VFloat (f : spec_float)
| VStr (s : pystr)
| VList (l : list pyval)
| VDict (d : list (pystr * pyval)).

Definition pydict := list (pystr * pyval).

(** [bool(v)] *)
Definition truthy (v : pyval) : bool :=
  match v with
  | VNone => false
  | VBool b => b
  | VInt z => negb (z =? 0)%Z
  | VFloat (S754_zero _) => false
  | VFloat _ => true
  | VStr s => negb (eqb s [])
  | VList l => match l with [] => false | _ => true end
  | VDict d => match d with [] => false | _ => true end
  end.

(** [type(v).__name__] *)
Definition type_name (v : pyval) : pystr :=
  match v with
  | VNone => u "NoneType"
  | VBool _ => u "bool"
  | VInt _ => u "int"
  | VFloat _ => u "float"
  | VStr _ => u "str"
  | VList _ => u "list"
  | VDict _ => u "dict"
  end.

(** Insertion-ordered association lists with text keys: the first entry
    of a key is the one that counts. *)
Fixpoint assoc_get {V} (k : pystr) (d : list (pystr * V)) : option V :=
  match d with
  | [] => None
  | (k', v) :: d' => if eqb k k' then Some v else assoc_get k d'
  end.

(** An existing key keeps its position, a new one goes last. *)
Fixpoint assoc_set {V} (k : pystr) (v : V) (d : list (pystr * V))
  : list (pystr * V) :=
  match d with
  | [] => [(k, v)]
  | (k', v') :: d' =>
    if eqb k k' then (k', v) :: d' else (k', v') :: assoc_set k v d'
  end.

(** [d.get(k)] *)
Definition dict_get (k : pystr) (d : pydict) : option pyval := assoc_get k d.

(** [d.get(k, dflt)] *)
Definition dict_get_default (k : pystr) (dflt : pyval) (d : pydict) : pyval :=
  match dict_get k d with Some v => v | None => dflt end.

(** [d[k] = v] *)
Definition dict_set (k : pystr) (v : pyval) (d : pydict) : pydict :=
  assoc_set k v d.

(** [d.update(d2)] *)
Definition dict_update (d d2 : pydict) : pydict :=
  fold_left (fun acc kv => dict_set (fst kv) (snd kv) acc) d2 d.

(** An exception of class [Exception] or below, with its class name and
    [str(e)].  [KeyboardInterrupt], [SystemExit] and task cancellation are
    not below [Exception] and are not modelled. *)
Inductive exn := Exception (cls : pystr) (msg : pystr).

Definition exn_str (e : exn) : pystr := match e with Exception _ m => m end.

Inductive res (A : Type) :=
| Ok (a : A)
| Raise (e : exn).
Arguments Ok {A} a.
Arguments Raise {A} e.

(** What an attribute access on a value without that attribute raises. *)
Definition AttributeError (v : pyval) (attr : pystr) : exn :=
  Exception (u "AttributeError")
    (u "'" ++ type_name v ++ u "' object has no attribute '" ++ attr ++ u "'").

(** What indexing or slicing a value that does not support it raises. *)
Definition not_subscriptable (v : pyval) : exn :=
  Exception (u "TypeError")
    (u "'" ++ type_name v ++ u "' object is not subscriptable").

(** What [len(None)] raises. *)
Definition no_len (v : pyval) : exn :=
  Exception (u "TypeError")
    (u "object of type '" ++ type_name v ++ u "' has no len()").

(** ** The standard library *)

(** Functions of Python's standard library that the code calls on text the
    models produced.  They are pure functions of their arguments ([Raise]
    stands for the exception they throw), and the statements below hold for
    whatever they compute. *)
Class PyLib := {
  (** [json.loads(text)] *)
  json_loads : pystr -> res pyval;
  (** [re.search(pattern, text, re.DOTALL)] for a pattern with one group:
      [group(1)] of the leftmost match, [None] without a match *)
  re_search_dotall : pystr -> pystr -> option pystr;
  (** [re.search(pattern, text)], likewise *)
  re_search : pystr -> pystr -> option pystr;
  (** [re.split(pattern, text)] *)
  re_split : pystr -> pystr -> list pystr;
  (** whether [Path.glob(pattern)] yields the file of this name *)
  fnmatch : pystr -> pystr -> bool;
  (** [s.lower()] *)
  str_lower : pystr -> pystr;
  (** [c.isalnum()] *)
  isalnum : N -> bool;
  (** [str(v)] for a float, a list or a dict *)
  py_repr : pyval -> pystr;
}.

(** A value inside an f-string. *)
Definition fmt `{PyLib} (v : pyval) : pystr :=
  match v with
  | VStr s => s
  | VNone => u "None"
  | VBool true => u "True"
  | VBool false => u "False"
  | VInt z => str_of_Z z
  | v => py_repr v
  end.

(** An optional text inside an f-string. *)
Definition fmt_opt (t : option pystr) : pystr :=
  match t with Some s => s | None => u "None" end.

(** ** State and exceptions *)

(** A computation runs on a store and gives a value or raises; what it
    wrote before raising stays written. *)
Definition M (St A : Type) : Type := St -> res A * St.

Definition ret {St A} (a : A) : M St A := fun s => (Ok a, s).

Definition raise {St A} (e : exn) : M St A := fun s => (Raise e, s).

Definition bind {St A B} (c : M St A) (k : A -> M St B) : M St B :=
  fun s => match c s with
           | (Ok a, s') => k a s'
           | (Raise e, s') => (Raise e, s')
           end.

#[export] Instance M_ret {St} : MRet (M St) := @ret St.
#[export] Instance M_bind {St} : MBind (M St) := fun A B k c => bind c k.

(** [try: body  except Exception as e: handler] *)
Definition try_except {St A} (body : M St A) (handler : exn -> M St A)
  : M St A :=
  fun s => match body s with
           | (Ok a, s') => (Ok a, s')
           | (Raise e, s') => handler e s'
           end.

Definition lift {St A} (r : res A) : M St A := fun s => (r, s).

Definition get_store {St} : M St St := fun s => (Ok s, s).

Definition modify {St} (f : St -> St) : M St unit := fun s => (Ok tt, f s).

(** [l[i]] *)
Definition list_index {St A} (l : list A) (i : nat) : M St A :=
  match l !! i with
  | Some x => ret x
  | None => raise (Exception (u "IndexError") (u "list index out of range"))
  end.

(** ** The world of the tools *)

(** An image part handed to a model ([types.Part.from_bytes]). *)
Record Part := { part_data : list N; part_mime : pystr }.

Inductive Content :=
| CPart (p : Part)
| CText (s : pystr).

(** The [inline_data] of a part of a model's answer. *)
Record Blob := { blob_mime : option pystr; blob_data : list N }.

Record RespPart := { inline_data : option Blob }.

(** The answer of [generate_content]: [response.text], which is [None] when
    the answer carries no text, and what evaluating
    [response.candidates[0].content.parts] gives. *)
Record Response := {
  resp_text : option pystr;
  resp_parts : res (list RespPart);
}.

(** The calls that leave the process, in the order they were made. *)
Inductive Event :=
| EvGenerate (model : pystr) (contents : list Content)
| EvClock
| EvUuid
| EvMakedirs (dir : pystr)
| EvWrite (path : pystr)
| EvSaveArtifact (filename : pystr)
| EvUpload (path folder : pystr).

(** Everything the tools cannot decide themselves.  An answer may depend on
    how many outside calls came before it (the first argument), so that two
    calls with equal arguments can be answered differently. *)
Record World := {
  environ : pystr -> option pystr;
  static_dir : pystr;
  new_client : pystr -> res unit;
  generate_content : nat -> pystr -> list Content -> res Response;
  strftime_now : nat -> pystr;
  uuid4_hex : nat -> pystr;
  makedirs : nat -> pystr -> res unit;
  write_bytes : nat -> pystr -> res unit;
  save_artifact : nat -> pystr -> Part -> res unit;
  upload_image : nat -> pystr -> pystr -> option pystr;
  abspath : pystr -> pystr;
}.

(** The session dictionary [tool_context.state], at the keys the tools use
    and with the types the tools and the upload callback store there.
    [None] is an absent key. *)
Record Session := {
  uploaded_images : option (list pystr);
  last_uploaded_image : option pystr;
  element_inventory : option pystr;
  design_alternatives : option pystr;
  current_cds : option pystr;
  refined_plan : option pystr;
  workflow_phase : option pystr;
  _user_id : option pystr;
  project_style : option pystr;
  section_type : option pystr;
  _gen_version : option Z;
}.

Definition set_gen_version (v : Z) (ss : Session) : Session :=
  {| uploaded_images := uploaded_images ss;
     last_uploaded_image := last_uploaded_image ss;
     element_inventory := element_inventory ss;
     design_alternatives := design_alternatives ss;
     current_cds := current_cds ss;
     refined_plan := refined_plan ss;
     workflow_phase := workflow_phase ss;
     _user_id := _user_id ss;
     project_style := project_style ss;
     section_type := section_type ss;
     _gen_version := Some v |}.

(** The three keys [analyze_and_propose] stores. *)
Definition set_analysis (inventory alternatives : pystr) (ss : Session)
  : Session :=
  {| uploaded_images := uploaded_images ss;
     last_uploaded_image := last_uploaded_image ss;
     element_inventory := Some inventory;
     design_alternatives := Some alternatives;
     current_cds := current_cds ss;
     refined_plan := refined_plan ss;
     workflow_phase := Some (u "alternatives_shown");
     _user_id := _user_id ss;
     project_style := project_style ss;
     section_type := section_type ss;
     _gen_version := _gen_version ss |}.

(** The three keys [refine_and_generate] stores. *)
Definition set_refined (refined : pystr) (ss : Session) : Session :=
  {| uploaded_images := uploaded_images ss;
     last_uploaded_image := last_uploaded_image ss;
     element_inventory := element_inventory ss;
     design_alternatives := design_alternatives ss;
     current_cds := Some refined;
     refined_plan := Some refined;
     workflow_phase := Some (u "refined");
     _user_id := _user_id ss;
     project_style := project_style ss;
     section_type := section_type ss;
     _gen_version := _gen_version ss |}.

(** What the tools read and write: the session, the image files, the saved
    artifacts, whether the module-level client exists, and the trace of
    outside calls. *)
Record Store := {
  session : Session;
  disk : gmap pystr (list N);
  artifacts : list (pystr * Part);
  client_ready : bool;
  trace : list Event;
}.

Definition with_session (f : Session -> Session) (s : Store) : Store :=
  {| session := f (session s); disk := disk s; artifacts := artifacts s;
     client_ready := client_ready s; trace := trace s |}.

Definition with_file (path : pystr) (data : list N) (s : Store) : Store :=
  {| session := session s; disk := <[path := data]> (disk s);
     artifacts := artifacts s; client_ready := client_ready s;
     trace := trace s |}.

Definition with_artifact (a : pystr * Part) (s : Store) : Store :=
  {| session := session s; disk := disk s; artifacts := artifacts s ++ [a];
     client_ready := client_ready s; trace := trace s |}.

Definition with_client (s : Store) : Store :=
  {| session := session s; disk := disk s; artifacts := artifacts s;
     client_ready := true; trace := trace s |}.

Definition with_event (ev : Event) (s : Store) : Store :=
  {| session := session s; disk := disk s; artifacts := artifacts s;
     client_ready := client_ready s; trace := trace s ++ [ev] |}.

Definition dq : pystr := [34].

(** [state.get(key, dflt)] *)
Definition state_get {A} (v : option A) (dflt : A) : A :=
  match v with Some x => x | None => dflt end.

(** [x or dflt] for an optional text: [None] and the empty text are falsy. *)
Definition or_default (v : option pystr) (dflt : pystr) : pystr :=
  match v with
  | Some ((_ :: _) as s) => s
  | _ => dflt
  end.

(** [bool(x)] for an optional text. *)
Definition nonempty (v : option pystr) : bool :=
  match v with
  | Some (_ :: _) => true
  | _ => false
  end.

(** [os.path.join(a, b)] on POSIX. *)
Definition path_join (a b : pystr) : pystr :=
  if startswith b (u "/") then b
  else if eqb a [] || endswith a (u "/") then a ++ b
  else a ++ u "/" ++ b.

Section Tools.

Context {lib : PyLib} (W : World).

Local Abbreviation T := (M Store).

(** [os.environ.get(name, dflt)] *)
Definition environ_get (name dflt : pystr) : pystr :=
  match environ W name with Some v => v | None => dflt end.

(** An outside call: its answer is the world's at this point of the trace. *)
Definition outside {A} (ev : Event) (answer : nat -> A) : T A :=
  fun s => (Ok (answer (length (trace s))), with_event ev s).

Definition outside_res {A} (ev : Event) (answer : nat -> res A) : T A :=
  fun s => (answer (length (trace s)), with_event ev s).

Definition _get_client : T unit :=
  s ← get_store;
  if client_ready s then ret tt
  else
    match environ W (u "GOOGLE_API_KEY") with
    | Some ((_ :: _) as api_key) =>
      lift (new_client W api_key);;
      modify with_client
    | _ =>
      raise (Exception (u "ValueError")
        (u "GOOGLE_API_KEY environment variable is required. Get a key at: https://aistudio.google.com/apikey"))
    end.

(** [client.models.generate_content(model=..., contents=...)] *)
Definition models_generate_content (model : pystr) (contents : list Content)
  : T Response :=
  outside_res (EvGenerate model contents)
    (fun k => generate_content W k model contents).

Definition FileNotFoundError (path : pystr) : exn :=
  Exception (u "FileNotFoundError")
    (u "[Errno 2] No such file or directory: '" ++ path ++ u "'").

(** The part built from the bytes of an image file. *)
Definition image_part (image_path : pystr) (image_bytes : list N) : Part :=
  let mime := if endswith image_path (u ".png")
              then u "image/png" else u "image/jpeg" in
  {| part_data := image_bytes; part_mime := mime |}.

Definition _load_image (image_path : pystr) : T Part :=
  s ← get_store;
  match disk s !! image_path with
  | Some image_bytes => ret (image_part image_path image_bytes)
  | None => raise (FileNotFoundError image_path)
  end.

(** [_load_image] on what [state.get] gave: [open(None)] raises. *)
Definition _load_image_opt (image_path : option pystr) : T Part :=
  match image_path with
  | Some p => _load_image p
  | None =>
    raise (Exception (u "TypeError")
      (u "expected str, bytes or os.PathLike object, not NoneType"))
  end.

(** [os.path.exists(p)] *)
Definition path_exists (s : Store) (p : pystr) : bool :=
  match disk s !! p with Some _ => true | None => false end.

(** *** The consistency verifier *)

Record ConsistencyReport := {
  passed : pyval;
  score : pyval;
  issues : pyval;
}.

Definition consistency_prompt : pystr :=
  u "Eres un inspector de calidad de imágenes de renovación cosmética (facelift).
Compara la imagen ORIGINAL (primera) con la imagen GENERADA (segunda).

REGLAS DE CONSISTENCIA — la imagen generada SOLO puede cambiar:
✅ PERMITIDO: colores de paredes, pintura, acabados superficiales, iluminación
✅ PERMITIDO: color de puertas, ventanas, rejas (sin cambiar forma)
✅ PERMITIDO: añadir plantas decorativas o macetas

❌ PROHIBIDO alterar:
- Geometría o forma de la estructura (paredes, tejado, ventanas, puertas)
- Forma o posición de la piscina
- Árboles y vegetación existente (no eliminar ni mover)
- Perspectiva, proporciones o composición de la foto
- Paisaje de fondo
- Textura de piedra natural (solo pintar sobre ella, no alisar)

Responde EXACTAMENTE en este formato JSON:
{"
  ++ dq
  ++ u "passed"
  ++ dq
  ++ u ": true/false, "
  ++ dq
  ++ u "score"
  ++ dq
  ++ u ": 0-100, "
  ++ dq
  ++ u "issues"
  ++ dq
  ++ u ": ["
  ++ dq
  ++ u "issue1"
  ++ dq
  ++ u ", "
  ++ dq
  ++ u "issue2"
  ++ dq
  ++ u "]}

- score 90-100: Excelente, solo cambios cosméticos
- score 70-89: Aceptable, cambios menores no deseados
- score 50-69: Problemas significativos
- score 0-49: Inaceptable, cambios estructurales graves

Si passed=true, issues debe estar vacío. Si passed=false, lista cada problema.".

(** [response.text.strip()]: an answer without text has [text = None]. *)
Definition text_strip (t : option pystr) : T pystr :=
  match t with
  | Some s => ret (strip s)
  | None => raise (AttributeError VNone (u "strip"))
  end.

(** The JSON text inside an answer that may be wrapped in a code fence. *)
Definition extract_json (text : pystr) : T pystr :=
  if contains text (u "```") then
    text ← list_index (split text (u "```")) 1;
    let text := if startswith text (u "json") then slice_from 4 text else text in
    ret (strip text)
  else ret text.

(** [result.get(key, dflt)] on whatever [json.loads] gave. *)
Definition result_get (result : pyval) (key : pystr) (dflt : pyval) : T pyval :=
  match result with
  | VDict d => ret (dict_get_default key dflt d)
  | v => raise (AttributeError v (u "get"))
  end.

(** The first half of the [try] of [_consistency_check]: the judgment call
    and the decoding of its answer. *)
Definition ask_judge (original_part generated_part : Part) : T pyval :=
  _get_client;;
  let model_id := environ_get (u "MODEL_ID") (u "gemini-3-flash-preview") in
  response ← models_generate_content model_id
    [CPart original_part; CPart generated_part; CText consistency_prompt];
  text ← text_strip (resp_text response);
  text ← extract_json text;
  lift (json_loads text).

(** The second half: the report read off the decoded answer. *)
Definition report_of (result : pyval) : T ConsistencyReport :=
  p ← result_get result (u "passed") (VBool false);
  sc ← result_get result (u "score") (VInt 0);
  i ← result_get result (u "issues") (VList []);
  ret {| passed := p; score := sc; issues := i |}.

(** The body of the [try]. *)
Definition judgment (original_part generated_part : Part)
  : T ConsistencyReport :=
  result ← ask_judge original_part generated_part;
  report_of result.

(** The report of the [except] branch. *)
Definition fail_open (e : exn) : ConsistencyReport :=
  {| passed := VBool true;
     score := VInt (-1);
     issues := VList [VStr (u "Check error: " ++ exn_str e)] |}.

Definition _consistency_check (original_path generated_path : pystr)
  : T ConsistencyReport :=
  original_part ← _load_image original_path;
  generated_part ← _load_image generated_path;
  try_except (judgment original_part generated_part)
    (fun e => ret (fail_open e)).

(** The report read off a decoded object. *)
Definition report_of_dict (d : pydict) : ConsistencyReport :=
  {| passed := dict_get_default (u "passed") (VBool false) d;
     score := dict_get_default (u "score") (VInt 0) d;
     issues := dict_get_default (u "issues") (VList []) d |}.

(** The shape the specification asks of every report. *)
Definition report_shape (r : ConsistencyReport) : Prop :=
  (passed r = VBool true -> issues r = VList []) /\
  (exists z : Z, score r = VInt z /\ ((0 <= z <= 100)%Z \/ z = (-1)%Z)).


(** *** The edit-instruction compiler *)

Definition CONSISTENCY_RULES : pystr :=
  u "REGLAS CRÍTICAS — LEE TODAS ANTES DE EDITAR:

ESTO ES UN LAVADO DE CARA (facelift). SOLO se cambian COLORES y ACABADOS.
REGLA DE ORO: Si algo YA está bien (suelo, parquet, techo blanco) → NO TOCARLO.
El suelo/parquet en buen estado DEBE aparecer IDÉNTICO en la imagen generada.
Techo y paredes en buen estado → MANTENER color y acabado exacto.

1. UNIFORMIDAD ENTRE PLANTAS: El MISMO tratamiento y color se aplica a TODAS las plantas de la fachada. Planta baja y planta alta IDÉNTICAS en color.
2. PRESERVAR TEXTURAS: La piedra natural mantiene su RELIEVE y TEXTURA original. Solo se cambia el COLOR pintando sobre ella. NO alisar, NO quitar, NO reemplazar piedras.
3. PRESERVAR GEOMETRÍA: NO mover, eliminar, añadir ni modificar la FORMA de ningún elemento (muros, ventanas, puertas, tejado, piscina, edificios).
4. PISCINA: Mantener SIEMPRE visible, en su posición y forma exacta.
5. ÁRBOLES y VEGETACIÓN: Mantener en su posición exacta.
6. Elementos NO mencionados como CAMBIAR → quedar EXACTAMENTE como en la original.
7. Aplicar los colores RAL especificados con PRECISIÓN en TODA la superficie indicada.
8. La perspectiva, proporciones y composición deben ser EXACTAS a la foto original.
9. Generar una imagen FOTORREALISTA de ALTA CALIDAD.
10. TEJAS: Si se especifica un color, aplicar a TODAS las tejas por igual.

CAMBIOS PROHIBIDOS:
- NO cambiar la forma de ventanas, puertas o tejado
- NO eliminar ni mover piedras — solo PINTARLAS conservando su textura
- NO cambiar la forma de la piscina ni sus bordes
- NO añadir elementos arquitectónicos nuevos (balcones, terrazas, etc.)
- NO modificar la vegetación existente
- NO cambiar el paisaje de fondo
- NO aplicar tratamientos diferentes entre planta baja y planta alta".

(** The head every edit instruction starts with. *)
Definition EDIT_HEAD : pystr :=
  u "Edita esta imagen aplicando SOLO cambios de pintura y color (facelift/lavado de cara):

".

(** [f"Edita ...:\n\n{p}\n\n{CONSISTENCY_RULES}"] *)
Definition with_rules (p : pystr) : pystr :=
  EDIT_HEAD ++ p ++ u "

" ++ CONSISTENCY_RULES.

Definition image_prompts_prompt (alternatives inventory : pystr) (count : Z)
  : pystr :=
  u "Eres un experto en crear prompts para modelos de edición de imagen.

INVENTARIO DE ELEMENTOS EN LA IMAGEN:
"
  ++ inventory
  ++ u "

ALTERNATIVAS DE DISEÑO PROPUESTAS:
"
  ++ alternatives
  ++ u "

Crea EXACTAMENTE "
  ++ str_of_Z count
  ++ u " prompts de edición de imagen (uno por cada alternativa).
Cada prompt debe describir TODOS los cambios a aplicar sobre la foto original.

Formato OBLIGATORIO (usa EXACTAMENTE estos delimitadores):

===PROMPT_1===
[prompt detallado para alternativa A]
===FIN_1===

===PROMPT_2===
[prompt detallado para alternativa B]
===FIN_2===

===PROMPT_3===
[prompt detallado para alternativa C]
===FIN_3===

REGLAS OBLIGATORIAS para cada prompt:
- UNIFORMIDAD ENTRE PLANTAS: Escribe EXPLÍCITAMENTE que TODAS las plantas (baja, alta)
  reciben el MISMO color y tratamiento. Ejemplo:
  "
  ++ dq
  ++ u "Pintar TODAS las paredes de estuco de AMBAS plantas (baja y alta) en blanco RAL 9010"
  ++ dq
  ++ u "
- PIEDRA NATURAL: Especifica que se PINTA SOBRE la piedra conservando su textura y relieve
  natural. NO alisar, NO quitar piedras. Solo aplicar color encima manteniendo la forma.
- TEJAS: Si cambian, especificar el color EXACTO para TODAS las tejas por igual.
  Si no cambian, escribir "
  ++ dq
  ++ u "MANTENER tejas sin cambios"
  ++ dq
  ++ u ".
- Lista CADA superficie y su nuevo color RAL exacto
- Para elementos que NO cambian, escribe explícitamente:
  "
  ++ dq
  ++ u "MANTENER SIN CAMBIOS: [elemento] en su posición, forma y color actual"
  ++ dq
  ++ u "
- Incluye las adiciones (gravilla, maceteros, iluminación)
- Menciona explícitamente que la piscina debe conservarse
- Menciona que edificios auxiliares se pintan del mismo color que la casa
- Especifica que es un LAVADO DE CARA: solo cambios de color/pintura, no estructurales
".

(** [rf"===PROMPT_{i}===\s*\n(.*?)\n===FIN_{i}==="] *)
Definition delimiter_pattern (i : Z) : pystr :=
  u "===PROMPT_" ++ str_of_Z i ++ u "===\s*\n(.*?)\n===FIN_" ++ str_of_Z i
  ++ u "===".

Definition section_pattern : pystr :=
  u "\n(?=(?:Prompt|PROMPT|Alternativa)\s*[ABC123])".

(** [range(1, count + 1)] *)
Definition range1 (count : Z) : list Z :=
  map (fun k => Z.of_nat k) (seq 1 (Z.to_nat count)).

(** The loop over the delimiters: one prompt per delimiter pair found. *)
Definition delimited (text : pystr) (count : Z) : list pystr :=
  fold_left
    (fun prompts i =>
       match re_search_dotall (delimiter_pattern i) text with
       | Some g => prompts ++ [strip g]
       | None => prompts
       end)
    (range1 count) [].

(** [[s.strip() for s in sections if len(s.strip()) > 100][:count]], where
    [count] is positive. *)
Definition sections (text : pystr) (count : Z) : list pystr :=
  take (Z.to_nat count)
    (map strip
       (filter (fun s => (100 <? len (strip s))%Z = true)
          (re_split section_pattern text))).

(** The parsing of the model's text, from the delimiters down to the whole
    text. *)
Definition parse_prompts (text : pystr) (count : Z) : list pystr :=
  let prompts := delimited text count in
  let prompts :=
    if (len_list prompts <? count)%Z then sections text count else prompts in
  if (len_list prompts <? 1)%Z then [text] else prompts.

Definition _ai_create_image_prompts (alternatives inventory : pystr)
  (count : Z) : T (list pystr) :=
  _get_client;;
  let model_id := environ_get (u "MODEL_ID") (u "gemini-3-flash-preview") in
  let prompt := image_prompts_prompt alternatives inventory count in
  response ← models_generate_content model_id [CText prompt];
  match resp_text response with
  | Some text => ret (map with_rules (parse_prompts text count))
  | None =>
    (* [re.search(pattern, None)] raises in the first round of the loop;
       without a round, [None] is formatted as the single prompt *)
    if (1 <=? count)%Z
    then raise (Exception (u "TypeError")
           (u "expected string or bytes-like object, got 'NoneType'"))
    else ret [with_rules (u "None")]
  end.

Definition refined_prompt_prompt (refined_plan inventory : pystr) : pystr :=
  u "Eres un experto en crear prompts para modelos de edición de imagen.

INVENTARIO DE ELEMENTOS:
"
  ++ inventory
  ++ u "

PLAN REFINADO:
"
  ++ refined_plan
  ++ u "

Crea UN prompt de edición de imagen que describa TODOS los cambios a aplicar.

REGLAS OBLIGATORIAS:
- Lista CADA superficie y su nuevo color RAL exacto.
- UNIFORMIDAD ENTRE PLANTAS: Escribe EXPLÍCITAMENTE que TODAS las plantas
  (baja, alta) reciben el MISMO color y tratamiento exacto.
- PIEDRA NATURAL: Se PINTA SOBRE la piedra conservando su textura y relieve.
  NO alisar, NO quitar piedras. Solo aplicar color encima manteniendo la forma original.
- TEJAS: Si cambian, especificar color exacto para TODAS las tejas por igual.
- Para elementos que NO cambian, escribe "
  ++ dq
  ++ u "MANTENER SIN CAMBIOS: [elemento]"
  ++ dq
  ++ u ".
- Especifica que es un LAVADO DE CARA: solo pintura y color, no cambios de forma.

Devuelve SOLO el prompt, sin explicaciones adicionales.
".

Definition _ai_create_refined_image_prompt (refined_plan inventory : pystr)
  : T pystr :=
  _get_client;;
  let model_id := environ_get (u "MODEL_ID") (u "gemini-3-flash-preview") in
  let prompt := refined_prompt_prompt refined_plan inventory in
  response ← models_generate_content model_id [CText prompt];
  ret (with_rules (fmt_opt (resp_text response))).

(** *** Image generation *)

Definition filename_prompt (prompt : pystr) : pystr :=
  u "Given this design description: '"
  ++ slice_to 300 prompt
  ++ u "', generate a short descriptive filename (max 4 words, Spanish preferred). Use underscores, no spaces. IMPORTANT: The filename MUST reflect the actual space type:
- If it's a bathroom/baño: start with 'bano_' (e.g. bano_moderno_gris)
- If it's a kitchen/cocina: start with 'cocina_' (e.g. cocina_blanca_moderna)
- If it's a bedroom/dormitorio: start with 'dormitorio_' (e.g. dormitorio_minimalista)
- If it's a living room/salón: start with 'salon_' (e.g. salon_elegante)
- If it's exterior/facade/fachada: start with 'fachada_' (e.g. fachada_gris_perla)
- If it's garden/jardín: start with 'jardin_' (e.g. jardin_zen_minimalista)
Return ONLY the filename, nothing else.".

Definition _generate_filename (prompt timestamp : pystr) : T pystr :=
  _get_client;;
  try_except
    (response ← models_generate_content
       (environ_get (u "MODEL_ID") (u "gemini-3-flash-preview"))
       [CText (filename_prompt prompt)];
     name ← text_strip (resp_text response);
     let name := str_lower name in
     let name := replace (replace name (u " ") (u "_")) (u "-") (u "_") in
     let name := filter (fun c => (isalnum c || (c =? 95)) = true) name in
     match name with
     | [] => ret (u "facelift_" ++ timestamp)
     | _ => ret (name ++ u "_" ++ timestamp)
     end)
    (fun _ => ret (u "facelift_" ++ timestamp)).

(** The text [_generate_image] returns for a saved image. *)
Definition success_text (abs_path image_model : pystr) (gcs_url : option pystr)
  : pystr :=
  let gcs_note :=
    match gcs_url with
    | Some ((_ :: _) as url) => u "
- **GCS**: " ++ url
    | _ => []
    end in
  u "Image successfully edited!
- **Local file**: `" ++ abs_path ++ u "`
- **ADK Artifacts tab**: check 'Artifacts' tab to view/download.
- **Model**: " ++ image_model ++ gcs_note.

Definition NO_IMAGE : pystr :=
  u "Error: The model did not return an edited image. Try rephrasing your request.".

(** The loop over the parts of the answer: the first image part is written
    to disk, saved as an artifact and uploaded, and ends the call. *)
Fixpoint save_first_image (filename output_path user_id image_model : pystr)
  (parts : list RespPart) : T pystr :=
  match parts with
  | [] => ret NO_IMAGE
  | part :: rest =>
    match inline_data part with
    | None => save_first_image filename output_path user_id image_model rest
    | Some blob =>
      match blob_mime blob with
      | None => raise (AttributeError VNone (u "startswith"))
      | Some mime =>
        if startswith mime (u "image/") then
          outside_res (EvWrite output_path)
            (fun k => write_bytes W k output_path);;
          modify (with_file output_path (blob_data blob));;
          let artifact :=
            {| part_data := blob_data blob; part_mime := mime |} in
          outside_res (EvSaveArtifact filename)
            (fun k => save_artifact W k filename artifact);;
          modify (with_artifact (filename, artifact));;
          let folder := u "generated/" ++ user_id in
          gcs_url ← outside (EvUpload output_path folder)
            (fun k => upload_image W k output_path folder);
          ret (success_text (abspath W output_path) image_model gcs_url)
        else save_first_image filename output_path user_id image_model rest
      end
    end
  end.

Definition _generate_image (edit_prompt : pystr) (image_path : option pystr)
  : T pystr :=
  image_part ← _load_image_opt image_path;
  let image_model :=
    environ_get (u "IMAGE_MODEL") (u "gemini-3-pro-image-preview") in
  _get_client;;
  response ← models_generate_content image_model
    [CPart image_part; CText edit_prompt];
  outside_res (EvMakedirs (static_dir W))
    (fun k => makedirs W k (static_dir W));;
  timestamp ← outside EvClock (strftime_now W);
  s ← get_store;
  let user_id := state_get (_user_id (session s)) (u "anon") in
  let style :=
    replace (slice_to 12 (or_default (project_style (session s)) (u "moderno")))
      (u " ") (u "_") in
  let section :=
    replace (slice_to 10 (or_default (section_type (session s)) (u "general")))
      (u " ") (u "_") in
  let gen_version := state_get (_gen_version (session s)) 0%Z in
  modify (with_session (set_gen_version (gen_version + 1)));;
  short_id ← outside EvUuid (fun k => slice_to 6 (uuid4_hex W k));
  base_filename ← _generate_filename edit_prompt timestamp;
  let filename :=
    user_id ++ u "_" ++ style ++ u "_" ++ section ++ u "_" ++ base_filename
    ++ u "_v" ++ str_of_Z gen_version ++ u "_" ++ short_id ++ u ".png" in
  let output_path := path_join (static_dir W) filename in
  parts ← lift (resp_parts response);
  save_first_image filename output_path user_id image_model parts.

(** *** Refinement of the design specification *)

Definition UPDATE_HEAD : pystr :=
  u "Eres un arquitecto de diseño exterior experto.

INVENTARIO ORIGINAL DE ELEMENTOS:
".

Definition UPDATE_CDS : pystr :=
  u "

ESPECIFICACIÓN DE DISEÑO ACTUAL (CDS):
".

Definition UPDATE_FEEDBACK : pystr :=
  u "

FEEDBACK DEL USUARIO:
".

Definition UPDATE_RULES : pystr :=
  u "

INSTRUCCIONES:
Actualiza la CDS incorporando el feedback del usuario.

REGLAS ESTRICTAS DE HERENCIA Y PRESERVACIÓN:
1. NO crees 3 nuevas alternativas — solo 1 CDS actualizada.
2. CADA ELEM del inventario DEBE aparecer (como CAMBIAR o MANTENER).
3. Aplica TODOS los cambios del feedback del usuario.
4. Los elementos que el usuario NO mencionó → HEREDAR EXACTAMENTE el tratamiento
   de la CDS actual. NO los modifiques, NO los pierdas, NO los reinicies.
5. La piscina SIEMPRE se mantiene.
6. Los árboles SIEMPRE se mantienen.
7. UNIFORMIDAD ENTRE PLANTAS: Si el usuario pide un cambio en una superficie,
   aplicar el MISMO cambio a TODAS las plantas (baja, alta) salvo que pida
   explícitamente lo contrario.
8. PIEDRA: Solo PINTAR sobre ella conservando textura/relieve. NUNCA quitar ni reemplazar.
9. TEJAS: Si se cambian, deben ser de un color ACORDE al diseño general.
10. Esto es un LAVADO DE CARA: solo pintura y acabados, no cambios estructurales.

FORMATO DE RESPUESTA:

## 🏠 Propuesta Refinada: [nombre]

### Cambios aplicados según tu feedback:
[lista ESPECÍFICA de qué cambios incorporaste del feedback]

### Resumen visual:
[descripción del resultado final con colores RAL específicos para cada superficie]

**CDS_ACTUALIZADA:**
CAMBIAR:
- [ELEM_XX]: [color RAL + acabado + tipo pintura específica para ese sustrato]
  Proceso: 1) [preparación] 2) [imprimación adecuada al sustrato] 3) [pintura final]
  (HEREDADO de CDS anterior / MODIFICADO según feedback)
MANTENER SIN CAMBIOS:
- [ELEM_XX]: [descripción detallada de lo que tiene actualmente]
AÑADIR:
- [nuevos elementos si aplica]

### Plan de ejecución por superficie:
| Elemento | Sustrato | Preparación | Imprimación | Pintura final | Color RAL | m² | Litros |
|----------|----------|-------------|-------------|---------------|-----------|-----|--------|

### Herramientas necesarias:
[lista agrupada por tarea: limpieza, pintura, instalación]

CHECKLIST OBLIGATORIO (verifica ANTES de responder):
- ¿Aparecen TODOS los ELEM_XX del inventario en la CDS_ACTUALIZADA?
- ¿Las plantas alta y baja tienen el MISMO color y tratamiento?
- ¿La piedra conserva su textura (solo pintada, no reemplazada)?
- ¿La piscina está como MANTENER?
- ¿Los árboles están como MANTENER?
- ¿El feedback del usuario se aplicó correctamente?
- ¿Los elementos no mencionados HEREDAN el tratamiento de la CDS anterior?
- ¿Las tejas tienen un color acorde al diseño?
".

Definition update_prompt (inventory current_cds user_feedback : pystr) : pystr :=
  UPDATE_HEAD ++ inventory ++ UPDATE_CDS ++ current_cds ++ UPDATE_FEEDBACK
  ++ user_feedback ++ UPDATE_RULES.

(** The updated specification is the text of the model's answer. *)
Definition _ai_update_design_spec (inventory current_cds user_feedback : pystr)
  : T (option pystr) :=
  _get_client;;
  let model_id := environ_get (u "MODEL_ID") (u "gemini-3-flash-preview") in
  let prompt := update_prompt inventory current_cds user_feedback in
  response ← models_generate_content model_id [CText prompt];
  ret (resp_text response).

Definition NO_INVENTORY : pystr :=
  u "Error: No hay inventario previo. Primero sube una imagen para que pueda analizarla.".

(** The specification a refinement starts from: the current one, or the
    alternatives of the analysis at the first refinement. *)
Definition prior_spec (ss : Session) : pystr :=
  match state_get (current_cds ss) [] with
  | [] => state_get (design_alternatives ss) []
  | cds => cds
  end.

(** Steps 2 and 3 of the refinement: the edit instruction and the image. *)
Definition render_refined (refined inventory : pystr) : T pystr :=
  image_prompt ← _ai_create_refined_image_prompt refined inventory;
  s ← get_store;
  let image_path :=
    match state_get (uploaded_images (session s)) [] with
    | first :: _ => Some first
    | [] => last_uploaded_image (session s)
    end in
  image_status ←
    try_except
      (_generate_image image_prompt image_path;;
       ret (u "**Imagen refinada**: ✅ Generada"))
      (fun e => ret (u "**Imagen refinada**: ❌ Error - " ++ exn_str e));
  ret (refined ++ u "

---

## 📸 Imagen Refinada

" ++ image_status ++ u "

**Revisa la pestaña Artifacts para ver la imagen.**

¿Te gusta el resultado? Puedo:
- Ajustar más colores o detalles
- Generar la lista de compra con materiales y herramientas").

Definition refine_and_generate (user_feedback : pystr) : T pystr :=
  s ← get_store;
  let inventory := state_get (element_inventory (session s)) [] in
  match inventory with
  | [] => ret NO_INVENTORY
  | _ =>
    let current_cds := prior_spec (session s) in
    refined ← _ai_update_design_spec inventory current_cds user_feedback;
    (* [len(refined)] in the log call *)
    refined ← match refined with
               | Some r => ret r
               | None => raise (no_len VNone)
               end;
    modify (with_session (set_refined refined));;
    render_refined refined inventory
  end.

(** *** Reading a specification *)

(** The rule of the update prompt on elements the feedback leaves alone. *)
Definition INHERIT_RULE : pystr :=
  u "4. Los elementos que el usuario NO mencionó → HEREDAR EXACTAMENTE el tratamiento
   de la CDS actual. NO los modifiques, NO los pierdas, NO los reinicies.".

(** The rule of the update prompt on repeated floors. *)
Definition UNIFORM_RULE : pystr :=
  u "7. UNIFORMIDAD ENTRE PLANTAS: Si el usuario pide un cambio en una superficie,
   aplicar el MISMO cambio a TODAS las plantas (baja, alta) salvo que pida
   explícitamente lo contrario.".

(** A specification is a text.  The format the prompts prescribe gives
    every element one line, a dash, the identifier, a colon and the
    treatment; the treatment of an element is what follows the colon on the
    first such line. *)
Definition treatment_of (elem : pystr) (cds : pystr) : option pystr :=
  let tag := u "- " ++ elem ++ u ":" in
  match filter (fun l => startswith l tag = true) (split cds (u "
")) with
  | l :: _ => Some (drop (length tag) l)
  | [] => None
  end.

(** The feedback names an element. *)
Definition mentions (feedback elem : pystr) : bool := contains feedback elem.

(** *** Analysis and the fan-out of the previews *)

Definition inventory_prompt : pystr :=
  u "Eres un experto en diseño de exteriores/interiores y en materiales de construcción. Analiza esta imagen para una renovación cosmética (facelift / lavado de cara). Responde EN ESPAÑOL.

FILOSOFÍA CLAVE: Maximizar efecto WOW de moderno, elegante y caro con MÍNIMA inversión.
Si algo YA está bien, en buen estado y no se ve desfasado → NO SE TOCA.
Ejemplo: Un parquet en buen estado NO se cambia. Paredes blancas limpias pueden quedarse.

Crea un INVENTARIO NUMERADO de ABSOLUTAMENTE TODO lo que se ve.
Formato EXACTO para cada elemento:

ELEM_XX: [nombre del elemento]
  Ubicación: [planta baja / planta alta / ambas plantas / tejado / perímetro / jardín / pared norte / pared sur / etc.]
  Material sustrato: [piedra natural / estuco-enfoscado / ladrillo / bloque hormigón / metal / madera / parquet / tarima / porcelánico / teja cerámica / hormigón / etc.]
  Color actual: [describe con precisión, incluyendo variaciones entre zonas]
  Estado: [bueno | desgastado | anticuado | necesita tratamiento]
  Superficie: [m² estimados]
  Exposición: [exterior pleno sol / exterior sombra / interior / semi-cubierto]
  Problema estético: [qué lo hace feo/anticuado, o 'NINGUNO - está bien como está']
  ¿Merece cambio?: [SÍ - explicar por qué / NO - está bien, no invertir aquí]
  Preparación necesaria: [hidrolavado / decapado / lijado / reparar fisuras / ninguna]

AGRUPACIÓN POR PLANTAS — CRÍTICO:
- Si el edificio tiene VARIAS PLANTAS, crea elementos SEPARADOS para cada planta
  pero IDENTIFICA que comparten el mismo tipo de superficie.
  Ejemplo:
    ELEM_01: Paredes estuco PLANTA BAJA
    ELEM_02: Paredes estuco PLANTA ALTA
    ELEM_03: Piedra esquineras PLANTA BAJA
    ELEM_04: Piedra esquineras PLANTA ALTA
- Esto permite aplicar EXACTAMENTE el MISMO tratamiento a todas las plantas.

Incluye OBLIGATORIAMENTE:
- Paredes de CADA PLANTA por separado (estuco, enfoscado, etc.)
- Piedra natural de CADA PLANTA (esquineras, marcos, zócalos)
- Tejado/tejas (material, color, estado, tipo de teja)
- Ventanas y marcos (de cada planta y edificio)
- Muros perimetrales/laterales (bloque, ladrillo, etc.)
- Piscina (si existe) — forma, cubierta, bordes, coronación
- Suelos y pavimentos
- Jardín/césped/vegetación
- Casetas, cobertizos u otros edificios auxiliares
- Carpintería metálica (rejas, barandillas)
- Iluminación existente

Sé EXHAUSTIVO. Cada elemento que no esté en el inventario podría desaparecer de las imágenes generadas.

IMPORTANTE: Identifica el SUSTRATO REAL de cada superficie porque determina
el tipo de pintura e imprimación necesario:
  - Piedra natural → imprimación silicato + pintura mineral silicato
  - Estuco/enfoscado → fijador + pintura siloxánica exterior
  - Metal → lija óxido + imprimación antioxidante + esmalte
  - Madera → lijado + lasur protector exterior
  - Teja cerámica → hidrolavado + pintura impermeabilizante tejas".

Definition multi_note (n : Z) : pystr :=
  u "

NOTA: Se proporcionan "
  ++ str_of_Z n
  ++ u " fotos del MISMO espacio desde diferentes ángulos. Analiza TODAS las fotos para crear un inventario completo que incluya elementos visibles desde cualquier ángulo.
".

Definition NO_VALID_IMAGES : pystr :=
  u "Error: No se encontraron imágenes válidas.".

(** [[_load_image(p) for p in image_paths if os.path.exists(p)]] *)
Fixpoint load_existing (image_paths : list pystr) : T (list Part) :=
  match image_paths with
  | [] => ret []
  | p :: rest =>
    s ← get_store;
    if path_exists s p
    then part ← _load_image p; parts ← load_existing rest; ret (part :: parts)
    else load_existing rest
  end.

Definition _vision_inventory (image_paths : list pystr) : T (option pystr) :=
  image_parts ← load_existing image_paths;
  match image_parts with
  | [] => ret (Some NO_VALID_IMAGES)
  | _ =>
    let note :=
      if (1 <? len_list image_parts)%Z
      then multi_note (len_list image_parts) else [] in
    _get_client;;
    let model_id := environ_get (u "MODEL_ID") (u "gemini-3-flash-preview") in
    response ← models_generate_content model_id
      (map CPart image_parts ++ [CText (inventory_prompt ++ note)]);
    ret (resp_text response)
  end.

Definition alternatives_prompt (inventory : pystr) : pystr :=
  u "Eres un arquitecto de diseño exterior experto en tendencias 2026.

INVENTARIO COMPLETO DE ELEMENTOS EN LA IMAGEN:
"
  ++ inventory
  ++ u "

FILOSOFÍA: Esto es un LAVADO DE CARA (facelift) para aumentar el valor de la casa.
Solo pintamos y tratamos superficies. NO cambiamos geometría, forma ni estructura.
La piedra se PINTA conservando su textura y relieve natural, NUNCA se quita ni reemplaza.

⚠️ REGLA DE ORO: MÁXIMO WOW CON MÍNIMA INVERSIÓN ⚠️
- Un parquet/suelo en buen estado → SIEMPRE MANTENER. No cambiarlo.
- Techo blanco en buen estado → evaluar. Si pintar añade valor WOW, hacerlo.
- Paredes en buen estado → evaluar. Si pintar en otro color añade valor WOW, hacerlo.
- REGLA CRÍTICA DE PINTURA: Si se pintan paredes o techo → SIEMPRE MISMO COLOR EN AMBOS.
  Ejemplo: Si paredes van en gris, techo también va en gris. NUNCA techo blanco + paredes color.
- El inventario marca '¿Merece cambio?: NO' → esos elementos van SIEMPRE como MANTENER.
- Priorizar cambios de ALTO IMPACTO y BAJO COSTE (pintura, iluminación, textiles).
- Griferías baño → por defecto NEGRO mate RAL 9005 (tendencia 2026, elegante y moderno).
- Solo cambiar lo que REALMENTE mejora el aspecto: mobiliario anticuado, colores desfasados,
  iluminación pobre, elementos que se ven viejos o baratos.

REGLAS DE DISEÑO MODERNO 2026 (con proceso técnico):
- Piedra vieja/rústica → PINTAR sobre ella (conservando relieve y textura)
  Proceso: 1) Hidrolavado 130bar 2) Secado 48h 3) Imprimación silicato 4) Pintura mineral silicato
  Colores: Negro mate RAL 9005, Antracita RAL 7016, o Gris polvo RAL 7037
- Paredes estuco/enfoscado → pintar gris/blanco
  Proceso: 1) Limpieza 2) Reparar fisuras con masilla exterior 3) Fijador acrílico 4) Pintura siloxánica exterior
  Colores: Blanco RAL 9010, Gris claro RAL 7035, Gris cálido RAL 7044
- Muros bloque/ladrillo feos → enfoscar y pintar mismo color que la casa
- Metal oxidado → 1) Lijar óxido 2) Imprimación antioxidante 3) Esmalte poliuretano satinado
  Color: Negro satinado RAL 9005 o Gris forja RAL 7024
- Tejas/tejado → 1) Hidrolavado 2) Pintura impermeabilizante para tejas (color ACORDE al diseño)
- Madera → 1) Lijado 2) Lasur protector exterior (Nogal oscuro, Ébano, Gris envejecido)
- Casetas/edificios auxiliares → MISMO color que la casa principal (unificar)
- Gravilla → SOLO en EXTERIORES (jardín, perímetro, caminos exteriores). NUNCA en interiores, baños ni cocinas.
  Si es exterior: decorativa en bordes, dejar paso peatonal 90cm mín.
  Si es interior: NO proponer gravilla. Proponer suelo porcelánico, microcemento o similar.
- Piscina → MANTENER SIEMPRE, nunca eliminar ni ocultar
- Árboles/vegetación existente → MANTENER SIEMPRE en su posición

REGLA CRÍTICA DE UNIFORMIDAD ENTRE PLANTAS:
- Las paredes de TODAS las plantas reciben el MISMO color y acabado.
- La piedra de TODAS las plantas recibe el MISMO tratamiento y color.
- NO puede haber una planta con un diseño y otra con otro. Fachada UNIFORME.

GENERA EXACTAMENTE 3 ALTERNATIVAS. Para CADA alternativa, genera:

1. DESCRIPCIÓN DETALLADA para el usuario (concepto, colores RAL específicos, efecto visual)
2. TABLA de tratamiento por elemento
3. CDS (Cumulative Design Specification) con proceso de ejecución

Formato EXACTO:

## 🅰 Alternativa A: [Nombre creativo]
**Concepto**: [2-3 frases describiendo la visión, los colores RAL específicos, y el efecto final]

| Elemento | Acción | Color RAL | Proceso de ejecución |
|----------|--------|-----------|---------------------|
| [cada ELEM_XX] | CAMBIAR / MANTENER | [RAL XXXX] | [preparación → imprimación → acabado] |

Adicionales (SOLO si tienen sentido para el TIPO de espacio):
- **Caminos/Gravilla**: [SOLO EXTERIOR — propuesta con posición, ancho y tipo]
- **Maceteros/Plantas**: [tipo, posición — adecuadas al espacio interior/exterior]
- **Iluminación**: [tipo, IP, color temperatura]

NOTA: Adapta las propuestas al CONTEXTO. Exterior → gravilla, plantas, iluminación IP65.
Interior → suelos, iluminación empotrada, acabados de pared. Baño → azulejos, grifería, mampara.

**CDS_A:**
CAMBIAR:
- [ELEM_XX]: [color RAL + acabado + tipo pintura específica para ese sustrato]
  Proceso: 1) [preparación] 2) [imprimación] 3) [pintura final]
MANTENER SIN CAMBIOS:
- [ELEM_XX]: [descripción detallada de lo que tiene — para que el modelo de imagen lo conserve]
AÑADIR:
- [nuevos elementos: gravilla, maceteros, iluminación, etc.]

(Repite EXACTAMENTE igual para B y C con paletas DIFERENTES)

IMPORTANTE:
- CADA alternativa DEBE listar TODOS los ELEM del inventario (cambiar o mantener)
- Elementos con '¿Merece cambio?: NO' en el inventario → SIEMPRE como MANTENER
- Suelo/parquet en buen estado → SIEMPRE MANTENER (NUNCA cambiar)
- Si se pintan paredes o techo → SIEMPRE MISMO COLOR EN AMBOS (ej: gris paredes = gris techo)
- Griferías baño → por defecto NEGRO mate RAL 9005 (tendencia 2026)
- Alternativa A: contrastada (negro + gris claro/blanco)
- Alternativa B: monocromática premium (escala de grises)
- Alternativa C: cálida y acogedora (grises cálidos/greige)
- La piscina SIEMPRE aparece como MANTENER
- Los árboles SIEMPRE aparecen como MANTENER
- Edificios auxiliares SIEMPRE se unifican con la casa principal
- TODAS las plantas de la fachada reciben el MISMO color y tratamiento
- Las tejas deben tener un color ACORDE al diseño general
- La piedra se PINTA (conservando textura), NUNCA se quita
- Incluye el PROCESO TÉCNICO para que el usuario sepa qué hacer paso a paso
".

Definition _ai_generate_cds_alternatives (inventory : pystr)
  : T (option pystr) :=
  _get_client;;
  let model_id := environ_get (u "MODEL_ID") (u "gemini-3-flash-preview") in
  response ← models_generate_content model_id
    [CText (alternatives_prompt inventory)];
  ret (resp_text response).

(** [asyncio.gather] with [return_exceptions=True]: every task runs
    and what it raises becomes its result, at its position.  The tasks run
    here one after the other, in the order of the list. *)
Fixpoint gather_return_exceptions {A} (tasks : list (T A)) : T (list (res A)) :=
  match tasks with
  | [] => ret []
  | task :: rest =>
    fun s =>
      let '(r, s1) := task s in
      match gather_return_exceptions rest s1 with
      | (Ok rs, s2) => (Ok (r :: rs), s2)
      | (Raise e, s2) => (Raise e, s2)
      end
  end.

(** [chr(65 + idx)] *)
Definition letter (idx : nat) : pystr := chr (65 + N.of_nat idx).

Definition local_file_pattern : pystr := u "Local file.*?`(.+?)`".

(** The status line of one alternative. *)
Definition image_status_line (idx : nat) (result : res pystr) : pystr :=
  match result with
  | Raise e => u "**Imagen " ++ letter idx ++ u "**: ❌ Error - " ++ exn_str e
  | Ok _ => u "**Imagen " ++ letter idx ++ u "**: ✅ Generada"
  end.

(** The path of the generated file of one alternative, if there is one. *)
Definition generated_path (result : res pystr) : option pystr :=
  match result with
  | Raise _ => None
  | Ok text => re_search local_file_pattern text
  end.

(** The first three issues of a report, joined with a semicolon and a
    space, as [str.join] does it. *)
Fixpoint str_items (i : nat) (l : list pyval) : T (list pystr) :=
  match l with
  | [] => ret []
  | VStr s :: rest => items ← str_items (S i) rest; ret (s :: items)
  | v :: _ =>
    raise (Exception (u "TypeError")
      (u "sequence item " ++ str_of_Z (Z.of_nat i)
       ++ u ": expected str instance, " ++ type_name v ++ u " found"))
  end.

Definition join_issues (v : pyval) : T pystr :=
  match v with
  | VList l => items ← str_items 0 (slice_to 3 l); ret (join (u "; ") items)
  | VStr s => ret (join (u "; ") (map chr (slice_to 3 s)))
  | VDict _ => raise (Exception (u "TypeError") (u "unhashable type: 'slice'"))
  | v => raise (not_subscriptable v)
  end.

(** One round of the verification loop. *)
Definition consistency_line (primary_image : pystr) (idx : nat)
  (gen_path : option pystr) : T (list pystr) :=
  s ← get_store;
  match gen_path with
  | Some ((_ :: _) as gen_path) =>
    if path_exists s gen_path then
      check ← _consistency_check primary_image gen_path;
      if truthy (passed check) then
        ret [u "**Consistencia " ++ letter idx ++ u "**: ✅ Score "
             ++ fmt (score check) ++ u "/100"]
      else
        issues_text ← join_issues (issues check);
        ret [u "**Consistencia " ++ letter idx ++ u "**: ⚠️ Score "
             ++ fmt (score check) ++ u "/100 — " ++ issues_text]
    else ret []
  | _ => ret []
  end.

Fixpoint consistency_lines (primary_image : pystr) (idx : nat)
  (paths : list (option pystr)) : T (list pystr) :=
  match paths with
  | [] => ret []
  | gen_path :: rest =>
    line ← consistency_line primary_image idx gen_path;
    lines ← consistency_lines primary_image (S idx) rest;
    ret (line ++ lines)
  end.

Definition NO_UPLOAD : pystr :=
  u "Error: No se encontró imagen subida. Sube una imagen primero.".

(** The text [analyze_and_propose] returns. *)
Definition proposal_text (alternatives : pystr) (image_status : list pystr)
  (consistency_status : list pystr) : pystr :=
  let consistency_section :=
    match consistency_status with
    | [] => []
    | _ => u "

## 🔍 Verificación de Consistencia

" ++ join (u "
") consistency_status ++ u "
"
    end in
  alternatives ++ u "

---

## 📸 Imágenes Preview

" ++ join (u "
") image_status ++ consistency_section ++ u "

**Revisa la pestaña Artifacts para ver las imágenes.**

¿Cuál alternativa prefieres? Puedes decir 'la A pero con paredes más oscuras' etc.".

(** [len(x)] in a log call, for the text of an answer. *)
Definition logged_len (t : option pystr) : T pystr :=
  match t with
  | Some s => ret s
  | None => raise (no_len VNone)
  end.

(** Steps 4 and 5, from the edit instructions on. *)
Definition generate_and_verify (alternatives : pystr)
  (image_prompts : list pystr) (primary_image : pystr) : T pystr :=
  let tasks :=
    map (fun p => _generate_image p (Some primary_image)) image_prompts in
  results ← gather_return_exceptions tasks;
  let image_status := imap image_status_line results in
  let generated_paths := map generated_path results in
  consistency_status ← consistency_lines primary_image 0 generated_paths;
  ret (proposal_text alternatives image_status consistency_status).

Definition analyze_and_propose : T pystr :=
  s ← get_store;
  let uploaded := state_get (uploaded_images (session s)) [] in
  let image_path := last_uploaded_image (session s) in
  let uploaded :=
    match uploaded, image_path with
    | [], Some ((_ :: _) as p) => [p]
    | _, _ => uploaded
    end in
  match uploaded with
  | [] => ret NO_UPLOAD
  | primary_image :: _ =>
    if negb (existsb (path_exists s) uploaded) then ret NO_UPLOAD
    else
      inventory ← _vision_inventory uploaded;
      inventory ← logged_len inventory;
      alternatives ← _ai_generate_cds_alternatives inventory;
      alternatives ← logged_len alternatives;
      modify (with_session (set_analysis inventory alternatives));;
      image_prompts ← _ai_create_image_prompts alternatives inventory 3;
      let image_prompts := slice_to 3 image_prompts in
      generate_and_verify alternatives image_prompts primary_image
  end.

End Tools.

(** ** The memory store *)

(** A file of the local memory directory, by what reading and decoding it
    gives: a JSON value, or a failure (an empty file, a text that is not
    JSON, a directory).  What [_write_local] stored decodes to the value
    written. *)
Inductive File :=
| Decodes (v : pyval)
| Corrupt.

(** The directory: its files by name.  Project and section names are
    taken to hold no path separator, so that every memory file is a file
    of this directory. *)
Definition Dir := list (pystr * File).

(** What [_write_local] does to a file.  [write_text] opens the file for
    writing, which empties it, and then writes; every exception is
    caught. *)
Inductive Outcome :=
| Stored   (* the file holds the text *)
| Refused  (* the text or the file could not be made: the file is as it was *)
| Emptied. (* the write failed after the file was opened: the file is empty *)

Definition dir_get (name : pystr) (d : Dir) : option File := assoc_get name d.

Definition dir_set (name : pystr) (f : File) (d : Dir) : Dir :=
  assoc_set name f d.

(** The local directory and, when Firestore is reachable, its database. *)
Record MemStore (D : Type) := {
  local : Dir;
  remote : option D;
}.
Arguments local {D} _.
Arguments remote {D} _.

(** What the store cannot decide: whether the memory directory can be
    made, what becomes of a write of this text to this file, in which
    order the file system lists the names of a directory, and what the
    database does.  A write to the database that raises is caught and
    logged by the code, so a write is the database after it, whatever
    happened; a listing is the documents streamed before a failure, if
    any; a read is the document, when there is one and it could be
    read.  A slice of a dictionary raises [TypeError] before Python 3.12
    and [KeyError] from then on. *)
Record MemWorld (D : Type) := {
  mkdir : res unit;
  write_text : pystr -> pydict -> Outcome;
  listing : list pystr -> list pystr;
  dict_slice : exn;
  fs_set_project : D -> pystr -> pydict -> D;
  fs_set_section : D -> pystr -> pystr -> pydict -> D;
  fs_get_project : D -> pystr -> option pydict;
  fs_get_section : D -> pystr -> pystr -> option pydict;
  fs_sections : D -> pystr -> list (pystr * pydict);
}.
Arguments mkdir {D} _.
Arguments write_text {D} _ _ _.
Arguments listing {D} _ _.
Arguments dict_slice {D} _.
Arguments fs_set_project {D} _ _ _ _.
Arguments fs_set_section {D} _ _ _ _ _.
Arguments fs_get_project {D} _ _ _.
Arguments fs_get_section {D} _ _ _ _.
Arguments fs_sections {D} _ _ _.

Definition with_local {D} (f : Dir -> Dir) (m : MemStore D) : MemStore D :=
  {| local := f (local m); remote := remote m |}.

Definition with_remote {D} (f : D -> D) (m : MemStore D) : MemStore D :=
  {| local := local m; remote := f <$> remote m |}.

(** [Path.stem]: the name without its last suffix. *)
Fixpoint last_dot (i : nat) (acc : option nat) (name : pystr) : option nat :=
  match name with
  | [] => acc
  | c :: rest => last_dot (S i) (if c =? 46 then Some i else acc) rest
  end.

Definition stem (name : pystr) : pystr :=
  match last_dot 0 None name with
  | Some i =>
    if (0 <? i)%nat && (i <? length name - 1)%nat then take i name else name
  | None => name
  end.

(** [stem.split("__", 1)[1] if "__" in stem else stem] *)
Definition section_of_stem (st : pystr) : pystr :=
  match find st (u "__") with
  | Some i => drop (i + 2) st
  | None => st
  end.

(** The name of a memory file in the local directory. *)
Definition local_name (project_id : pystr) (section_id : option pystr) : pystr :=
  match section_id with
  | Some ((_ :: _) as section_id) => project_id ++ u "__" ++ section_id ++ u ".json"
  | _ => project_id ++ u ".json"
  end.

(** What [_read_local] gives for a name of the directory. *)
Definition read_file (d : Dir) (name : pystr) : pyval :=
  match dir_get name d with
  | Some (Decodes v) => v
  | _ => VDict []
  end.

(** The entry of one section in the overview of its project. *)
Definition overview_entry (sec_data : pydict) : pyval :=
  VDict [(u "type", dict_get_default (u "type") (VStr (u "otro")) sec_data);
         (u "style_summary",
          dict_get_default (u "style_summary") (VStr []) sec_data)].

Section Memory.

Context {lib : PyLib} {D : Type} (W : MemWorld D).

Local Abbreviation S := (M (MemStore D)).

Definition _local_path (project_id : pystr) (section_id : option pystr)
  : S pystr :=
  lift (mkdir W);;
  ret (local_name project_id section_id).

Definition _read_local (path : pystr) : S pyval :=
  m ← get_store; ret (read_file (local m) path).

(** The directory after [_write_local]. *)
Definition write_file (path : pystr) (data : pydict) (d : Dir) : Dir :=
  match write_text W path data with
  | Stored => dir_set path (Decodes (VDict data)) d
  | Refused => d
  | Emptied => dir_set path Corrupt d
  end.

Definition _write_local (path : pystr) (data : pydict) : S unit :=
  modify (with_local (write_file path data)).

(** [existing.update(data)] on what [_read_local] gave. *)
Definition py_update (existing : pyval) (data : pydict) : S pydict :=
  match existing with
  | VDict d => ret (dict_update d data)
  | v => raise (AttributeError v (u "update"))
  end.

(** A merge into a local file, once the directory exists: the read, the
    update and the write of [save_project_memory] and of
    [save_section_memory]. *)
Definition merge_local (path : pystr) (data : pydict) (m : MemStore D)
  : res unit * MemStore D :=
  match read_file (local m) path with
  | VDict e => (Ok tt, with_local (write_file path (dict_update e data)) m)
  | v => (Raise (AttributeError v (u "update")), m)
  end.

Definition get_project_memory (project_id : pystr) : S pyval :=
  m ← get_store;
  match remote m ≫= (fun db => fs_get_project W db project_id) with
  | Some doc => ret (VDict doc)
  | None => path ← _local_path project_id None; _read_local path
  end.

Definition save_project_memory (project_id : pystr) (data : pydict) : S unit :=
  modify (with_remote (fun db => fs_set_project W db project_id data));;
  path ← _local_path project_id None;
  existing ← _read_local path;
  existing ← py_update existing data;
  path ← _local_path project_id None;
  _write_local path existing.

Definition get_section_memory (project_id section_id : pystr) : S pyval :=
  m ← get_store;
  match remote m ≫= (fun db => fs_get_section W db project_id section_id) with
  | Some doc => ret (VDict doc)
  | None => path ← _local_path project_id (Some section_id); _read_local path
  end.

(** The overview built from the documents the database lists. *)
Definition overview_of_docs (docs : list (pystr * pydict)) : pydict :=
  fold_left (fun ov doc => dict_set (fst doc) (overview_entry (snd doc)) ov)
    docs [].

(** [_LOCAL_MEMORY_DIR.glob(f"{project_id}__*.json")]: the names of the
    directory that the pattern matches, in the order the file system lists
    them. *)
Definition glob_sections (project_id : pystr) (d : Dir) : list pystr :=
  filter (fun name => fnmatch (project_id ++ u "__*.json") name = true)
    (listing W (map fst d)).

(** One round of the loop over the files: the entry of the file is stored
    under the section name read off the name of the file. *)
Definition add_section_file (d : Dir) (acc : res pydict) (name : pystr)
  : res pydict :=
  match acc with
  | Raise e => Raise e
  | Ok ov =>
    let section_id := section_of_stem (stem name) in
    match read_file d name with
    | VDict sec_data => Ok (dict_set section_id (overview_entry sec_data) ov)
    | v => Raise (AttributeError v (u "get"))
    end
  end.

(** The overview built from the files of the local directory that the
    pattern of the project matches. *)
Definition overview_of_files (project_id : pystr) (d : Dir) : res pydict :=
  fold_left (add_section_file d) (glob_sections project_id d) (Ok []).

(** The overview after the first half of
    [_update_project_sections_overview]: empty without a database. *)
Definition remote_overview (project_id : pystr) (m : MemStore D) : pydict :=
  match remote m with
  | Some db => overview_of_docs (fs_sections W db project_id)
  | None => []
  end.

(** The overview [_update_project_sections_overview] builds, from nothing:
    the database's when it lists a section, else the local files'. *)
Definition rebuild_overview (project_id : pystr) (m : MemStore D) : res pydict :=
  let sections_overview := remote_overview project_id m in
  match sections_overview with
  | [] => overview_of_files project_id (local m)
  | _ => Ok sections_overview
  end.

Definition _update_project_sections_overview (project_id : pystr) : S unit :=
  m ← get_store;
  sections_overview ← lift (rebuild_overview project_id m);
  save_project_memory project_id
    [(u "sections_overview", VDict sections_overview)].

Definition save_section_memory (project_id section_id : pystr) (data : pydict)
  : S unit :=
  modify (with_remote (fun db => fs_set_section W db project_id section_id data));;
  path ← _local_path project_id (Some section_id);
  existing ← _read_local path;
  existing ← py_update existing data;
  path ← _local_path project_id (Some section_id);
  _write_local path existing;;
  _update_project_sections_overview project_id.

(** [v.get(k, dflt)] on a value that was read from the store. *)
Definition py_get (v : pyval) (k : pystr) (dflt : pyval) : S pyval :=
  match v with
  | VDict d => ret (dict_get_default k dflt d)
  | v => raise (AttributeError v (u "get"))
  end.

(** [v.items()] *)
Definition py_items (v : pyval) : S pydict :=
  match v with
  | VDict d => ret d
  | v => raise (AttributeError v (u "items"))
  end.

(** [v[:500]] *)
Definition slice_500 (v : pyval) : S pyval :=
  match v with
  | VStr s => ret (VStr (slice_to 500 s))
  | VList l => ret (VList (slice_to 500 l))
  | VDict _ => raise (dict_slice W)
  | v => raise (not_subscriptable v)
  end.

(** A line of the context, when the value is truthy. *)
Definition context_line (label : pystr) (v : pyval) : list pystr :=
  if truthy v then [label ++ fmt v] else [].

(** The loop over the overview: a line for every other section that has
    a summary. *)
Fixpoint other_sections (section_id : pystr) (items : pydict)
  : S (list pystr) :=
  match items with
  | [] => ret []
  | (sid, sdata) :: rest =>
    line ←
      (if negb (eqb sid section_id) then
         summary ← py_get sdata (u "style_summary") VNone;
         if truthy summary then
           type ← py_get sdata (u "type") (VStr (u "?"));
           ret [u "Sección " ++ sid ++ u " (" ++ fmt type ++ u "): "
                ++ fmt summary]
         else ret []
       else ret []);
    lines ← other_sections section_id rest;
    ret (line ++ lines)
  end.

Definition get_full_context (project_id section_id : pystr) : S pystr :=
  proj ← get_project_memory project_id;
  sec ← get_section_memory project_id section_id;
  style ← py_get proj (u "style") VNone;
  let lines := context_line (u "Estilo del proyecto: ") style in
  summary ← py_get proj (u "style_summary") VNone;
  let lines := lines ++ context_line (u "Resumen global: ") summary in
  overview ← py_get proj (u "sections_overview") (VDict []);
  items ← py_items overview;
  others ← other_sections section_id items;
  let lines := lines ++ others in
  summary ← py_get sec (u "style_summary") VNone;
  let lines :=
    lines
    ++ context_line (u "Esta sección (" ++ section_id ++ u "): ") summary in
  last_cds ← py_get sec (u "last_cds") VNone;
  cds ←
    (if truthy last_cds then
       sliced ← slice_500 last_cds;
       ret [u "Último CDS de esta sección: " ++ fmt sliced]
     else ret []);
  let lines := lines ++ cds in
  ret (match lines with [] => [] | _ => join [10] lines end).

(** The overview stored in the local file of a project. *)
Definition stored_overview (project_id : pystr) (m : MemStore D) : option pyval :=
  match read_file (local m) (local_name project_id None) with
  | VDict d => dict_get (u "sections_overview") d
  | _ => None
  end.

End Memory.

(** ** A concrete library and concrete worlds, for running the model *)

Module Sample.

(** *** JSON without floats and without string escapes *)

Definition is_json_ws (c : N) : bool :=
  (c =? 32) || (c =? 9) || (c =? 10) || (c =? 13).

Fixpoint skip_ws (s : pystr) : pystr :=
  match s with
  | c :: s' => if is_json_ws c then skip_ws s' else s
  | [] => []
  end.

Definition is_digit (c : N) : bool := (48 <=? c) && (c <=? 57).

Fixpoint digits (acc : Z) (s : pystr) : Z * pystr :=
  match s with
  | c :: s' =>
    if is_digit c then digits (acc * 10 + Z.of_N (c - 48))%Z s' else (acc, s)
  | [] => (acc, [])
  end.

(** The text of a string up to its closing quote. *)
Fixpoint string_body (acc : pystr) (s : pystr) : option (pystr * pystr) :=
  match s with
  | [] => None
  | c :: s' =>
    if c =? 34 then Some (rev acc, s')
    else if c =? 92 then None
    else string_body (c :: acc) s'
  end.

Definition number (s : pystr) : option (pyval * pystr) :=
  match s with
  | 45 :: (c :: _) as s' =>
    if is_digit c
    then let '(z, r) := digits 0 s' in Some (VInt (- z), r)
    else None
  | c :: _ =>
    if is_digit c
    then let '(z, r) := digits 0 s in Some (VInt z, r)
    else None
  | [] => None
  end.

Fixpoint value (fuel : nat) (s : pystr) : option (pyval * pystr) :=
  match fuel with
  | O => None
  | S fuel' =>
    match skip_ws s with
    | 110 :: 117 :: 108 :: 108 :: r => Some (VNone, r)
    | 116 :: 114 :: 117 :: 101 :: r => Some (VBool true, r)
    | 102 :: 97 :: 108 :: 115 :: 101 :: r => Some (VBool false, r)
    | 34 :: r =>
      match string_body [] r with
      | Some (str, r') => Some (VStr str, r')
      | None => None
      end
    | 91 :: r =>
      match skip_ws r with
      | 93 :: r' => Some (VList [], r')
      | _ => elements fuel' [] r
      end
    | 123 :: r =>
      match skip_ws r with
      | 125 :: r' => Some (VDict [], r')
      | _ => members fuel' [] r
      end
    | s' => number s'
    end
  end
with elements (fuel : nat) (acc : list pyval) (s : pystr)
  : option (pyval * pystr) :=
  match fuel with
  | O => None
  | S fuel' =>
    match value fuel' s with
    | Some (v, r) =>
      match skip_ws r with
      | 44 :: r' => elements fuel' (acc ++ [v]) r'
      | 93 :: r' => Some (VList (acc ++ [v]), r')
      | _ => None
      end
    | None => None
    end
  end
with members (fuel : nat) (acc : pydict) (s : pystr)
  : option (pyval * pystr) :=
  match fuel with
  | O => None
  | S fuel' =>
    match skip_ws s with
    | 34 :: r =>
      match string_body [] r with
      | Some (key, r1) =>
        match skip_ws r1 with
        | 58 :: r2 =>
          match value fuel' r2 with
          | Some (v, r3) =>
            match skip_ws r3 with
            | 44 :: r4 => members fuel' (dict_set key v acc) r4
            | 125 :: r4 => Some (VDict (dict_set key v acc), r4)
            | _ => None
            end
          | None => None
          end
        | _ => None
        end
      | None => None
      end
    | _ => None
    end
  end.

Definition JSONDecodeError : exn :=
  Exception (u "JSONDecodeError") (u "Expecting value: line 1 column 1 (char 0)").

(** A decoder that agrees with [json.loads] on documents made of objects,
    arrays, strings without backslashes, integers, [true], [false] and
    [null]; it rejects every other text. *)
Definition loads (s : pystr) : res pyval :=
  match value (S (length s)) s with
  | Some (v, r) =>
    match skip_ws r with
    | [] => Ok v
    | _ => Raise JSONDecodeError
    end
  | None => Raise JSONDecodeError
  end.

(** *** The two patterns of the compiler and the pattern of the orchestrator *)

(** What follows an opening delimiter: [\s*\n(.*?)\n] and the closing
    delimiter.  The greedy [\s*] gives back one code point at a time, so
    the line feed that is matched is the last one of the white space after
    which a closing delimiter is still found; the lazy group then ends at
    the first closing delimiter. *)
Fixpoint after_open (close : pystr) (k : nat) (rest : pystr) : option pystr :=
  match k with
  | O => None
  | S k' =>
    match drop k' rest with
    | 10 :: body =>
      match find body (10 :: close) with
      | Some j => Some (take j body)
      | None => after_open close k' rest
      end
    | _ => after_open close k' rest
    end
  end.

Definition ws_run (s : pystr) : nat := length s - length (lstrip s).

Fixpoint search_delimited (open close : pystr) (text : pystr) : option pystr :=
  let here :=
    if startswith text open
    then let rest := drop (length open) text in
         after_open close (ws_run rest) rest
    else None in
  match here with
  | Some g => Some g
  | None =>
    match text with
    | [] => None
    | _ :: text' => search_delimited open close text'
    end
  end.

(** [re.search] with [re.DOTALL] for the patterns
    [open\s*\n(.*?)\nclose] with literal [open] and [close]. *)
Definition search_dotall (pattern text : pystr) : option pystr :=
  match split pattern (u "\s*\n(.*?)\n") with
  | [open; close] => search_delimited open close text
  | _ => None
  end.

(** The look-ahead of the section pattern:
    [(?:Prompt|PROMPT|Alternativa)\s*[ABC123]]. *)
Definition section_ahead (s : pystr) : bool :=
  let after word :=
    if startswith s word
    then match lstrip (drop (length word) s) with
         | c :: _ => existsb (N.eqb c) (u "ABC123")
         | [] => false
         end
    else false in
  after (u "Prompt") || after (u "PROMPT") || after (u "Alternativa").

(** [re.split] at every line feed that the look-ahead accepts. *)
Fixpoint split_sections (cur : pystr) (s : pystr) : list pystr :=
  match s with
  | [] => [rev cur]
  | c :: s' =>
    if (c =? 10) && section_ahead s'
    then rev cur :: split_sections [] s'
    else split_sections (c :: cur) s'
  end.

Definition split_re (pattern text : pystr) : list pystr :=
  if eqb pattern (u "\n(?=(?:Prompt|PROMPT|Alternativa)\s*[ABC123])")
  then split_sections [] text
  else [text].

(** The first line feed or back quote of a text, with what precedes it. *)
Fixpoint upto_backquote (s : pystr) : option pystr :=
  match s with
  | [] => None
  | c :: s' =>
    if c =? 96 then Some s'
    else if c =? 10 then None
    else upto_backquote s'
  end.

(** A lazy group of at least one code point of a line, closed by a back
    quote. *)
Fixpoint group_upto_backquote (acc : pystr) (s : pystr) : option pystr :=
  match s with
  | [] => None
  | c :: s' =>
    if c =? 10 then None
    else match acc, c =? 96 with
         | _ :: _, true => Some (rev acc)
         | _, _ => group_upto_backquote (c :: acc) s'
         end
  end.

(** The leftmost match of [Local file.*?`(.+?)`]: the lazy [.*?] stops at
    the first back quote after which the group can be closed on the same
    line. *)
Fixpoint local_file_from (fuel : nat) (s : pystr) : option pystr :=
  match fuel with
  | O => None
  | S fuel' =>
    match upto_backquote s with
    | Some s' =>
      match group_upto_backquote [] s' with
      | Some g => Some g
      | None => local_file_from fuel' s'
      end
    | None => None
    end
  end.

Fixpoint search_local_file (text : pystr) : option pystr :=
  let here :=
    if startswith text (u "Local file")
    then let rest := drop 10 text in local_file_from (length rest) rest
    else None in
  match here with
  | Some g => Some g
  | None =>
    match text with
    | [] => None
    | _ :: text' => search_local_file text'
    end
  end.

Definition search (pattern text : pystr) : option pystr :=
  if eqb pattern (u "Local file.*?`(.+?)`") then search_local_file text
  else None.

(** *** Globbing, case and classes of characters, on ASCII names *)

(** A globbing pattern, as [fnmatch.translate] reads it: [*] is any text,
    [?] any character, [[seq]] a character of the class and [[!seq]] a
    character out of it; a bracket that is not closed stands for itself,
    and a closing bracket that comes first in a class is a member of
    it. *)
Inductive Glob :=
| GStar
| GAny
| GClass (negated : bool) (members : list (N * N))
| GLit (c : N).

(** The members of a class: single characters and ranges [a-b]. *)
Fixpoint class_members (fuel : nat) (stuff : pystr) : list (N * N) :=
  match fuel with
  | O => []
  | S fuel' =>
    match stuff with
    | a :: 45 :: b :: rest => (a, b) :: class_members fuel' rest
    | a :: rest => (a, a) :: class_members fuel' rest
    | [] => []
    end
  end.

(** The text of a class up to the bracket that closes it, and what
    follows. *)
Fixpoint upto_bracket (acc s : pystr) : option (pystr * pystr) :=
  match s with
  | [] => None
  | 93 :: rest => Some (rev acc, rest)
  | c :: rest => upto_bracket (c :: acc) rest
  end.

Definition class_text (s : pystr) : option (pystr * pystr) :=
  match s with
  | 33 :: 93 :: rest => upto_bracket [93; 33] rest
  | 33 :: rest => upto_bracket [33] rest
  | 93 :: rest => upto_bracket [93] rest
  | _ => upto_bracket [] s
  end.

Definition class_of (stuff : pystr) : Glob :=
  match stuff with
  | 33 :: members => GClass true (class_members (length members) members)
  | _ => GClass false (class_members (length stuff) stuff)
  end.

Fixpoint glob_tokens (fuel : nat) (pattern : pystr) : list Glob :=
  match fuel with
  | O => []
  | S fuel' =>
    match pattern with
    | [] => []
    | 42 :: rest => GStar :: glob_tokens fuel' rest
    | 63 :: rest => GAny :: glob_tokens fuel' rest
    | 91 :: rest =>
      match class_text rest with
      | Some (stuff, rest') => class_of stuff :: glob_tokens fuel' rest'
      | None => GLit 91 :: glob_tokens fuel' rest
      end
    | c :: rest => GLit c :: glob_tokens fuel' rest
    end
  end.

Definition in_class (c : N) (members : list (N * N)) : bool :=
  existsb (fun r => (fst r <=? c) && (c <=? snd r)) members.

Fixpoint glob_match (tokens : list Glob) (name : pystr) : bool :=
  match tokens with
  | [] => match name with [] => true | _ => false end
  | GStar :: rest =>
    (fix star (n : pystr) : bool :=
       glob_match rest n
       || match n with [] => false | _ :: n' => star n' end) name
  | GAny :: rest =>
    match name with _ :: n' => glob_match rest n' | [] => false end
  | GClass negated members :: rest =>
    match name with
    | c :: n' => xorb negated (in_class c members) && glob_match rest n'
    | [] => false
    end
  | GLit c :: rest =>
    match name with
    | c' :: n' => (c =? c') && glob_match rest n'
    | [] => false
    end
  end.

(** Whether a name of the directory matches a pattern of one path
    component, on a file system that tells upper from lower case. *)
Definition fnmatch_name (pattern name : pystr) : bool :=
  glob_match (glob_tokens (length pattern) pattern) name.

Definition lower (s : pystr) : pystr :=
  map (fun c => if (65 <=? c) && (c <=? 90) then c + 32 else c) s.

Definition alnum (c : N) : bool :=
  ((48 <=? c) && (c <=? 57)) || ((65 <=? c) && (c <=? 90))
  || ((97 <=? c) && (c <=? 122)).

(** [repr] of a string of letters, digits and blanks. *)
Definition repr_str (s : pystr) : pystr := u "'" ++ s ++ u "'".

Fixpoint repr (v : pyval) : pystr :=
  match v with
  | VNone => u "None"
  | VBool true => u "True"
  | VBool false => u "False"
  | VInt z => str_of_Z z
  | VFloat _ => u "nan"
  | VStr s => repr_str s
  | VList l => u "[" ++ join (u ", ") (map repr l) ++ u "]"
  | VDict d =>
    u "{" ++ join (u ", ")
               (map (fun kv => repr_str (fst kv) ++ u ": " ++ repr (snd kv)) d)
    ++ u "}"
  end.

(** A library that computes.  It agrees with Python on JSON documents
    without floats and backslashes, on the three patterns of the tools, on
    globbing patterns of one path component, and on ASCII text. *)
#[export] Instance lib : PyLib := {|
  json_loads := loads;
  re_search_dotall := search_dotall;
  re_search := search;
  re_split := split_re;
  fnmatch := fnmatch_name;
  str_lower := lower;
  isalnum := alnum;
  py_repr := repr;
|}.

(** *** Worlds and stores *)

(** A world with an API key, in which every outside call other than the
    models' succeeds. *)
Definition world (gen : nat -> pystr -> list Content -> res Response) : World :=
  {| environ := fun name =>
       if eqb name (u "GOOGLE_API_KEY") then Some (u "key") else None;
     static_dir := u "/app/static";
     new_client := fun _ => Ok tt;
     generate_content := gen;
     strftime_now := fun _ => u "20260101_120000";
     uuid4_hex := fun k => u "abcdef0123456789";
     makedirs := fun _ _ => Ok tt;
     write_bytes := fun _ _ => Ok tt;
     save_artifact := fun _ _ _ => Ok tt;
     upload_image := fun _ _ _ => None;
     abspath := fun p => p |}.

Definition empty_session : Session :=
  {| uploaded_images := None; last_uploaded_image := None;
     element_inventory := None; design_alternatives := None;
     current_cds := None; refined_plan := None; workflow_phase := None;
     _user_id := None; project_style := None; section_type := None;
     _gen_version := None |}.

Definition store (ss : Session) (files : list (pystr * list N)) : Store :=
  {| session := ss; disk := list_to_map files; artifacts := [];
     client_ready := false; trace := [] |}.

(** A model that answers every call with the same text. *)
Definition says (text : pystr) : nat -> pystr -> list Content -> res Response :=
  fun _ _ _ => Ok {| resp_text := Some text; resp_parts := Ok [] |}.

(** A model that is down. *)
Definition unavailable : nat -> pystr -> list Content -> res Response :=
  fun _ _ _ => Raise (Exception (u "ServerError") (u "503 UNAVAILABLE")).

Definition two_images : list (pystr * list N) :=
  [(u "/app/uploads/house.png", [137; 80; 78; 71]);
   (u "/app/static/house_v0.png", [137; 80; 78; 71; 1])].

(** *** A memory world *)

(** A database in memory: documents by path, merged on write. *)
Definition project_key (project_id : pystr) : pystr := u "projects/" ++ project_id.

Definition sections_prefix (project_id : pystr) : pystr :=
  u "projects/" ++ project_id ++ u "/sections/".

Definition db_merge (key : pystr) (data : pydict) (db : pydict) : pydict :=
  match dict_get key db with
  | Some (VDict old) => dict_set key (VDict (dict_update old data)) db
  | _ => dict_set key (VDict data) db
  end.

Definition db_get (key : pystr) (db : pydict) : option pydict :=
  match dict_get key db with
  | Some (VDict doc) => Some doc
  | _ => None
  end.

Fixpoint db_sections (prefix : pystr) (db : pydict) : list (pystr * pydict) :=
  match db with
  | [] => []
  | (key, VDict doc) :: rest =>
    if startswith key prefix
    then (drop (length prefix) key, doc) :: db_sections prefix rest
    else db_sections prefix rest
  | _ :: rest => db_sections prefix rest
  end.

(** A text holds a lone surrogate, which UTF-8 cannot encode. *)
Definition str_encodable (s : pystr) : bool :=
  forallb (fun c => (c <? 55296) || (57343 <? c)) s.

Fixpoint encodable (v : pyval) : bool :=
  match v with
  | VStr s => str_encodable s
  | VList l => forallb encodable l
  | VDict d =>
    forallb (fun kv => str_encodable (fst kv) && encodable (snd kv)) d
  | _ => true
  end.

(** A world whose directory can be made and written, with this database:
    a text that can be encoded is stored, and one that cannot leaves the
    file empty.  The directory is listed in the order its files were
    created. *)
Definition memory : MemWorld pydict :=
  {| mkdir := Ok tt;
     write_text := fun _ data =>
       if encodable (VDict data) then Stored else Emptied;
     listing := fun names => names;
     dict_slice := Exception (u "TypeError") (u "unhashable type: 'slice'");
     fs_set_project := fun db p data => db_merge (project_key p) data db;
     fs_set_section := fun db p s data => db_merge (sections_prefix p ++ s) data db;
     fs_get_project := fun db p => db_get (project_key p) db;
     fs_get_section := fun db p s => db_get (sections_prefix p ++ s) db;
     fs_sections := fun db p => db_sections (sections_prefix p) db |}.

(** The same world with a directory that cannot be written. *)
Definition read_only : MemWorld pydict :=
  {| mkdir := Ok tt;
     write_text := fun _ _ => Refused;
     listing := fun names => names;
     dict_slice := dict_slice memory;
     fs_set_project := fs_set_project memory;
     fs_set_section := fs_set_section memory;
     fs_get_project := fs_get_project memory;
     fs_get_section := fs_get_section memory;
     fs_sections := fs_sections memory |}.

End Sample.
(** * Examples and theorems *)

(** Splits conjunctions, and nothing else. *)
Ltac conjs := repeat match goal with |- _ /\ _ => split end.

(** Literals are decoded by [vm_compute] only. *)
#[global] Opaque u.

(** ** Text primitives on concrete inputs *)

Example u_ascii : u "a b" = [97; 32; 98].
Proof. vm_compute. reflexivity. Qed.

Example u_accent : u "É🏠" = [201; 127968].
Proof. vm_compute. reflexivity. Qed.

Example split_fence :
  split (u "x```json {}```y") (u "```") = [u "x"; u "json {}"; u "y"].
Proof. vm_compute. reflexivity. Qed.

Example strip_nbsp : strip (160 :: u " a b
 ") = u "a b".
Proof. vm_compute. reflexivity. Qed.

Example str_of_Z_neg : str_of_Z (-1) = u "-1" /\ str_of_Z 0 = u "0".
Proof. split; vm_compute; reflexivity. Qed.


Example loads_report :
  Sample.loads (u "{" ++ dq ++ u "passed" ++ dq ++ u ": false, " ++ dq
                ++ u "score" ++ dq ++ u ": 42, " ++ dq ++ u "issues" ++ dq
                ++ u ": [" ++ dq ++ u "roof moved" ++ dq ++ u "]}")
  = Ok (VDict [(u "passed", VBool false); (u "score", VInt 42);
               (u "issues", VList [VStr (u "roof moved")])]).
Proof. vm_compute. reflexivity. Qed.

Example loads_garbage : Sample.loads (u "I cannot compare these images") = Raise Sample.JSONDecodeError.
Proof. vm_compute. reflexivity. Qed.

Example or_default_cases :
  or_default (Some (u "rustico")) (u "moderno") = u "rustico"
  /\ or_default (Some []) (u "moderno") = u "moderno"
  /\ or_default None (u "moderno") = u "moderno".
Proof. conjs; vm_compute; reflexivity. Qed.

(** ** Running computations *)



Lemma run_bind {St A B} (c : M St A) (k : A -> M St B) (s : St) :
  (c ≫= k) s =
  match c s with
  | (Ok a, s') => k a s'
  | (Raise e, s') => (Raise e, s')
  end.
Proof. reflexivity. Qed.

Lemma run_ret {St A} (a : A) (s : St) : ret a s = (Ok a, s).
Proof. reflexivity. Qed.

Lemma run_try {St A} (body : M St A) (handler : exn -> M St A) (s : St) :
  try_except body handler s =
  match body s with
  | (Ok a, s') => (Ok a, s')
  | (Raise e, s') => handler e s'
  end.
Proof. reflexivity. Qed.

Lemma eqb_eq (a b : pystr) : eqb a b = true <-> a = b.
Proof.
  revert b. induction a as [|x a IH]; intros [|y b]; simpl; try easy.
  rewrite andb_true_iff, N.eqb_eq, IH. split.
  - intros [-> ->]. reflexivity.
  - intros [= -> ->]. auto.
Qed.

Lemma eqb_refl (a : pystr) : eqb a a = true.
Proof. apply eqb_eq. reflexivity. Qed.

Lemma bind_ok {St A B} (c : M St A) (k : A -> M St B) (s s' : St) b :
  (c ≫= k) s = (Ok b, s') ->
  exists a s1, c s = (Ok a, s1) /\ k a s1 = (Ok b, s').
Proof.
  rewrite run_bind. destruct (c s) as [[a|e] s1]; [eauto|discriminate].
Qed.


(** ** The consistency verifier *)

Section Verifier.

Context {lib : PyLib} (W : World).

Lemma load_image_present image_path image_bytes (s : Store) :
  disk s !! image_path = Some image_bytes ->
  _load_image image_path s = (Ok (image_part image_path image_bytes), s).
Proof.
  intros Hfile. unfold _load_image. rewrite run_bind. unfold get_store.
  rewrite Hfile. reflexivity.
Qed.

Lemma load_image_absent image_path (s : Store) :
  disk s !! image_path = None ->
  _load_image image_path s = (Raise (FileNotFoundError image_path), s).
Proof.
  intros Hfile. unfold _load_image. rewrite run_bind. unfold get_store.
  rewrite Hfile. reflexivity.
Qed.

(** With both images on disk, the check is the [try] around the judgment. *)
Lemma consistency_check_unfold orig gen b1 b2 (s : Store) :
  disk s !! orig = Some b1 ->
  disk s !! gen = Some b2 ->
  _consistency_check W orig gen s =
  match judgment W (image_part orig b1) (image_part gen b2) s with
  | (Ok r, s') => (Ok r, s')
  | (Raise e, s') => (Ok (fail_open e), s')
  end.
Proof.
  intros H1 H2. unfold _consistency_check.
  rewrite run_bind, (load_image_present _ _ _ H1).
  rewrite run_bind, (load_image_present _ _ _ H2).
  rewrite run_try.
  destruct (judgment W _ _ s) as [[r|e] s']; reflexivity.
Qed.

Lemma report_of_object d (s : Store) :
  report_of (VDict d) s = (Ok (report_of_dict d), s).
Proof. reflexivity. Qed.

Lemma report_of_other v (s : Store) :
  (forall d, v <> VDict d) ->
  report_of v s = (Raise (AttributeError v (u "get")), s).
Proof. intros Hv. destruct v; try reflexivity. destruct (Hv d eq_refl). Qed.

(** The judgment raises what the asking raises, and what reading a decoded
    value that is not an object raises. *)
Lemma judgment_unfold p1 p2 (s : Store) :
  judgment W p1 p2 s =
  match ask_judge W p1 p2 s with
  | (Ok (VDict d), s') => (Ok (report_of_dict d), s')
  | (Ok v, s') => (Raise (AttributeError v (u "get")), s')
  | (Raise e, s') => (Raise e, s')
  end.
Proof.
  unfold judgment. rewrite run_bind.
  destruct (ask_judge W p1 p2 s) as [[v|e] s']; [|reflexivity].
  destruct v; reflexivity.
Qed.

(** A model call that raises makes the asking raise the same exception. *)
Lemma ask_judge_model_raises p1 p2 (s s1 : Store) e :
  _get_client W s = (Ok tt, s1) ->
  generate_content W (length (trace s1))
    (environ_get W (u "MODEL_ID") (u "gemini-3-flash-preview"))
    [CPart p1; CPart p2; CText consistency_prompt] = Raise e ->
  ask_judge W p1 p2 s
  = (Raise e,
     with_event (EvGenerate
       (environ_get W (u "MODEL_ID") (u "gemini-3-flash-preview"))
       [CPart p1; CPart p2; CText consistency_prompt]) s1).
Proof.
  intros Hc Hg. unfold ask_judge. rewrite run_bind, Hc, run_bind.
  unfold models_generate_content, outside_res. rewrite Hg. reflexivity.
Qed.

(** C2.  Fail-open: when the judgment inside [_consistency_check] raises an
    exception [e] (the model is unavailable, its answer has no text or does
    not decode, the decoded value is not an object), the check does not
    raise: it returns the report with [passed = True], [score = -1] and the
    one issue ["Check error: " + str(e)]. *)
Theorem verifier_fails_open orig gen b1 b2 (s s' : Store) (e : exn) :
  disk s !! orig = Some b1 ->
  disk s !! gen = Some b2 ->
  judgment W (image_part orig b1) (image_part gen b2) s = (Raise e, s') ->
  _consistency_check W orig gen s
  = (Ok {| passed := VBool true;
           score := VInt (-1);
           issues := VList [VStr (u "Check error: " ++ exn_str e)] |}, s').
Proof.
  intros H1 H2 Hj.
  rewrite (consistency_check_unfold _ _ _ _ _ H1 H2), Hj. reflexivity.
Qed.

(** C3, as amended.  Every report the check returns is either the fail-open
    report of an exception the judgment raised, or carries the three fields
    of the object the judge answered, with [False], [0] and [[]] for the
    fields the object omits.  In the second case the report has the shape
    of the specification whenever the judge's object has it. *)
Theorem report_provenance orig gen (s s' : Store) (r : ConsistencyReport) :
  _consistency_check W orig gen s = (Ok r, s') ->
  exists b1 b2,
    disk s !! orig = Some b1 /\ disk s !! gen = Some b2 /\
    ((exists e,
        judgment W (image_part orig b1) (image_part gen b2) s = (Raise e, s')
        /\ r = fail_open e
        /\ passed r = VBool true /\ score r = VInt (-1)
        /\ issues r <> VList [])
     \/
     (exists d,
        ask_judge W (image_part orig b1) (image_part gen b2) s
        = (Ok (VDict d), s')
        /\ r = report_of_dict d
        /\ (report_shape (report_of_dict d) -> report_shape r))).
Proof.
  intros Hc. unfold _consistency_check in Hc. rewrite run_bind in Hc.
  destruct (disk s !! orig) as [b1|] eqn:H1;
    [rewrite (load_image_present _ _ _ H1) in Hc
    |rewrite (load_image_absent _ _ H1) in Hc; discriminate].
  rewrite run_bind in Hc.
  destruct (disk s !! gen) as [b2|] eqn:H2;
    [rewrite (load_image_present _ _ _ H2) in Hc
    |rewrite (load_image_absent _ _ H2) in Hc; discriminate].
  exists b1, b2. split; [reflexivity|]. split; [reflexivity|].
  rewrite run_try, judgment_unfold in Hc.
  destruct (ask_judge W _ _ s) as [[v|e] s1] eqn:Ha.
  - destruct v; try (left; eexists; rewrite judgment_unfold, Ha;
      injection Hc as <- <-; repeat split; try reflexivity; discriminate).
    right. injection Hc as <- <-. exists d. auto.
  - left. exists e. rewrite judgment_unfold, Ha.
    injection Hc as <- <-. repeat split; try reflexivity. discriminate.
Qed.

(** C10.  When the judge's answer decodes to an object [d], the [try] does
    not raise and the report holds the fields of [d], with the defaults
    [False], [0] and [[]] for the fields [d] omits; an object that omits
    all three gives a failing report with score 0. *)
Theorem incomplete_answer_defaults orig gen b1 b2 (s s' : Store) (d : pydict) :
  disk s !! orig = Some b1 ->
  disk s !! gen = Some b2 ->
  ask_judge W (image_part orig b1) (image_part gen b2) s = (Ok (VDict d), s') ->
  judgment W (image_part orig b1) (image_part gen b2) s
  = (Ok (report_of_dict d), s')
  /\ _consistency_check W orig gen s = (Ok (report_of_dict d), s')
  /\ (dict_get (u "passed") d = None ->
      passed (report_of_dict d) = VBool false)
  /\ (dict_get (u "score") d = None -> score (report_of_dict d) = VInt 0)
  /\ (dict_get (u "issues") d = None -> issues (report_of_dict d) = VList [])
  /\ (dict_get (u "passed") d = None -> dict_get (u "score") d = None ->
      dict_get (u "issues") d = None ->
      report_of_dict d
      = {| passed := VBool false; score := VInt 0; issues := VList [] |}).
Proof.
  intros H1 H2 Ha.
  assert (Hj : judgment W (image_part orig b1) (image_part gen b2) s
               = (Ok (report_of_dict d), s')).
  { rewrite judgment_unfold, Ha. reflexivity. }
  split; [exact Hj|]. split.
  { rewrite (consistency_check_unfold _ _ _ _ _ H1 H2), Hj. reflexivity. }
  unfold report_of_dict, dict_get_default. cbn [passed score issues].
  repeat split; intros; repeat match goal with H : _ = None |- _ => rewrite H end;
    reflexivity.
Qed.

End Verifier.

(** *** The verifier on concrete worlds *)

Module VerifierRuns.

Import Sample.

Definition original : pystr := u "/app/uploads/house.png".
Definition generated : pystr := u "/app/static/house_v0.png".
Definition original_part : Part := image_part original [137; 80; 78; 71].
Definition generated_part : Part := image_part generated [137; 80; 78; 71; 1].
Definition start : Store := store empty_session two_images.

(** The judge's model is down. *)
Definition down : World := world unavailable.

(** The judge answers with an empty object inside a code fence. *)
Definition empty_object : World := world (says (u "```json
{}
```")).

(** The judge answers with prose. *)
Definition prose : World := world (says (u "Both images look fine to me.")).

Example check_when_down :
  fst (_consistency_check down original generated start)
  = Ok {| passed := VBool true; score := VInt (-1);
          issues := VList [VStr (u "Check error: 503 UNAVAILABLE")] |}.
Proof. vm_compute. reflexivity. Qed.

Example check_on_prose :
  fst (_consistency_check prose original generated start)
  = Ok {| passed := VBool true; score := VInt (-1);
          issues := VList [VStr (u "Check error: Expecting value: line 1 column 1 (char 0)")] |}.
Proof. vm_compute. reflexivity. Qed.

Example check_on_empty_object :
  fst (_consistency_check empty_object original generated start)
  = Ok {| passed := VBool false; score := VInt 0; issues := VList [] |}.
Proof. vm_compute. reflexivity. Qed.

Lemma verifier_fails_open_witness :
  _consistency_check down original generated start
  = (Ok {| passed := VBool true; score := VInt (-1);
           issues := VList [VStr (u "Check error: " ++ u "503 UNAVAILABLE")] |},
     snd (judgment down original_part generated_part start)).
Proof.
  apply (verifier_fails_open down original generated
           [137; 80; 78; 71] [137; 80; 78; 71; 1] start
           (snd (judgment down original_part generated_part start))
           (Exception (u "ServerError") (u "503 UNAVAILABLE")));
    vm_compute; reflexivity.
Defined.

(** C3 as the specification states it fails: the fail-open report has
    [passed = True] and a non-empty list of issues. *)
Lemma report_shape_counterexample :
  ~ (forall (lib : PyLib) (W : World) orig gen (s s' : Store) r,
       _consistency_check W orig gen s = (Ok r, s') -> report_shape r).
Proof.
  intros Hall.
  destruct (Hall Sample.lib down original generated start
              (snd (_consistency_check down original generated start))
              (fail_open (Exception (u "ServerError") (u "503 UNAVAILABLE"))))
    as [Hissues _].
  - vm_compute. reflexivity.
  - specialize (Hissues eq_refl). vm_compute in Hissues. discriminate Hissues.
Qed.

Lemma report_provenance_witness :
  exists b1 b2,
    disk start !! original = Some b1 /\ disk start !! generated = Some b2 /\
    ((exists e,
        judgment down (image_part original b1) (image_part generated b2) start
        = (Raise e, snd (_consistency_check down original generated start))
        /\ fail_open (Exception (u "ServerError") (u "503 UNAVAILABLE"))
           = fail_open e
        /\ passed (fail_open (Exception (u "ServerError") (u "503 UNAVAILABLE")))
           = VBool true
        /\ score (fail_open (Exception (u "ServerError") (u "503 UNAVAILABLE")))
           = VInt (-1)
        /\ issues (fail_open (Exception (u "ServerError") (u "503 UNAVAILABLE")))
           <> VList [])
     \/
     (exists d,
        ask_judge down (image_part original b1) (image_part generated b2) start
        = (Ok (VDict d), snd (_consistency_check down original generated start))
        /\ fail_open (Exception (u "ServerError") (u "503 UNAVAILABLE"))
           = report_of_dict d
        /\ (report_shape (report_of_dict d) ->
            report_shape
              (fail_open (Exception (u "ServerError") (u "503 UNAVAILABLE")))))).
Proof.
  apply (report_provenance down original generated start).
  vm_compute. reflexivity.
Defined.

Lemma incomplete_answer_defaults_witness :
  _consistency_check empty_object original generated start
  = (Ok {| passed := VBool false; score := VInt 0; issues := VList [] |},
     snd (ask_judge empty_object original_part generated_part start)).
Proof.
  destruct (incomplete_answer_defaults empty_object original generated
              [137; 80; 78; 71] [137; 80; 78; 71; 1] start
              (snd (ask_judge empty_object original_part generated_part start))
              [])
    as (_ & Hcheck & _).
  - vm_compute. reflexivity.
  - vm_compute. reflexivity.
  - vm_compute. reflexivity.
  - exact Hcheck.
Defined.

End VerifierRuns.

(** ** The edit-instruction compiler *)

Lemma startswith_app (p r : pystr) : startswith (p ++ r) p = true.
Proof.
  induction p as [|x p IH]; simpl.
  - destruct r; reflexivity.
  - rewrite N.eqb_refl. exact IH.
Qed.

Lemma endswith_app (a b : pystr) : endswith (a ++ b) b = true.
Proof. unfold endswith. rewrite rev_app_distr. apply startswith_app. Qed.

Lemma with_rules_ends (p : pystr) : endswith (with_rules p) CONSISTENCY_RULES = true.
Proof.
  unfold with_rules. rewrite !app_assoc. apply endswith_app.
Qed.

Lemma len_list_lt_1 {A} (l : list A) : (len_list l <? 1)%Z = true <-> l = [].
Proof.
  unfold len_list. rewrite Z.ltb_lt. destruct l; simpl; split; try easy; lia.
Qed.

Section Compiler.

Context {lib : PyLib} (W : World).

(** The parsing never comes back empty-handed. *)
Lemma parse_prompts_nonempty text count : parse_prompts text count <> [].
Proof.
  unfold parse_prompts.
  set (prompts := if (len_list (delimited text count) <? count)%Z
                  then sections text count else delimited text count).
  destruct (len_list prompts <? 1)%Z eqn:E; [discriminate|].
  intros Hnil. rewrite Hnil in E. discriminate E.
Qed.

(** The three rungs of the parsing. *)
Lemma parse_prompts_chain text count :
  ((count <= len_list (delimited text count))%Z ->
   delimited text count <> [] ->
   parse_prompts text count = delimited text count)
  /\ ((len_list (delimited text count) < count)%Z ->
      sections text count <> [] ->
      parse_prompts text count = sections text count)
  /\ ((len_list (delimited text count) < count)%Z ->
      sections text count = [] ->
      parse_prompts text count = [text]).
Proof.
  unfold parse_prompts. repeat split.
  - intros Hge Hne.
    destruct (len_list (delimited text count) <? count)%Z eqn:E;
      [apply Z.ltb_lt in E; lia|].
    destruct (len_list (delimited text count) <? 1)%Z eqn:E1; [|reflexivity].
    apply len_list_lt_1 in E1. contradiction.
  - intros Hlt Hne. apply Z.ltb_lt in Hlt. rewrite Hlt.
    destruct (len_list (sections text count) <? 1)%Z eqn:E1; [|reflexivity].
    apply len_list_lt_1 in E1. contradiction.
  - intros Hlt Hnil. apply Z.ltb_lt in Hlt. rewrite Hlt, Hnil. reflexivity.
Qed.

Lemma create_image_prompts_run alternatives inventory count
  (s s1 : Store) resp :
  _get_client W s = (Ok tt, s1) ->
  generate_content W (length (trace s1))
    (environ_get W (u "MODEL_ID") (u "gemini-3-flash-preview"))
    [CText (image_prompts_prompt alternatives inventory count)] = Ok resp ->
  _ai_create_image_prompts W alternatives inventory count s
  = (match resp_text resp with
     | Some text => Ok (map with_rules (parse_prompts text count))
     | None =>
       if (1 <=? count)%Z
       then Raise (Exception (u "TypeError")
              (u "expected string or bytes-like object, got 'NoneType'"))
       else Ok [with_rules (u "None")]
     end,
     with_event (EvGenerate
       (environ_get W (u "MODEL_ID") (u "gemini-3-flash-preview"))
       [CText (image_prompts_prompt alternatives inventory count)]) s1).
Proof.
  intros Hc Hg. unfold _ai_create_image_prompts.
  rewrite run_bind, Hc, run_bind.
  unfold models_generate_content, outside_res. rewrite Hg.
  destruct (resp_text resp); [reflexivity|].
  destruct (1 <=? count)%Z; reflexivity.
Qed.

(** C6.  Whatever text the model answers, [_ai_create_image_prompts] does
    not raise and returns at least one instruction: the delimited prompts
    when there are as many as requested, else the sections of the heuristic
    split, else the whole text as the single instruction. *)
Theorem compiler_degrades alternatives inventory count (s s1 : Store) resp text :
  _get_client W s = (Ok tt, s1) ->
  generate_content W (length (trace s1))
    (environ_get W (u "MODEL_ID") (u "gemini-3-flash-preview"))
    [CText (image_prompts_prompt alternatives inventory count)] = Ok resp ->
  resp_text resp = Some text ->
  exists prompts s2,
    _ai_create_image_prompts W alternatives inventory count s
    = (Ok (map with_rules prompts), s2)
    /\ (1 <= length prompts)%nat
    /\ ((count <= len_list (delimited text count))%Z ->
        delimited text count <> [] -> prompts = delimited text count)
    /\ ((len_list (delimited text count) < count)%Z ->
        sections text count <> [] -> prompts = sections text count)
    /\ ((len_list (delimited text count) < count)%Z ->
        sections text count = [] -> prompts = [text]).
Proof.
  intros Hc Hg Ht.
  exists (parse_prompts text count). eexists. split.
  { rewrite (create_image_prompts_run _ _ _ _ _ _ Hc Hg), Ht. reflexivity. }
  split.
  { pose proof (parse_prompts_nonempty text count) as Hne.
    destruct (parse_prompts text count); [contradiction|simpl; lia]. }
  apply parse_prompts_chain.
Qed.

(** C7.  Every edit instruction the compiler returns, each element of the
    list of [_ai_create_image_prompts] and the one instruction of
    [_ai_create_refined_image_prompt], is a body between the fixed head and
    [CONSISTENCY_RULES], and so ends with [CONSISTENCY_RULES] verbatim. *)
Theorem instructions_end_with_rules :
  (forall alternatives inventory count (s s' : Store) prompts,
     _ai_create_image_prompts W alternatives inventory count s
     = (Ok prompts, s') ->
     forall p, In p prompts ->
       (exists body, p = EDIT_HEAD ++ body ++ u "

" ++ CONSISTENCY_RULES)
       /\ endswith p CONSISTENCY_RULES = true)
  /\ (forall refined_plan inventory (s s' : Store) p,
        _ai_create_refined_image_prompt W refined_plan inventory s
        = (Ok p, s') ->
        (exists body, p = EDIT_HEAD ++ body ++ u "

" ++ CONSISTENCY_RULES)
        /\ endswith p CONSISTENCY_RULES = true).
Proof.
  split.
  - intros alternatives inventory count s s' prompts Hrun p Hin.
    unfold _ai_create_image_prompts in Hrun. rewrite run_bind in Hrun.
    destruct (_get_client W s) as [[[]|e] s1]; [|discriminate].
    rewrite run_bind in Hrun.
    destruct (models_generate_content W _ _ s1) as [[resp|e] s2];
      [|discriminate].
    assert (Hall : exists bodies, prompts = map with_rules bodies).
    { destruct (resp_text resp) as [text|].
      - injection Hrun as <- _. eauto.
      - destruct (1 <=? count)%Z; [discriminate|].
        injection Hrun as <- _. exists [u "None"]. reflexivity. }
    destruct Hall as [bodies ->].
    apply in_map_iff in Hin as (body & <- & _).
    split; [exists body; reflexivity|apply with_rules_ends].
  - intros refined_plan inventory s s' p Hrun.
    unfold _ai_create_refined_image_prompt in Hrun. rewrite run_bind in Hrun.
    destruct (_get_client W s) as [[[]|e] s1]; [|discriminate].
    rewrite run_bind in Hrun.
    destruct (models_generate_content W _ _ s1) as [[resp|e] s2];
      [|discriminate].
    injection Hrun as <- _.
    split; [eexists; reflexivity|apply with_rules_ends].
Qed.

End Compiler.

(** *** The compiler on concrete answers *)

Module CompilerRuns.

Import Sample.

Definition three_delimited : pystr :=
  u "Aqui tienes los prompts.

===PROMPT_1===
Pintar TODAS las paredes de estuco de AMBAS plantas en blanco RAL 9010.
===FIN_1===

===PROMPT_2===

Pintar la piedra en antracita RAL 7016, conservando su textura.
===FIN_2===
===PROMPT_3===
MANTENER tejas sin cambios.
===FIN_3===
".

Example delimited_three :
  delimited three_delimited 3
  = [u "Pintar TODAS las paredes de estuco de AMBAS plantas en blanco RAL 9010.";
     u "Pintar la piedra en antracita RAL 7016, conservando su textura.";
     u "MANTENER tejas sin cambios."].
Proof. vm_compute. reflexivity. Qed.

(** Two sections that the heuristic split finds, and no delimiter. *)
Definition two_sections : pystr :=
  u "Prompt A: Pintar TODAS las paredes de estuco de AMBAS plantas (baja y alta) en blanco RAL 9010, acabado mate siloxanico.
Prompt B: Pintar la piedra natural de AMBAS plantas en antracita RAL 7016 conservando su textura y relieve natural.
Prompt C: corto".

Example sections_two :
  delimited two_sections 3 = []
  /\ parse_prompts two_sections 3
     = [u "Prompt A: Pintar TODAS las paredes de estuco de AMBAS plantas (baja y alta) en blanco RAL 9010, acabado mate siloxanico.";
        u "Prompt B: Pintar la piedra natural de AMBAS plantas en antracita RAL 7016 conservando su textura y relieve natural."].
Proof. split; vm_compute; reflexivity. Qed.

Example whole_text :
  parse_prompts (u "Pintar todo de blanco.") 3 = [u "Pintar todo de blanco."].
Proof. vm_compute. reflexivity. Qed.

(** Two delimited prompts out of three requested: the heuristic split
    replaces them, and the whole text is what is left. *)
Example two_of_three :
  delimited (u "===PROMPT_1===
a
===FIN_1===
===PROMPT_2===
b
===FIN_2===") 3 = [u "a"; u "b"]
  /\ parse_prompts (u "===PROMPT_1===
a
===FIN_1===
===PROMPT_2===
b
===FIN_2===") 3 = [u "===PROMPT_1===
a
===FIN_1===
===PROMPT_2===
b
===FIN_2==="].
Proof. split; vm_compute; reflexivity. Qed.

Definition compiling : World := world (says three_delimited).

Definition start : Store := store empty_session [].

Lemma compiler_degrades_witness :
  fst (_ai_create_image_prompts compiling (u "CDS") (u "ELEM_01: muro") 3 start)
  = Ok (map with_rules (delimited three_delimited 3)).
Proof.
  destruct (compiler_degrades compiling (u "CDS") (u "ELEM_01: muro") 3 start
              (with_client start)
              {| resp_text := Some three_delimited; resp_parts := Ok [] |}
              three_delimited)
    as (prompts & s2 & Hrun & _ & Hdelim & _).
  - vm_compute. reflexivity.
  - vm_compute. reflexivity.
  - reflexivity.
  - rewrite Hrun, Hdelim.
    + reflexivity.
    + vm_compute. discriminate.
    + vm_compute. discriminate.
Defined.

(** A model whose answer carries no text. *)
Definition speechless : World :=
  world (fun _ _ _ => Ok {| resp_text := None; resp_parts := Ok [] |}).

Lemma instructions_end_with_rules_witness :
  endswith
    (with_rules (u "MANTENER tejas sin cambios.")) CONSISTENCY_RULES = true
  /\ endswith (with_rules (u "None")) CONSISTENCY_RULES = true.
Proof.
  split.
  - refine (proj2 (proj1 (instructions_end_with_rules compiling)
             (u "CDS") (u "ELEM_01: muro") 3%Z start
             (snd (_ai_create_image_prompts compiling (u "CDS")
                     (u "ELEM_01: muro") 3 start))
             (map with_rules (delimited three_delimited 3)) _
             (with_rules (u "MANTENER tejas sin cambios.")) _)).
    + vm_compute. reflexivity.
    + vm_compute. auto.
  - refine (proj2 (proj2 (instructions_end_with_rules speechless)
             (u "plan") (u "ELEM_01: muro") start
             (snd (_ai_create_refined_image_prompt speechless
                     (u "plan") (u "ELEM_01: muro") start))
             (with_rules (u "None")) _)).
    vm_compute. reflexivity.
Defined.

End CompilerRuns.

(** ** Refinement *)

Lemma startswith_split (s p : pystr) :
  startswith s p = true -> s = p ++ drop (length p) s.
Proof.
  revert s. induction p as [|x p IH]; intros s H; [reflexivity|].
  destruct s as [|y s]; [discriminate|]. simpl in H.
  apply andb_true_iff in H as [Hxy Hrest]. apply N.eqb_eq in Hxy as ->.
  simpl. f_equal. apply IH, Hrest.
Qed.

(** Where [find] finds the needle, the needle is. *)
Lemma find_split (s needle : pystr) (i : nat) :
  find s needle = Some i ->
  s = take i s ++ needle ++ drop (i + length needle) s.
Proof.
  revert i. induction s as [|c s IH]; intros i H.
  - destruct needle; simpl in H; [|discriminate].
    injection H as <-. reflexivity.
  - cbn [find] in H. destruct (startswith (c :: s) needle) eqn:E.
    + injection H as <-. apply startswith_split in E. exact E.
    + destruct (find s needle) as [j|] eqn:Ej; [|discriminate].
      injection H as <-. simpl. f_equal. apply IH. reflexivity.
Qed.

Section Refine.

Context {lib : PyLib} (W : World).

(** *** What a computation leaves alone *)

(** The stored specification is the same in both stores. *)
Definition same_spec (s s' : Store) : Prop :=
  current_cds (session s') = current_cds (session s)
  /\ refined_plan (session s') = refined_plan (session s).

Definition keeps_spec {A} (c : M Store A) : Prop :=
  forall s r s', c s = (r, s') -> same_spec s s'.

Lemma same_spec_refl s : same_spec s s.
Proof. split; reflexivity. Qed.

Lemma same_spec_trans s1 s2 s3 :
  same_spec s1 s2 -> same_spec s2 s3 -> same_spec s1 s3.
Proof. intros [H1 H2] [H3 H4]. split; congruence. Qed.

Ltac one_step :=
  let H := fresh in
  intros ? ? ? H;
  cbv [ret raise lift get_store outside outside_res modify] in H;
  injection H as _ <-; split; reflexivity.

Lemma keeps_ret {A} (a : A) : keeps_spec (ret a).
Proof. one_step. Qed.

Lemma keeps_mret {A} (a : A) : keeps_spec (mret a : M Store A).
Proof. apply keeps_ret. Qed.

Lemma keeps_raise {A} e : keeps_spec (raise e : M Store A).
Proof. one_step. Qed.

Lemma keeps_lift {A} (x : res A) : keeps_spec (lift x).
Proof. one_step. Qed.

Lemma keeps_get_store : keeps_spec get_store.
Proof. one_step. Qed.

Lemma keeps_bind {A B} (c : M Store A) (k : A -> M Store B) :
  keeps_spec c -> (forall a, keeps_spec (k a)) -> keeps_spec (c ≫= k).
Proof.
  intros Hc Hk s r s' Hrun. rewrite run_bind in Hrun.
  destruct (c s) as [[a|e] s1] eqn:E.
  - eapply same_spec_trans; [eapply Hc, E|eapply Hk, Hrun].
  - injection Hrun as _ <-. eapply Hc, E.
Qed.

Lemma keeps_try {A} (body : M Store A) handler :
  keeps_spec body -> (forall e, keeps_spec (handler e)) ->
  keeps_spec (try_except body handler).
Proof.
  intros Hb Hh s r s' Hrun. rewrite run_try in Hrun.
  destruct (body s) as [[a|e] s1] eqn:E.
  - injection Hrun as _ <-. eapply Hb, E.
  - eapply same_spec_trans; [eapply Hb, E|eapply Hh, Hrun].
Qed.

Lemma keeps_outside {A} ev (answer : nat -> A) : keeps_spec (outside ev answer).
Proof. one_step. Qed.

Lemma keeps_outside_res {A} ev (answer : nat -> res A) :
  keeps_spec (outside_res ev answer).
Proof. one_step. Qed.

Lemma keeps_modify (f : Store -> Store) :
  (forall s, same_spec s (f s)) -> keeps_spec (modify f).
Proof. intros Hf s r s' H. cbv [modify] in H. injection H as _ <-. apply Hf. Qed.

Create HintDb keeps.

Ltac keeps :=
  repeat first
    [ solve [auto with keeps]
    | apply keeps_ret | apply keeps_mret | apply keeps_raise | apply keeps_lift
    | apply keeps_get_store
    | apply keeps_outside | apply keeps_outside_res
    | apply keeps_modify; intros ?; split; reflexivity
    | apply keeps_bind; [|intros ?]
    | apply keeps_try; [|intros ?]
    | match goal with
      | |- keeps_spec (match ?x with _ => _ end) => destruct x
      | |- keeps_spec (if ?b then _ else _) => destruct b
      end ].

Lemma keeps_get_client : keeps_spec (_get_client W).
Proof. unfold _get_client. keeps. Qed.

Lemma keeps_generate_content model contents :
  keeps_spec (models_generate_content W model contents).
Proof. unfold models_generate_content. keeps. Qed.

Lemma keeps_load_image_opt image_path : keeps_spec (_load_image_opt image_path).
Proof. unfold _load_image_opt, _load_image. keeps. Qed.

Lemma keeps_text_strip t : keeps_spec (text_strip t).
Proof. unfold text_strip. keeps. Qed.

#[local] Hint Resolve keeps_get_client keeps_generate_content
  keeps_load_image_opt keeps_text_strip : keeps.

Lemma keeps_generate_filename prompt timestamp :
  keeps_spec (_generate_filename W prompt timestamp).
Proof. unfold _generate_filename. keeps. Qed.

Lemma keeps_save_first_image filename output_path user_id image_model parts :
  keeps_spec (save_first_image W filename output_path user_id image_model parts).
Proof.
  induction parts as [|part rest IH]; simpl; keeps.
Qed.

#[local] Hint Resolve keeps_generate_filename keeps_save_first_image : keeps.

Lemma keeps_generate_image edit_prompt image_path :
  keeps_spec (_generate_image W edit_prompt image_path).
Proof. unfold _generate_image. keeps. Qed.

Lemma keeps_refined_image_prompt refined_plan inventory :
  keeps_spec (_ai_create_refined_image_prompt W refined_plan inventory).
Proof. unfold _ai_create_refined_image_prompt. keeps. Qed.

#[local] Hint Resolve keeps_generate_image keeps_refined_image_prompt : keeps.

Lemma keeps_render_refined refined inventory :
  keeps_spec (render_refined W refined inventory).
Proof. unfold render_refined. keeps. Qed.

(** The text of the tool starts with the refined specification. *)
Lemma render_refined_starts refined inventory (s s' : Store) out :
  render_refined W refined inventory s = (Ok out, s') ->
  startswith out refined = true.
Proof.
  intros Hrun. unfold render_refined in Hrun.
  apply bind_ok in Hrun as (image_prompt & s1 & _ & Hrun).
  apply bind_ok in Hrun as (s2 & s3 & _ & Hrun).
  apply bind_ok in Hrun as (image_status & s4 & _ & Hrun).
  cbv [mret M_ret ret] in Hrun. injection Hrun as <- _.
  apply startswith_app.
Qed.

(** *** The refinement proper *)

Lemma rules_hold_inherit : exists i, find UPDATE_RULES INHERIT_RULE = Some i.
Proof. vm_compute. eexists. reflexivity. Qed.

Lemma rules_hold_uniform : exists i, find UPDATE_RULES UNIFORM_RULE = Some i.
Proof. vm_compute. eexists. reflexivity. Qed.

Lemma holds_in_tail (a tail rule : pystr) :
  (exists i, find tail rule = Some i) ->
  exists pre post, a ++ tail = pre ++ rule ++ post.
Proof.
  intros [i Hi]. apply find_split in Hi.
  exists (a ++ take i tail), (drop (i + length rule) tail).
  rewrite <- app_assoc. f_equal. exact Hi.
Qed.

(** A rule of [UPDATE_RULES] is part of every update prompt. *)
Lemma update_prompt_holds rule inventory cds feedback :
  (exists i, find UPDATE_RULES rule = Some i) ->
  exists pre post, update_prompt inventory cds feedback = pre ++ rule ++ post.
Proof.
  intros Hi. unfold update_prompt. rewrite !app_assoc.
  apply holds_in_tail, Hi.
Qed.

(** The update is one call of the model, and its result is the text of the
    answer. *)
Lemma update_design_spec_run inventory cds feedback (s s1 : Store) resp :
  _get_client W s = (Ok tt, s1) ->
  generate_content W (length (trace s1))
    (environ_get W (u "MODEL_ID") (u "gemini-3-flash-preview"))
    [CText (update_prompt inventory cds feedback)] = Ok resp ->
  _ai_update_design_spec W inventory cds feedback s
  = (Ok (resp_text resp),
     with_event (EvGenerate
       (environ_get W (u "MODEL_ID") (u "gemini-3-flash-preview"))
       [CText (update_prompt inventory cds feedback)]) s1).
Proof.
  intros Hc Hg. unfold _ai_update_design_spec.
  rewrite run_bind, Hc, run_bind.
  unfold models_generate_content, outside_res. rewrite Hg. reflexivity.
Qed.

(** With an inventory and an answer, the refinement stores the answer and
    goes on to render it. *)
Lemma refine_run feedback (s s1 : Store) inventory resp S2 :
  element_inventory (session s) = Some inventory ->
  eqb inventory [] = false ->
  _get_client W s = (Ok tt, s1) ->
  generate_content W (length (trace s1))
    (environ_get W (u "MODEL_ID") (u "gemini-3-flash-preview"))
    [CText (update_prompt inventory (prior_spec (session s)) feedback)]
  = Ok resp ->
  resp_text resp = Some S2 ->
  refine_and_generate W feedback s
  = render_refined W S2 inventory
      (with_session (set_refined S2)
         (with_event (EvGenerate
            (environ_get W (u "MODEL_ID") (u "gemini-3-flash-preview"))
            [CText (update_prompt inventory (prior_spec (session s)) feedback)])
            s1)).
Proof.
  intros Hinv Hne Hc Hg Htext.
  pose proof (update_design_spec_run _ _ feedback _ _ _ Hc Hg) as Hupd.
  rewrite Htext in Hupd.
  unfold refine_and_generate. rewrite run_bind. unfold get_store at 1.
  rewrite Hinv. unfold state_get.
  destruct inventory as [|c inventory]; [discriminate|].
  rewrite run_bind, Hupd, run_bind, run_ret, run_bind.
  reflexivity.
Qed.

(** C8.  Without a stored inventory (the key is absent or holds the empty
    text) [refine_and_generate] returns the message that there is no prior
    inventory, and the store is the one it started from: the session is
    unchanged and no outside call was made, neither to update the
    specification nor to generate an image. *)
Theorem refine_cold_start feedback (s : Store) :
  nonempty (element_inventory (session s)) = false ->
  refine_and_generate W feedback s
  = (Ok (u "Error: No hay inventario previo. Primero sube una imagen para que pueda analizarla."), s).
Proof.
  intros Hinv. unfold refine_and_generate. rewrite run_bind.
  unfold get_store.
  destruct (element_inventory (session s)) as [[|c inv]|];
    [reflexivity|discriminate|reflexivity].
Qed.

(** C1, as amended.  With an inventory in the session, the refinement asks
    the model with a prompt that holds the prior specification and the
    inheritance rule verbatim, and stores the text of the answer, as it is,
    as the current specification; the text the tool returns starts with it.
    So an element keeps its prior treatment in the stored specification
    exactly when the answer of the model repeats that treatment. *)
Theorem refinement_stores_the_answer feedback (s s1 : Store) inventory resp S2 :
  element_inventory (session s) = Some inventory ->
  eqb inventory [] = false ->
  _get_client W s = (Ok tt, s1) ->
  generate_content W (length (trace s1))
    (environ_get W (u "MODEL_ID") (u "gemini-3-flash-preview"))
    [CText (update_prompt inventory (prior_spec (session s)) feedback)]
  = Ok resp ->
  resp_text resp = Some S2 ->
  (exists pre post,
     update_prompt inventory (prior_spec (session s)) feedback
     = pre ++ prior_spec (session s) ++ post)
  /\ (exists pre post,
       update_prompt inventory (prior_spec (session s)) feedback
       = pre ++ INHERIT_RULE ++ post)
  /\ exists r s',
       refine_and_generate W feedback s = (r, s')
       /\ current_cds (session s') = Some S2
       /\ refined_plan (session s') = Some S2
       /\ (forall out, r = Ok out -> startswith out S2 = true)
       /\ (forall E,
            treatment_of E S2 = treatment_of E (prior_spec (session s))
            <-> exists cds, current_cds (session s') = Some cds
                /\ treatment_of E cds
                   = treatment_of E (prior_spec (session s))).
Proof.
  intros Hinv Hne Hc Hg Htext.
  split.
  { unfold update_prompt.
    exists (UPDATE_HEAD ++ inventory ++ UPDATE_CDS),
           (UPDATE_FEEDBACK ++ feedback ++ UPDATE_RULES).
    rewrite <- !app_assoc. reflexivity. }
  split; [apply update_prompt_holds, rules_hold_inherit|].
  destruct (render_refined W S2 inventory
              (with_session (set_refined S2)
                 (with_event (EvGenerate
                    (environ_get W (u "MODEL_ID") (u "gemini-3-flash-preview"))
                    [CText (update_prompt inventory (prior_spec (session s))
                              feedback)]) s1)))
    as [r s'] eqn:Hrest.
  exists r, s'.
  destruct (keeps_render_refined _ _ _ _ _ Hrest) as [Hcds Hplan].
  assert (Hstored : current_cds (session s') = Some S2)
    by (rewrite Hcds; reflexivity).
  split.
  { rewrite (refine_run _ _ _ _ _ _ Hinv Hne Hc Hg Htext). exact Hrest. }
  split; [exact Hstored|].
  split; [rewrite Hplan; reflexivity|]. split.
  - intros out ->. apply (render_refined_starts _ _ _ _ _ Hrest).
  - intros E. split.
    + intros HE. exists S2. auto.
    + intros (cds & Hcds' & HE). congruence.
Qed.

(** C4, as amended.  The update asks the model with a prompt that holds
    the feedback and the uniformity rule verbatim, and returns the text of
    the answer as it is: which treatment each member of a group of floors
    receives is what the answer says, and nothing in the code copies a
    change from one member to another. *)
Theorem update_returns_the_answer inventory cds feedback (s s1 : Store) resp :
  _get_client W s = (Ok tt, s1) ->
  generate_content W (length (trace s1))
    (environ_get W (u "MODEL_ID") (u "gemini-3-flash-preview"))
    [CText (update_prompt inventory cds feedback)] = Ok resp ->
  (exists pre post,
     update_prompt inventory cds feedback = pre ++ feedback ++ post)
  /\ (exists pre post,
       update_prompt inventory cds feedback = pre ++ UNIFORM_RULE ++ post)
  /\ exists s',
       _ai_update_design_spec W inventory cds feedback s
       = (Ok (resp_text resp), s')
       /\ forall S2 E1 E2,
            resp_text resp = Some S2 ->
            fst (_ai_update_design_spec W inventory cds feedback s)
            = Ok (Some S2)
            /\ (treatment_of E1 S2 = treatment_of E2 S2 <->
                forall answer, resp_text resp = Some answer ->
                  treatment_of E1 answer = treatment_of E2 answer).
Proof.
  intros Hc Hg. split.
  { unfold update_prompt.
    exists (UPDATE_HEAD ++ inventory ++ UPDATE_CDS ++ cds ++ UPDATE_FEEDBACK),
           UPDATE_RULES.
    rewrite <- !app_assoc. reflexivity. }
  split; [apply update_prompt_holds, rules_hold_uniform|].
  eexists. split; [apply (update_design_spec_run _ _ _ _ _ _ Hc Hg)|].
  intros S2 E1 E2 Htext. split.
  - rewrite (update_design_spec_run _ _ _ _ _ _ Hc Hg), Htext. reflexivity.
  - split.
    + intros H answer Ha. congruence.
    + intros H. apply H, Htext.
Qed.

End Refine.

(** *** Refinements on concrete sessions *)

Module RefineRuns.

Import Sample.

Definition inventory : pystr :=
  u "ELEM_01: Paredes estuco PLANTA BAJA
ELEM_02: Paredes estuco PLANTA ALTA
ELEM_03: Piscina
ELEM_04: Tejado de teja".

(** The prior specification: both floors white, pool and roof kept. *)
Definition S1 : pystr :=
  u "CAMBIAR:
- ELEM_01: Blanco RAL 9010, pintura siloxanica mate
- ELEM_02: Blanco RAL 9010, pintura siloxanica mate
MANTENER SIN CAMBIOS:
- ELEM_03: Piscina rectangular, agua azul
- ELEM_04: Teja ceramica roja".

(** Feedback on the walls of the ground floor: it names neither the pool
    nor the roof, and it does not restrict the change to one floor. *)
Definition feedback : pystr :=
  u "Quiero las paredes de la planta baja en gris mas oscuro".

(** An answer that darkens the ground floor only and repaints the pool. *)
Definition careless_answer : pystr :=
  u "**CDS_ACTUALIZADA:**
CAMBIAR:
- ELEM_01: Gris antracita RAL 7016, pintura siloxanica mate
- ELEM_02: Blanco RAL 9010, pintura siloxanica mate
- ELEM_03: Azul RAL 5015, pintura para piscinas
MANTENER SIN CAMBIOS:
- ELEM_04: Teja ceramica roja".

(** An answer that follows the rules of the prompt. *)
Definition careful_answer : pystr :=
  u "**CDS_ACTUALIZADA:**
CAMBIAR:
- ELEM_01: Gris antracita RAL 7016, pintura siloxanica mate
- ELEM_02: Gris antracita RAL 7016, pintura siloxanica mate
MANTENER SIN CAMBIOS:
- ELEM_03: Piscina rectangular, agua azul
- ELEM_04: Teja ceramica roja".

Definition careless : World := world (says careless_answer).
Definition careful : World := world (says careful_answer).

Definition analysed : Session :=
  {| uploaded_images := Some [u "/app/uploads/house.png"];
     last_uploaded_image := Some (u "/app/uploads/house.png");
     element_inventory := Some inventory;
     design_alternatives := Some S1;
     current_cds := None; refined_plan := None;
     workflow_phase := Some (u "alternatives_shown");
     _user_id := Some (u "ana"); project_style := None; section_type := None;
     _gen_version := None |}.

Definition start : Store := store analysed two_images.

Definition fresh : Store := store empty_session two_images.

Example treatments_before :
  treatment_of (u "ELEM_03") S1 = Some (u " Piscina rectangular, agua azul")
  /\ treatment_of (u "ELEM_01") S1 = treatment_of (u "ELEM_02") S1
  /\ mentions feedback (u "ELEM_03") = false
  /\ mentions feedback (u "Piscina") = false.
Proof. conjs; vm_compute; reflexivity. Qed.

Example careful_refinement :
  fst (_ai_update_design_spec careful inventory S1 feedback start)
  = Ok (Some careful_answer)
  /\ treatment_of (u "ELEM_03") careful_answer = treatment_of (u "ELEM_03") S1
  /\ treatment_of (u "ELEM_04") careful_answer = treatment_of (u "ELEM_04") S1
  /\ treatment_of (u "ELEM_01") careful_answer
     = treatment_of (u "ELEM_02") careful_answer.
Proof. conjs; vm_compute; reflexivity. Qed.

(** C1 as the specification states it fails: the feedback does not mention
    the pool, and the refined specification gives the pool another
    treatment than the prior one, because the model's answer does. *)
Lemma inheritance_counterexample :
  ~ (forall (lib : PyLib) (W : World) inv prior F E (s s' : Store) refined,
       mentions F E = false ->
       _ai_update_design_spec W inv prior F s = (Ok (Some refined), s') ->
       treatment_of E refined = treatment_of E prior).
Proof.
  intros Hall.
  specialize (Hall Sample.lib careless inventory S1 feedback (u "ELEM_03")
                start
                (snd (_ai_update_design_spec careless inventory S1 feedback
                        start))
                careless_answer).
  assert (Hm : mentions feedback (u "ELEM_03") = false)
    by (vm_compute; reflexivity).
  assert (Hrun : _ai_update_design_spec careless inventory S1 feedback start
                 = (Ok (Some careless_answer),
                    snd (_ai_update_design_spec careless inventory S1 feedback
                           start)))
    by (vm_compute; reflexivity).
  specialize (Hall Hm Hrun). vm_compute in Hall. discriminate Hall.
Qed.

(** C4 as the specification states it fails: the inventory lists the
    stucco walls of the two floors, the prior specification treats them
    alike, the feedback asks for darker walls on the ground floor without
    restricting the change to it, and the refined specification gives the
    two floors different treatments. *)
Lemma uniformity_counterexample :
  treatment_of (u "ELEM_01") S1 = treatment_of (u "ELEM_02") S1
  /\ fst (_ai_update_design_spec careless inventory S1 feedback start)
     = Ok (Some careless_answer)
  /\ treatment_of (u "ELEM_01") careless_answer
     = Some (u " Gris antracita RAL 7016, pintura siloxanica mate")
  /\ treatment_of (u "ELEM_02") careless_answer
     = Some (u " Blanco RAL 9010, pintura siloxanica mate")
  /\ treatment_of (u "ELEM_01") careless_answer
     <> treatment_of (u "ELEM_02") careless_answer.
Proof.
  conjs; try (vm_compute; reflexivity).
  vm_compute. discriminate.
Qed.

Lemma refine_cold_start_witness :
  refine_and_generate careless feedback fresh
  = (Ok (u "Error: No hay inventario previo. Primero sube una imagen para que pueda analizarla."),
     fresh).
Proof.
  apply (refine_cold_start careless feedback fresh).
  vm_compute. reflexivity.
Defined.

Lemma refinement_stores_the_answer_witness :
  exists r s',
    refine_and_generate careless feedback start = (r, s')
    /\ current_cds (session s') = Some careless_answer.
Proof.
  destruct (refinement_stores_the_answer careless feedback start
              (with_client start) inventory
              {| resp_text := Some careless_answer; resp_parts := Ok [] |}
              careless_answer)
    as (_ & _ & r & s' & Hrun & Hcds & _).
  - vm_compute. reflexivity.
  - vm_compute. reflexivity.
  - vm_compute. reflexivity.
  - vm_compute. reflexivity.
  - vm_compute. reflexivity.
  - exists r, s'. split; assumption.
Defined.

Lemma update_returns_the_answer_witness :
  exists s',
    _ai_update_design_spec careless inventory S1 feedback start
    = (Ok (Some careless_answer), s').
Proof.
  destruct (update_returns_the_answer careless inventory S1 feedback start
              (with_client start)
              {| resp_text := Some careless_answer; resp_parts := Ok [] |})
    as (_ & _ & s' & Hrun & _).
  - vm_compute. reflexivity.
  - vm_compute. reflexivity.
  - exists s'. exact Hrun.
Defined.

End RefineRuns.

(** ** The fan-out of the previews *)

Section Orchestrator.

Context {lib : PyLib} (W : World).

(** The gathering itself never raises and answers every task. *)
Lemma gather_total {A} (tasks : list (M Store A)) (s : Store) :
  exists rs s',
    gather_return_exceptions tasks s = (Ok rs, s')
    /\ length rs = length tasks.
Proof.
  revert s. induction tasks as [|task rest IH]; intros s.
  - exists [], s. split; reflexivity.
  - simpl. destruct (task s) as [r s1].
    destruct (IH s1) as (rs & s2 & -> & Hlen).
    exists (r :: rs), s2. split; [reflexivity|]. simpl. congruence.
Qed.

(** Three tasks are run one after the other, each on the store the one
    before left, and their results come back in that order. *)
Lemma gather_three {A} (t0 t1 t2 : M Store A) (s sa sb sc : Store) r0 r1 r2 :
  t0 s = (r0, sa) -> t1 sa = (r1, sb) -> t2 sb = (r2, sc) ->
  gather_return_exceptions [t0; t1; t2] s = (Ok [r0; r1; r2], sc).
Proof. intros H0 H1 H2. simpl. rewrite H0, H1, H2. reflexivity. Qed.

(** *** Files stay on disk *)

(** No tool removes a file: what exists before a computation exists
    after it. *)
Definition files_stay (s s' : Store) : Prop :=
  forall p, path_exists s p = true -> path_exists s' p = true.

Definition keeps_files {A} (c : M Store A) : Prop :=
  forall s r s', c s = (r, s') -> files_stay s s'.

Lemma files_stay_refl s : files_stay s s.
Proof. intros p H. exact H. Qed.

Lemma files_stay_trans s1 s2 s3 :
  files_stay s1 s2 -> files_stay s2 s3 -> files_stay s1 s3.
Proof. intros H1 H2 p H. apply H2, H1, H. Qed.

Lemma files_stay_same_disk s s' : disk s' = disk s -> files_stay s s'.
Proof. intros Hd p H. unfold path_exists in *. rewrite Hd. exact H. Qed.

Lemma files_stay_with_file path data s : files_stay s (with_file path data s).
Proof.
  intros p H. unfold path_exists in *. cbn [disk with_file].
  destruct (decide (path = p)) as [->|Hne].
  - rewrite lookup_insert_eq. reflexivity.
  - rewrite lookup_insert_ne by exact Hne. exact H.
Qed.

Ltac one_stay :=
  let H := fresh in
  intros ? ? ? H;
  cbv [ret raise lift get_store outside outside_res modify] in H;
  injection H as _ <-; apply files_stay_same_disk; reflexivity.

Lemma stays_ret {A} (a : A) : keeps_files (ret a).
Proof. one_stay. Qed.

Lemma stays_mret {A} (a : A) : keeps_files (mret a : M Store A).
Proof. apply stays_ret. Qed.

Lemma stays_raise {A} e : keeps_files (raise e : M Store A).
Proof. one_stay. Qed.

Lemma stays_lift {A} (x : res A) : keeps_files (lift x).
Proof. one_stay. Qed.

Lemma stays_get_store : keeps_files get_store.
Proof. one_stay. Qed.

Lemma stays_outside {A} ev (answer : nat -> A) :
  keeps_files (outside ev answer).
Proof. one_stay. Qed.

Lemma stays_outside_res {A} ev (answer : nat -> res A) :
  keeps_files (outside_res ev answer).
Proof. one_stay. Qed.

Lemma stays_modify (f : Store -> Store) :
  (forall s, files_stay s (f s)) -> keeps_files (modify f).
Proof. intros Hf s r s' H. cbv [modify] in H. injection H as _ <-. apply Hf. Qed.

Lemma stays_bind {A B} (c : M Store A) (k : A -> M Store B) :
  keeps_files c -> (forall a, keeps_files (k a)) -> keeps_files (c ≫= k).
Proof.
  intros Hc Hk s r s' Hrun. rewrite run_bind in Hrun.
  destruct (c s) as [[a|e] s1] eqn:E.
  - eapply files_stay_trans; [eapply Hc, E|eapply Hk, Hrun].
  - injection Hrun as _ <-. eapply Hc, E.
Qed.

Lemma stays_try {A} (body : M Store A) handler :
  keeps_files body -> (forall e, keeps_files (handler e)) ->
  keeps_files (try_except body handler).
Proof.
  intros Hb Hh s r s' Hrun. rewrite run_try in Hrun.
  destruct (body s) as [[a|e] s1] eqn:E.
  - injection Hrun as _ <-. eapply Hb, E.
  - eapply files_stay_trans; [eapply Hb, E|eapply Hh, Hrun].
Qed.

Create HintDb stays.

Ltac stays :=
  repeat first
    [ solve [auto with stays]
    | apply stays_ret | apply stays_mret | apply stays_raise | apply stays_lift
    | apply stays_get_store
    | apply stays_outside | apply stays_outside_res
    | apply stays_modify; intros ?;
      first [ apply files_stay_with_file
            | apply files_stay_same_disk; reflexivity ]
    | apply stays_bind; [|intros ?]
    | apply stays_try; [|intros ?]
    | match goal with
      | |- keeps_files (match ?x with _ => _ end) => destruct x
      | |- keeps_files (if ?b then _ else _) => destruct b
      end ].

Lemma stays_get_client : keeps_files (_get_client W).
Proof. unfold _get_client. stays. Qed.

Lemma stays_generate_content model contents :
  keeps_files (models_generate_content W model contents).
Proof. unfold models_generate_content. stays. Qed.

Lemma stays_load_image image_path : keeps_files (_load_image image_path).
Proof. unfold _load_image. stays. Qed.

Lemma stays_text_strip t : keeps_files (text_strip t).
Proof. unfold text_strip. stays. Qed.

#[local] Hint Resolve stays_get_client stays_generate_content
  stays_load_image stays_text_strip : stays.

Lemma stays_load_image_opt image_path : keeps_files (_load_image_opt image_path).
Proof. unfold _load_image_opt. stays. Qed.

Lemma stays_generate_filename prompt timestamp :
  keeps_files (_generate_filename W prompt timestamp).
Proof. unfold _generate_filename. stays. Qed.

Lemma stays_save_first_image filename output_path user_id image_model parts :
  keeps_files (save_first_image W filename output_path user_id image_model parts).
Proof. induction parts as [|part rest IH]; simpl; stays. Qed.

#[local] Hint Resolve stays_load_image_opt stays_generate_filename
  stays_save_first_image : stays.

Lemma stays_generate_image edit_prompt image_path :
  keeps_files (_generate_image W edit_prompt image_path).
Proof. unfold _generate_image. stays. Qed.

Lemma stays_extract_json text : keeps_files (extract_json text).
Proof. unfold extract_json, list_index. stays. Qed.

#[local] Hint Resolve stays_extract_json : stays.

Lemma stays_consistency_check orig gen :
  keeps_files (_consistency_check W orig gen).
Proof.
  unfold _consistency_check, judgment, ask_judge, report_of, result_get. stays.
Qed.

(** A generation that returned has read the image it was given. *)
Lemma generated_from_file edit_prompt image_path (s s' : Store) text :
  _generate_image W edit_prompt (Some image_path) s = (Ok text, s') ->
  path_exists s image_path = true.
Proof.
  intros Hrun. unfold _generate_image in Hrun. rewrite run_bind in Hrun.
  unfold _load_image_opt, _load_image in Hrun. rewrite run_bind in Hrun.
  unfold get_store in Hrun. unfold path_exists.
  destruct (disk s !! image_path); [reflexivity|discriminate Hrun].
Qed.

(** *** The verification of the previews *)

(** With both files on disk the check returns a report. *)
Lemma consistency_check_returns orig gen (s : Store) :
  path_exists s orig = true -> path_exists s gen = true ->
  exists r s', _consistency_check W orig gen s = (Ok r, s').
Proof.
  unfold path_exists. intros H1 H2.
  destruct (disk s !! orig) as [b1|] eqn:E1; [|discriminate].
  destruct (disk s !! gen) as [b2|] eqn:E2; [|discriminate].
  rewrite (consistency_check_unfold W _ _ _ _ _ E1 E2).
  destruct (judgment W _ _ s) as [[r|e] s']; eauto.
Qed.

Lemma str_items_texts i (l : list pystr) (s : Store) :
  str_items i (map VStr l) s = (Ok l, s).
Proof.
  revert i. induction l as [|x l IH]; intros i; [reflexivity|].
  cbn [map str_items]. rewrite run_bind, IH. reflexivity.
Qed.

(** Issues that are a list of texts can be joined. *)
Lemma join_issues_texts (l : list pystr) (s : Store) :
  join_issues (VList (map VStr l)) s = (Ok (join (u "; ") (slice_to 3 l)), s).
Proof.
  unfold join_issues, slice_to. rewrite run_bind, <- fmap_take.
  change (VStr <$> take 3 l) with (map VStr (take 3 l)).
  rewrite str_items_texts. reflexivity.
Qed.

(** What the verifier's documentation promises of a failing report: its
    issues are a list of texts. *)
Definition issues_listed (primary_image : pystr) : Prop :=
  forall gen_path (s s' : Store) r,
    _consistency_check W primary_image gen_path s = (Ok r, s') ->
    truthy (passed r) = false ->
    exists l, issues r = VList (map VStr l).

Lemma consistency_line_returns primary_image idx gen_path (s : Store) :
  issues_listed primary_image ->
  path_exists s primary_image = true ->
  exists line s',
    consistency_line W primary_image idx gen_path s = (Ok line, s')
    /\ files_stay s s'.
Proof.
  intros Hlisted Hprimary. unfold consistency_line. rewrite run_bind.
  unfold get_store.
  destruct gen_path as [[|c gen_path]|];
    try (eexists _, s; split; [reflexivity|apply files_stay_refl]).
  destruct (path_exists s (c :: gen_path)) eqn:Hgen;
    [|eexists _, s; split; [reflexivity|apply files_stay_refl]].
  destruct (consistency_check_returns _ _ _ Hprimary Hgen) as (r & s' & Hcheck).
  pose proof (stays_consistency_check _ _ _ _ _ Hcheck) as Hstay.
  rewrite run_bind, Hcheck.
  destruct (truthy (passed r)) eqn:Hpassed.
  - eexists _, s'. split; [reflexivity|exact Hstay].
  - destruct (Hlisted _ _ _ _ Hcheck Hpassed) as [l Hl].
    rewrite run_bind, Hl, join_issues_texts.
    eexists _, s'. split; [reflexivity|exact Hstay].
Qed.

Lemma consistency_lines_return primary_image paths idx (s : Store) :
  issues_listed primary_image ->
  path_exists s primary_image = true ->
  exists lines s',
    consistency_lines W primary_image idx paths s = (Ok lines, s').
Proof.
  intros Hlisted. revert idx s.
  induction paths as [|gen_path rest IH]; intros idx s Hprimary.
  - exists [], s. reflexivity.
  - cbn [consistency_lines]. rewrite run_bind.
    destruct (consistency_line_returns primary_image idx gen_path s
                Hlisted Hprimary) as (line & s1 & -> & Hstay).
    destruct (IH (S idx) s1 (Hstay _ Hprimary)) as (lines & s2 & Hrest).
    rewrite run_bind, Hrest. eexists _, s2. reflexivity.
Qed.

(** *** From the upload to the fan-out *)

(** The images [analyze_and_propose] works on: the uploaded ones or, when
    there is none, the last uploaded one. *)
Definition uploaded_of (s : Store) : list pystr :=
  let uploaded := state_get (uploaded_images (session s)) [] in
  let image_path := last_uploaded_image (session s) in
  match uploaded, image_path with
  | [], Some ((_ :: _) as p) => [p]
  | _, _ => uploaded
  end.

(** Steps 1 to 3 of [analyze_and_propose]: the inventory, the
    alternatives, which are stored in the session, and at most three edit
    instructions. *)
Definition prepare (uploaded : list pystr) : M Store (pystr * list pystr) :=
  inventory ← _vision_inventory W uploaded;
  inventory ← logged_len inventory;
  alternatives ← _ai_generate_cds_alternatives W inventory;
  alternatives ← logged_len alternatives;
  modify (with_session (set_analysis inventory alternatives));;
  image_prompts ← _ai_create_image_prompts W alternatives inventory 3;
  ret (alternatives, slice_to 3 image_prompts).

(** Once the three steps have returned, the tool is the fan-out and the
    verification on the first uploaded image. *)
Lemma analyze_reaches_fan_out (s0 s : Store) primary_image rest
  alternatives image_prompts :
  uploaded_of s0 = primary_image :: rest ->
  existsb (path_exists s0) (primary_image :: rest) = true ->
  prepare (primary_image :: rest) s0 = (Ok (alternatives, image_prompts), s) ->
  analyze_and_propose W s0
  = generate_and_verify W alternatives image_prompts primary_image s.
Proof.
  intros Hup Hex Hprep.
  unfold analyze_and_propose. rewrite run_bind. unfold get_store at 1.
  unfold uploaded_of in Hup. cbv zeta in Hup |- *.
  rewrite Hup, Hex. cbn [negb].
  unfold prepare in Hprep.
  rewrite run_bind in Hprep. rewrite run_bind.
  destruct (_vision_inventory W (primary_image :: rest) s0) as [[a1|e1] s1];
    [|discriminate Hprep].
  rewrite run_bind in Hprep. rewrite run_bind.
  destruct (logged_len a1 s1) as [[a2|e2] s2]; [|discriminate Hprep].
  rewrite run_bind in Hprep. rewrite run_bind.
  destruct (_ai_generate_cds_alternatives W a2 s2) as [[a3|e3] s3];
    [|discriminate Hprep].
  rewrite run_bind in Hprep. rewrite run_bind.
  destruct (logged_len a3 s3) as [[a4|e4] s4]; [|discriminate Hprep].
  rewrite run_bind in Hprep. rewrite run_bind.
  destruct (modify (with_session (set_analysis a2 a4)) s4) as [[a5|e5] s5];
    [|discriminate Hprep].
  rewrite run_bind in Hprep. rewrite run_bind.
  destruct (_ai_create_image_prompts W a4 a2 3 s5) as [[a6|e6] s6];
    [|discriminate Hprep].
  cbv [mret M_ret ret] in Hprep. injection Hprep as <- <- <-. reflexivity.
Qed.

(** *** One generation in three fails *)

Definition raised {A} (r : res A) : bool :=
  match r with Raise _ => true | Ok _ => false end.

Definition succeeded {A} (r : res A) : bool := negb (raised r).

(** How many results of a batch are captured exceptions. *)
Definition failures {A} (results : list (res A)) : nat :=
  length (List.filter raised results).

Definition successes {A} (results : list (res A)) : nat :=
  length (List.filter succeeded results).

(** What [analyze_and_propose] gives after the fan-out: the text with the
    status lines when the verification of the previews returns, and what
    the verification raises when it raises. *)
Definition after_verification (alternatives : pystr)
  (results : list (res pystr)) (verified : res (list pystr) * Store)
  : res pystr * Store :=
  match verified with
  | (Ok lines, s') =>
    (Ok (proposal_text alternatives (imap image_status_line results) lines), s')
  | (Raise e, s') => (Raise e, s')
  end.

(** C5.  Fan-out resilience.  [analyze_and_propose] has reached the
    fan-out with three edit instructions, and exactly one of the three
    generations raises.  Then the gathering returns three results, in the
    order of the instructions, each the result of its own generation: two
    successes and one captured exception, whose text is on the status
    line of its own letter while the two others are reported as
    generated.  Nothing a generation raises leaves the fan-out:
    [analyze_and_propose] goes on to the verification of the previews and
    ends as the verification ends, and it returns its text, with the three
    status lines, whenever the verifier keeps to its documented result and
    lists the issues of a failing report as texts. *)
Theorem fan_out_resilient (s0 s sa sb sc : Store) primary_image rest
  alternatives p0 p1 p2 r0 r1 r2 :
  uploaded_of s0 = primary_image :: rest ->
  existsb (path_exists s0) (primary_image :: rest) = true ->
  prepare (primary_image :: rest) s0 = (Ok (alternatives, [p0; p1; p2]), s) ->
  _generate_image W p0 (Some primary_image) s = (r0, sa) ->
  _generate_image W p1 (Some primary_image) sa = (r1, sb) ->
  _generate_image W p2 (Some primary_image) sb = (r2, sc) ->
  failures [r0; r1; r2] = 1%nat ->
  gather_return_exceptions
    (map (fun p => _generate_image W p (Some primary_image)) [p0; p1; p2]) s
  = (Ok [r0; r1; r2], sc)
  /\ successes [r0; r1; r2] = 2%nat
  /\ (exists i e,
        [r0; r1; r2] !! i = Some (Raise e)
        /\ imap image_status_line [r0; r1; r2] !! i
           = Some (u "**Imagen " ++ letter i ++ u "**: ❌ Error - " ++ exn_str e)
        /\ forall j, (j < 3)%nat -> j <> i ->
           exists text,
             [r0; r1; r2] !! j = Some (Ok text)
             /\ imap image_status_line [r0; r1; r2] !! j
                = Some (u "**Imagen " ++ letter j ++ u "**: ✅ Generada"))
  /\ analyze_and_propose W s0
     = after_verification alternatives [r0; r1; r2]
         (consistency_lines W primary_image 0
            (map generated_path [r0; r1; r2]) sc)
  /\ (issues_listed primary_image ->
      exists lines s',
        analyze_and_propose W s0
        = (Ok (proposal_text alternatives
                 (imap image_status_line [r0; r1; r2]) lines), s')).
Proof.
  intros Hup Hex Hprep E0 E1 E2 Hone.
  pose proof (gather_three _ _ _ _ _ _ _ _ _ _ E0 E1 E2) as Hg.
  assert (Hrun : analyze_and_propose W s0
                 = after_verification alternatives [r0; r1; r2]
                     (consistency_lines W primary_image 0
                        (map generated_path [r0; r1; r2]) sc)).
  { rewrite (analyze_reaches_fan_out _ _ _ _ _ _ Hup Hex Hprep).
    unfold generate_and_verify. rewrite run_bind.
    change (map (fun p => _generate_image W p (Some primary_image))
              [p0; p1; p2])
      with [_generate_image W p0 (Some primary_image);
            _generate_image W p1 (Some primary_image);
            _generate_image W p2 (Some primary_image)].
    rewrite Hg, run_bind.
    destruct (consistency_lines W primary_image 0
                (map generated_path [r0; r1; r2]) sc)
      as [[lines|e] s']; reflexivity. }
  assert (Hprimary : path_exists sc primary_image = true).
  { pose proof (stays_generate_image _ _ _ _ _ E0) as S0.
    pose proof (stays_generate_image _ _ _ _ _ E1) as S1.
    pose proof (stays_generate_image _ _ _ _ _ E2) as S2.
    destruct r0 as [t0|e0].
    - apply S2, S1, S0. eapply generated_from_file, E0.
    - destruct r1 as [t1|e1].
      + apply S2, S1. eapply generated_from_file, E1.
      + destruct r2; discriminate Hone. }
  split; [exact Hg|].
  split.
  { destruct r0, r1, r2; try discriminate Hone; reflexivity. }
  split.
  { destruct r0 as [t0|e0], r1 as [t1|e1], r2 as [t2|e2];
      try discriminate Hone.
    - exists 2%nat, e2. split; [reflexivity|]. split; [reflexivity|].
      intros [|[|[|j]]] Hj Hne; try lia; try congruence;
        eexists; split; reflexivity.
    - exists 1%nat, e1. split; [reflexivity|]. split; [reflexivity|].
      intros [|[|[|j]]] Hj Hne; try lia; try congruence;
        eexists; split; reflexivity.
    - exists 0%nat, e0. split; [reflexivity|]. split; [reflexivity|].
      intros [|[|[|j]]] Hj Hne; try lia; try congruence;
        eexists; split; reflexivity. }
  split; [exact Hrun|].
  intros Hlisted.
  destruct (consistency_lines_return primary_image
              (map generated_path [r0; r1; r2]) 0 sc Hlisted Hprimary)
    as (lines & s' & Hlines).
  exists lines, s'. rewrite Hrun, Hlines. reflexivity.
Qed.

(** *** Around the fan-out *)

(** Without an uploaded image on disk the tool asks for one: no model is
    called and the store is as it was. *)
Theorem analyze_without_upload (s : Store) :
  existsb (path_exists s) (uploaded_of s) = false ->
  analyze_and_propose W s = (Ok NO_UPLOAD, s).
Proof.
  intros Hnone. unfold analyze_and_propose. rewrite run_bind.
  unfold get_store at 1. unfold uploaded_of in Hnone.
  cbv zeta in Hnone |- *.
  match type of Hnone with
  | existsb _ ?l = false => destruct l as [|primary_image rest]
  end; [reflexivity|].
  rewrite Hnone. reflexivity.
Qed.

(** Whatever the generations do, and however many edit instructions
    there are, the fan-out gives one result and one status line for each
    instruction, and the tool goes on to the verification. *)
Theorem one_status_line_per_instruction alternatives image_prompts
  primary_image (s : Store) :
  exists results sc,
    gather_return_exceptions
      (map (fun p => _generate_image W p (Some primary_image)) image_prompts) s
    = (Ok results, sc)
    /\ length results = length image_prompts
    /\ length (imap image_status_line results) = length image_prompts
    /\ generate_and_verify W alternatives image_prompts primary_image s
       = after_verification alternatives results
           (consistency_lines W primary_image 0
              (map generated_path results) sc).
Proof.
  destruct (gather_total
              (map (fun p => _generate_image W p (Some primary_image))
                 image_prompts) s) as (results & sc & Hg & Hlen).
  rewrite length_map in Hlen.
  exists results, sc. split; [exact Hg|]. split; [exact Hlen|].
  split; [rewrite length_imap; exact Hlen|].
  unfold generate_and_verify. rewrite run_bind, Hg, run_bind.
  destruct (consistency_lines W primary_image 0
              (map generated_path results) sc) as [[lines|e] s']; reflexivity.
Qed.

(** A preview is verified only when its generation named a file that is
    on disk: a generation that raised, one that named no file and one
    whose file is missing give no consistency line, and the verifier is
    not called. *)
Theorem unverified_previews primary_image idx gen_path (s : Store) :
  match gen_path with
  | Some ((_ :: _) as path) => path_exists s path = false
  | _ => True
  end ->
  consistency_line W primary_image idx gen_path s = (Ok [], s)
  /\ forall e, generated_path (Raise e) = None.
Proof.
  intros Hpath. split; [|reflexivity].
  unfold consistency_line. rewrite run_bind. unfold get_store at 1.
  destruct gen_path as [[|c path]|]; try reflexivity.
  rewrite Hpath. reflexivity.
Qed.

(** A failing report whose issues are not a list of texts makes the
    verification raise, and the tool with it: with issues that are
    [None], the slice raises [TypeError]. *)
Theorem unlisted_issues_raise primary_image idx c path (s s' : Store) r :
  path_exists s (c :: path) = true ->
  _consistency_check W primary_image (c :: path) s = (Ok r, s') ->
  truthy (passed r) = false ->
  issues r = VNone ->
  consistency_line W primary_image idx (Some (c :: path)) s
  = (Raise (not_subscriptable VNone), s').
Proof.
  intros Hpath Hcheck Hpassed Hissues.
  unfold consistency_line. rewrite run_bind. unfold get_store at 1.
  rewrite Hpath, run_bind, Hcheck, Hpassed, run_bind, Hissues. reflexivity.
Qed.

End Orchestrator.

(** *** The fan-out on concrete worlds *)

Module FanOutRuns.

Import Sample.

Definition png : RespPart :=
  {| inline_data :=
       Some {| blob_mime := Some (u "image/png"); blob_data := [137; 80; 78] |} |}.

(** The judge's answer: a passing report. *)
Definition all_fine : pystr :=
  u "{" ++ dq ++ u "passed" ++ dq ++ u ": true, " ++ dq ++ u "score" ++ dq
  ++ u ": 95, " ++ dq ++ u "issues" ++ dq ++ u ": []}".

(** The judge's answer: a failing report that lists two issues. *)
Definition two_issues : pystr :=
  u "{" ++ dq ++ u "passed" ++ dq ++ u ": false, " ++ dq ++ u "score" ++ dq
  ++ u ": 40, " ++ dq ++ u "issues" ++ dq ++ u ": [" ++ dq
  ++ u "falta la piscina" ++ dq ++ u ", " ++ dq ++ u "tejado distinto" ++ dq
  ++ u "]}".

(** The judge's answer: a failing report whose issues are [null]. *)
Definition issues_null : pystr :=
  u "{" ++ dq ++ u "passed" ++ dq ++ u ": false, " ++ dq ++ u "score" ++ dq
  ++ u ": 10, " ++ dq ++ u "issues" ++ dq ++ u ": null}".

(** The models of a session.  The image model fails on the instructions
    that hold [broken] and returns an image for the others; the judge,
    recognised by its two images, answers [judge]; the model asked for a
    file name answers [name]; every other call is answered with the three
    delimited prompts. *)
Definition models (broken name judge : pystr)
  : nat -> pystr -> list Content -> res Response :=
  fun _ model contents =>
    if eqb model (u "gemini-3-pro-image-preview") then
      match contents with
      | [CPart _; CText prompt] =>
        if contains prompt broken
        then Raise (Exception (u "ServerError") (u "500 INTERNAL"))
        else Ok {| resp_text := None; resp_parts := Ok [png] |}
      | _ => Raise (Exception (u "ClientError") (u "400 INVALID_ARGUMENT"))
      end
    else
      match contents with
      | [CPart _; CPart _; CText _] =>
        Ok {| resp_text := Some judge; resp_parts := Ok [] |}
      | [CText prompt] =>
        if startswith prompt (u "Given this design description")
        then Ok {| resp_text := Some name; resp_parts := Ok [] |}
        else Ok {| resp_text := Some CompilerRuns.three_delimited;
                   resp_parts := Ok [] |}
      | _ =>
        Ok {| resp_text := Some CompilerRuns.three_delimited;
              resp_parts := Ok [] |}
      end.

(** The length of a text in UTF-8. *)
Definition utf8_bytes (c : N) : nat :=
  if (c <? 128)%N then 1%nat
  else if (c <? 2048)%N then 2%nat
  else if (c <? 65536)%N then 3%nat else 4%nat.

Definition utf8_length (s : pystr) : nat :=
  fold_right (fun c n => (utf8_bytes c + n)%nat) 0%nat s.

Definition basename (path : pystr) : pystr := List.last (split path (u "/")) [].

(** [open(path, "wb")] on a file system whose names hold at most 255
    bytes. *)
Definition open_for_writing (path : pystr) : res unit :=
  if (255 <? utf8_length (basename path))%nat
  then Raise (Exception (u "OSError")
                (u "[Errno 36] File name too long: '" ++ path ++ u "'"))
  else Ok tt.

(** The sample world with these models and this file system. *)
Definition house (broken name judge : pystr) : World :=
  let w := world (models broken name judge) in
  {| environ := environ w;
     static_dir := static_dir w;
     new_client := new_client w;
     generate_content := generate_content w;
     strftime_now := strftime_now w;
     uuid4_hex := uuid4_hex w;
     makedirs := makedirs w;
     write_bytes := fun _ path => open_for_writing path;
     save_artifact := save_artifact w;
     upload_image := upload_image w;
     abspath := abspath w |}.

Definition primary : pystr := u "/app/uploads/house.png".

Definition uploaded : Session :=
  {| uploaded_images := Some [primary];
     last_uploaded_image := Some primary;
     element_inventory := None; design_alternatives := None;
     current_cds := None; refined_plan := None; workflow_phase := None;
     _user_id := Some (u "ana"); project_style := None; section_type := None;
     _gen_version := None |}.

Definition start : Store := store uploaded [(primary, [137; 80; 78; 71])].

(** The second of the three instructions makes the image model fail. *)
Definition one_fails (judge : pystr) : World :=
  house (u "RAL 7016") (u "fachada gris perla") judge.

(** No instruction makes the image model fail. *)
Definition none_fails (judge : pystr) : World :=
  house (u "RAL 0000") (u "fachada gris perla") judge.

(** The naming model answers with a text too long for a file name. *)
Definition long_names : World :=
  house (u "RAL 0000") CompilerRuns.three_delimited all_fine.

(** Where a tool run has come to when the previews are generated. *)
Definition reached (W : World) : res (pystr * list pystr) * Store :=
  prepare W [primary] start.

Definition alternatives (W : World) : pystr :=
  match fst (reached W) with Ok (a, _) => a | Raise _ => [] end.

Definition instruction (W : World) (i : nat) : pystr :=
  match fst (reached W) with Ok (_, l) => nth i l [] | Raise _ => [] end.

Definition generation (W : World) (i : nat) (s : Store) : res pystr * Store :=
  _generate_image W (instruction W i) (Some primary) s.

Definition first (W : World) : res pystr * Store :=
  generation W 0 (snd (reached W)).

Definition second (W : World) : res pystr * Store :=
  generation W 1 (snd (first W)).

Definition third (W : World) : res pystr * Store :=
  generation W 2 (snd (second W)).

Definition results (W : World) : list (res pystr) :=
  [fst (first W); fst (second W); fst (third W)].

Definition is_ok {A} (r : res A) : bool :=
  match r with Ok _ => true | Raise _ => false end.

(** The name of a generated file fits the file system. *)
Example generated_name :
  generated_path (fst (first (one_fails all_fine)))
  = Some (u "/app/static/ana_moderno_general_fachada_gris_perla_20260101_120000_v0_abcdef.png").
Proof. vm_compute. reflexivity. Qed.

(** One generation in three fails: its exception is on the line of B, and
    the tool returns. *)
Lemma fan_out_resilient_witness :
  imap image_status_line (results (one_fails all_fine))
  = [u "**Imagen A**: ✅ Generada";
     u "**Imagen B**: ❌ Error - 500 INTERNAL";
     u "**Imagen C**: ✅ Generada"]
  /\ successes (results (one_fails all_fine)) = 2%nat
  /\ is_ok (fst (analyze_and_propose (one_fails all_fine) start)) = true.
Proof.
  pose (W := one_fails all_fine).
  destruct (fan_out_resilient W start (snd (reached W)) (snd (first W))
              (snd (second W)) (snd (third W)) primary []
              (alternatives W) (instruction W 0) (instruction W 1)
              (instruction W 2) (fst (first W)) (fst (second W))
              (fst (third W)))
    as (_ & Hsucc & _ & Hrun & _).
  - vm_compute. reflexivity.
  - vm_compute. reflexivity.
  - vm_compute. reflexivity.
  - vm_compute. reflexivity.
  - vm_compute. reflexivity.
  - vm_compute. reflexivity.
  - vm_compute. reflexivity.
  - split; [vm_compute; reflexivity|]. split; [exact Hsucc|].
    fold W. rewrite Hrun. vm_compute. reflexivity.
Defined.

(** The verified previews are reported after the status lines; a failing
    report that lists its issues gives a warning line, and the tool
    returns. *)
Example listed_issues_are_joined :
  fst (consistency_lines (one_fails two_issues) primary 0
         (map generated_path (results (one_fails two_issues)))
         (snd (third (one_fails two_issues))))
  = Ok [u "**Consistencia A**: ⚠️ Score 40/100 — falta la piscina; tejado distinto";
        u "**Consistencia C**: ⚠️ Score 40/100 — falta la piscina; tejado distinto"]
  /\ is_ok (fst (analyze_and_propose (one_fails two_issues) start)) = true.
Proof. split; vm_compute; reflexivity. Qed.

(** *** Around the fan-out *)

(** A session that names an upload which is not on disk. *)
Definition lost_upload : Store := store uploaded [].

(** The upload and a preview on disk. *)
Definition with_preview : Store := store uploaded two_images.

Definition preview : pystr := u "/app/static/house_v0.png".

(** Every model answers with the same prose. *)
Definition prose : World :=
  world (says (u "No puedo ayudar con esta imagen.")).

Lemma analyze_without_upload_witness :
  analyze_and_propose (one_fails all_fine) lost_upload
  = (Ok NO_UPLOAD, lost_upload).
Proof.
  apply (analyze_without_upload (one_fails all_fine) lost_upload).
  vm_compute. reflexivity.
Defined.

Lemma unverified_previews_witness :
  consistency_line (one_fails all_fine) primary 0
    (Some (u "/app/static/missing.png")) start
  = (Ok [], start).
Proof.
  apply (unverified_previews (one_fails all_fine) primary 0
           (Some (u "/app/static/missing.png")) start).
  vm_compute. reflexivity.
Defined.

Lemma unlisted_issues_raise_witness :
  fst (consistency_line (none_fails issues_null) primary 0 (Some preview)
         with_preview)
  = Raise (Exception (u "TypeError")
             (u "'NoneType' object is not subscriptable")).
Proof.
  rewrite (unlisted_issues_raise (none_fails issues_null) primary 0
             47%N (u "app/static/house_v0.png") with_preview
             (snd (_consistency_check (none_fails issues_null) primary preview
                     with_preview))
             {| passed := VBool false; score := VInt 10; issues := VNone |}).
  - vm_compute. reflexivity.
  - vm_compute. reflexivity.
  - vm_compute. reflexivity.
  - vm_compute. reflexivity.
  - vm_compute. reflexivity.
Defined.

(** A failing report with issues that are [null] makes the tool raise
    after the fan-out, when a generation has failed and when none has: the
    previews are on disk and nothing is returned. *)
Lemma null_issues_abort_the_tool :
  successes (results (none_fails issues_null)) = 3%nat
  /\ fst (analyze_and_propose (none_fails issues_null) start)
     = Raise (Exception (u "TypeError")
                (u "'NoneType' object is not subscriptable"))
  /\ successes (results (one_fails issues_null)) = 2%nat
  /\ fst (analyze_and_propose (one_fails issues_null) start)
     = Raise (Exception (u "TypeError")
                (u "'NoneType' object is not subscriptable"))
  /\ is_ok (fst (analyze_and_propose (none_fails two_issues) start)) = true.
Proof.
  repeat match goal with |- _ /\ _ => split end; vm_compute; reflexivity.
Qed.

(** The edit instructions a tool run has come to. *)
Definition instructions (W : World) : list pystr :=
  match fst (reached W) with Ok (_, l) => l | Raise _ => [] end.

Definition exn_class {A} (r : res A) : pystr :=
  match r with Raise (Exception cls _) => cls | Ok _ => [] end.

(** A name too long for the file system fails every generation at the
    write of the file; the three exceptions are captured and the tool
    returns three error lines and no verification. *)
Lemma long_names_are_captured :
  map exn_class (results long_names)
  = [u "OSError"; u "OSError"; u "OSError"]
  /\ failures (results long_names) = 3%nat
  /\ fst (consistency_lines long_names primary 0
            (map generated_path (results long_names))
            (snd (third long_names)))
     = Ok []
  /\ is_ok (fst (analyze_and_propose long_names start)) = true.
Proof.
  repeat match goal with |- _ /\ _ => split end; vm_compute; reflexivity.
Qed.

(** When the answer of the compiler holds no delimited prompt and no
    section, there is one edit instruction and one status line; and a
    generation that returns the text of a missing image is reported as
    generated. *)
Lemma one_instruction_one_line :
  length (instructions prose) = 1%nat
  /\ fst (first prose) = Ok NO_IMAGE
  /\ fst (analyze_and_propose prose start)
     = Ok (proposal_text (alternatives prose)
             [u "**Imagen A**: ✅ Generada"] []).
Proof.
  repeat match goal with |- _ /\ _ => split end; vm_compute; reflexivity.
Qed.

End FanOutRuns.

(** ** Association lists *)

Section Assoc.

Context {V : Type}.
Implicit Types (d : list (pystr * V)) (k : pystr) (v : V).

Lemma eqb_neq (a b : pystr) : eqb a b = false <-> a <> b.
Proof.
  split.
  - intros H E. apply eqb_eq in E. congruence.
  - intros H. destruct (eqb a b) eqn:E; [|reflexivity].
    apply eqb_eq in E. contradiction.
Qed.

Lemma eqb_sym (a b : pystr) : eqb a b = eqb b a.
Proof.
  destruct (eqb a b) eqn:E.
  - apply eqb_eq in E as ->. symmetry. apply eqb_refl.
  - symmetry. apply eqb_neq. apply eqb_neq in E. congruence.
Qed.

Lemma assoc_get_set_same k v d : assoc_get k (assoc_set k v d) = Some v.
Proof.
  induction d as [|[k' v'] d IH]; simpl.
  - rewrite eqb_refl. reflexivity.
  - destruct (eqb k k') eqn:E; simpl; rewrite E; [reflexivity|exact IH].
Qed.

Lemma assoc_get_set_other k k' v d :
  k <> k' -> assoc_get k' (assoc_set k v d) = assoc_get k' d.
Proof.
  intros Hne. induction d as [|[k2 v2] d IH]; simpl.
  - apply not_eq_sym, eqb_neq in Hne. rewrite Hne. reflexivity.
  - destruct (eqb k k2) eqn:E; simpl.
    + apply eqb_eq in E as <-.
      apply not_eq_sym, eqb_neq in Hne. rewrite Hne. reflexivity.
    + rewrite IH. reflexivity.
Qed.

(** Setting a key to the value it has changes nothing. *)
Lemma assoc_set_same k v d : assoc_get k d = Some v -> assoc_set k v d = d.
Proof.
  induction d as [|[k' v'] d IH]; simpl; [discriminate|].
  destruct (eqb k k') eqn:E.
  - intros [= ->]. reflexivity.
  - intros H. rewrite (IH H). reflexivity.
Qed.

(** Of two writes to one key the second one stays. *)
Lemma assoc_set_set k v v' d : assoc_set k v (assoc_set k v' d) = assoc_set k v d.
Proof.
  induction d as [|[k' v2] d IH]; simpl.
  - rewrite eqb_refl. reflexivity.
  - destruct (eqb k k') eqn:E; simpl; rewrite E; [reflexivity|].
    rewrite IH. reflexivity.
Qed.

(** Writes to two keys commute when the first key is already there. *)
Lemma assoc_set_comm k k2 v v2 d :
  k <> k2 -> assoc_get k d <> None ->
  assoc_set k2 v2 (assoc_set k v d) = assoc_set k v (assoc_set k2 v2 d).
Proof.
  intros Hne. induction d as [|[k' v'] d IH]; simpl; [congruence|].
  intros Hin.
  destruct (eqb k k') eqn:E; destruct (eqb k2 k') eqn:E2; simpl;
    rewrite ?E, ?E2; try reflexivity.
  - apply eqb_eq in E. apply eqb_eq in E2. congruence.
  - rewrite (IH Hin). reflexivity.
Qed.

Lemma assoc_set_keeps k k2 v2 d :
  assoc_get k d <> None -> assoc_get k (assoc_set k2 v2 d) <> None.
Proof.
  intros H. destruct (eqb k2 k) eqn:E.
  - apply eqb_eq in E as ->. rewrite assoc_get_set_same. discriminate.
  - apply eqb_neq in E. rewrite assoc_get_set_other by exact E. exact H.
Qed.

(** The names of a directory, or the keys of a dictionary. *)
Lemma assoc_set_keys k v d :
  map fst (assoc_set k v d)
  = match assoc_get k d with
    | Some _ => map fst d
    | None => map fst d ++ [k]
    end.
Proof.
  induction d as [|[k' v'] d IH]; simpl; [reflexivity|].
  destruct (eqb k k') eqn:E; simpl; [reflexivity|].
  rewrite IH. destruct (assoc_get k d); reflexivity.
Qed.

End Assoc.

(** A write of [k] before the writes of [l] is lost when [l] writes [k]. *)
Lemma update_overwrites (k : pystr) (v : pyval) (l d : pydict) :
  assoc_get k d <> None -> assoc_get k l <> None ->
  dict_update (assoc_set k v d) l = dict_update d l.
Proof.
  unfold dict_update. revert d.
  induction l as [|[k2 v2] l IH]; intros d Hd Hl; simpl in *; [congruence|].
  unfold dict_set. destruct (eqb k k2) eqn:E.
  - apply eqb_eq in E as <-. rewrite assoc_set_set. reflexivity.
  - apply eqb_neq in E.
    rewrite (assoc_set_comm k k2 v v2 d E Hd).
    apply IH; [apply assoc_set_keeps, Hd|exact Hl].
Qed.

(** The writes of [l] leave alone a key that [l] does not write. *)
Lemma update_get_other (k : pystr) (l d : pydict) :
  assoc_get k l = None -> assoc_get k (dict_update d l) = assoc_get k d.
Proof.
  unfold dict_update. revert d.
  induction l as [|[k2 v2] l IH]; intros d Hl; simpl in *; [reflexivity|].
  destruct (eqb k k2) eqn:E; [discriminate|].
  rewrite (IH _ Hl). unfold dict_set.
  apply assoc_get_set_other. apply eqb_neq in E. congruence.
Qed.

(** Updates remove no key. *)
Lemma update_keeps (k : pystr) (l d : pydict) :
  assoc_get k d <> None -> assoc_get k (dict_update d l) <> None.
Proof.
  unfold dict_update. revert d.
  induction l as [|[k2 v2] l IH]; intros d Hd; simpl; [exact Hd|].
  apply IH. unfold dict_set. apply assoc_set_keeps, Hd.
Qed.

(** [d.update(l)] twice is [d.update(l)] once. *)
Lemma dict_update_idem (l d : pydict) :
  dict_update (dict_update d l) l = dict_update d l.
Proof.
  revert d. induction l as [|[k v] l IH]; intros d; [reflexivity|].
  change (dict_update d ((k, v) :: l)) with (dict_update (dict_set k v d) l).
  set (d1 := dict_set k v d).
  change (dict_update (dict_update d1 l) ((k, v) :: l))
    with (dict_update (dict_set k v (dict_update d1 l)) l).
  assert (Hk : assoc_get k d1 = Some v) by apply assoc_get_set_same.
  destruct (assoc_get k l) as [w|] eqn:Hl.
  - unfold dict_set at 1. rewrite update_overwrites.
    + apply IH.
    + apply update_keeps. rewrite Hk. discriminate.
    + rewrite Hl. discriminate.
  - unfold dict_set at 1. rewrite assoc_set_same.
    + apply IH.
    + rewrite update_get_other by exact Hl. exact Hk.
Qed.

Lemma dict_update_app (d l1 l2 : pydict) :
  dict_update (dict_update d l1) l2 = dict_update d (l1 ++ l2).
Proof. unfold dict_update. rewrite fold_left_app. reflexivity. Qed.

(** ** The memory store *)

Section MemoryFacts.

Context {lib : PyLib} {D : Type} (W : MemWorld D).

Implicit Types (m : MemStore D) (d : Dir).

Lemma local_path_run project_id section_id m :
  mkdir W = Ok tt ->
  _local_path W project_id section_id m
  = (Ok (local_name project_id section_id), m).
Proof.
  intros Hmk. unfold _local_path. rewrite run_bind. unfold lift.
  rewrite Hmk. reflexivity.
Qed.

Lemma local_path_raises project_id section_id m e :
  mkdir W = Raise e ->
  _local_path W project_id section_id m = (Raise e, m).
Proof.
  intros Hmk. unfold _local_path. rewrite run_bind. unfold lift.
  rewrite Hmk. reflexivity.
Qed.

Lemma merge_local_run project_id section_id data m :
  mkdir W = Ok tt ->
  (path ← _local_path W project_id section_id;
   existing ← _read_local path;
   existing ← py_update existing data;
   path ← _local_path W project_id section_id;
   _write_local W path existing) m
  = merge_local W (local_name project_id section_id) data m.
Proof.
  intros Hmk. rewrite run_bind, (local_path_run _ _ _ Hmk).
  rewrite run_bind. unfold _read_local at 1. rewrite run_bind.
  unfold get_store at 1. cbv [mret M_ret]. rewrite run_ret.
  rewrite run_bind. unfold merge_local, py_update.
  destruct (read_file (local m) (local_name project_id section_id));
    try reflexivity.
  cbv [mret M_ret]. rewrite run_ret, run_bind, (local_path_run _ _ _ Hmk).
  reflexivity.
Qed.

Lemma save_project_run project_id data m :
  mkdir W = Ok tt ->
  save_project_memory W project_id data m
  = merge_local W (local_name project_id None) data
      (with_remote (fun db => fs_set_project W db project_id data) m).
Proof.
  intros Hmk. unfold save_project_memory. rewrite run_bind.
  unfold modify at 1. apply (merge_local_run _ None _ _ Hmk).
Qed.

Lemma save_section_run project_id section_id data m :
  mkdir W = Ok tt ->
  save_section_memory W project_id section_id data m
  = match merge_local W (local_name project_id (Some section_id)) data
            (with_remote
               (fun db => fs_set_section W db project_id section_id data) m)
    with
    | (Ok _, m0) =>
      match rebuild_overview W project_id m0 with
      | Ok ov =>
        save_project_memory W project_id
          [(u "sections_overview", VDict ov)] m0
      | Raise e => (Raise e, m0)
      end
    | (Raise e, m0) => (Raise e, m0)
    end.
Proof.
  intros Hmk. unfold save_section_memory. rewrite run_bind.
  unfold modify at 1.
  set (m' := with_remote _ m).
  pose proof (merge_local_run project_id (Some section_id) data m' Hmk) as Hm.
  (* the merge is the first five steps of what follows *)
  unfold merge_local in *.
  rewrite run_bind, (local_path_run _ _ _ Hmk).
  rewrite run_bind. unfold _read_local at 1. rewrite run_bind.
  unfold get_store at 1. cbv [mret M_ret]. rewrite run_ret.
  rewrite run_bind. unfold py_update.
  destruct (read_file (local m') (local_name project_id (Some section_id)));
    try reflexivity.
  rewrite run_ret, run_bind, (local_path_run _ _ _ Hmk), run_bind.
  unfold _write_local at 1, modify at 1.
  unfold _update_project_sections_overview. rewrite run_bind.
  unfold get_store at 1. rewrite run_bind. unfold lift at 1.
  destruct (rebuild_overview W project_id _); reflexivity.
Qed.

Lemma read_file_set_same n v d : read_file (dir_set n (Decodes v) d) n = v.
Proof. unfold read_file, dir_get, dir_set. rewrite assoc_get_set_same. reflexivity. Qed.

Lemma read_file_set_corrupt n d : read_file (dir_set n Corrupt d) n = VDict [].
Proof. unfold read_file, dir_get, dir_set. rewrite assoc_get_set_same. reflexivity. Qed.

Lemma read_file_set_other n n' f d :
  n <> n' -> read_file (dir_set n f d) n' = read_file d n'.
Proof.
  intros H. unfold read_file, dir_get, dir_set.
  rewrite assoc_get_set_other by exact H. reflexivity.
Qed.

(** A file read back after a write holds the new value if the write was
    stored, the old one if it was refused, and nothing if it was cut
    short. *)
Lemma read_after_write n x d :
  read_file (write_file W n x d) n
  = match write_text W n x with
    | Stored => VDict x
    | Refused => read_file d n
    | Emptied => VDict []
    end.
Proof.
  unfold write_file. destruct (write_text W n x); [|reflexivity|].
  - apply read_file_set_same.
  - apply read_file_set_corrupt.
Qed.

Lemma read_after_other_write n n' x d :
  n <> n' -> read_file (write_file W n x d) n' = read_file d n'.
Proof.
  intros H. unfold write_file.
  destruct (write_text W n x); [|reflexivity|]; apply read_file_set_other, H.
Qed.

Lemma dir_get_other_write n n' x d :
  n <> n' -> dir_get n' (write_file W n x d) = dir_get n' d.
Proof.
  intros H. unfold write_file, dir_get, dir_set.
  destruct (write_text W n x); [|reflexivity|];
    apply assoc_get_set_other, H.
Qed.

(** A write that was cut short shows in the directory. *)
Lemma emptied_shows n x d :
  write_text W n x = Emptied -> dir_get n (write_file W n x d) = Some Corrupt.
Proof.
  intros H. unfold write_file, dir_get, dir_set. rewrite H.
  apply assoc_get_set_same.
Qed.

(** Writing to a file the text it holds, with the outcome it had, changes
    nothing. *)
Lemma write_file_again n x d :
  write_file W n x (write_file W n x d) = write_file W n x d.
Proof.
  unfold write_file. destruct (write_text W n x); [|reflexivity|];
    unfold dir_set; apply assoc_set_set.
Qed.

(** A name of a section file is not the name of the project file. *)
Lemma section_name_differs p c s :
  local_name p (Some (c :: s)) <> local_name p None.
Proof.
  unfold local_name. intros H. apply app_inv_head in H.
  vm_compute in H. discriminate H.
Qed.

Lemma fold_left_ext_in {A B} (f g : A -> B -> A) (l : list B) (a : A) :
  (forall a x, In x l -> f a x = g a x) -> fold_left f l a = fold_left g l a.
Proof.
  revert a. induction l as [|x l IH]; intros a H; [reflexivity|].
  simpl. rewrite (H a x) by (left; reflexivity).
  apply IH. intros a' y Hy. apply H. right. exact Hy.
Qed.

Lemma glob_sections_match p d n :
  In n (glob_sections W p d) -> fnmatch (p ++ u "__*.json") n = true.
Proof.
  unfold glob_sections. intros Hin.
  apply list_elem_of_In, list_elem_of_filter in Hin as [Hn _]. exact Hn.
Qed.

(** The overview of the files depends on the names listed and on what the
    matched files hold. *)
Lemma overview_of_files_ext p d d' :
  glob_sections W p d = glob_sections W p d' ->
  (forall n, fnmatch (p ++ u "__*.json") n = true ->
             read_file d n = read_file d' n) ->
  overview_of_files W p d = overview_of_files W p d'.
Proof.
  intros Hnames Hread. unfold overview_of_files. rewrite <- Hnames.
  apply fold_left_ext_in. intros acc n Hin.
  apply glob_sections_match in Hin.
  unfold add_section_file. rewrite (Hread n Hin). reflexivity.
Qed.

(** *** What the overview of the files holds *)

(** The key of a file in the overview. *)
Definition section_key (name : pystr) : pystr := section_of_stem (stem name).

(** The last of the names whose key is [k]. *)
Fixpoint last_file (k : pystr) (names : list pystr) : option pystr :=
  match names with
  | [] => None
  | n :: rest =>
    match last_file k rest with
    | Some n' => Some n'
    | None => if eqb k (section_key n) then Some n else None
    end
  end.

Lemma last_file_in k names n : last_file k names = Some n -> In n names.
Proof.
  induction names as [|n' rest IH]; simpl; [discriminate|].
  destruct (last_file k rest) as [n2|].
  - intros [= ->]. right. apply IH. reflexivity.
  - destruct (eqb k (section_key n')); [|discriminate].
    intros [= ->]. left. reflexivity.
Qed.

Lemma last_file_key k names n : last_file k names = Some n -> section_key n = k.
Proof.
  induction names as [|n' rest IH]; simpl; [discriminate|].
  destruct (last_file k rest) as [n2|].
  - intros [= ->]. apply IH. reflexivity.
  - destruct (eqb k (section_key n')) eqn:E; [|discriminate].
    intros [= <-]. symmetry. apply eqb_eq, E.
Qed.

(** What a key holds after the loop over the files: the entry of the last
    file with this key or, when there is none, what it held before. *)
Definition key_after (d : Dir) (k : pystr) (names : list pystr) (ov : pydict)
  (before : option pyval) : Prop :=
  match last_file k names with
  | Some n =>
    exists sec_data,
      read_file d n = VDict sec_data
      /\ dict_get k ov = Some (overview_entry sec_data)
  | None => dict_get k ov = before
  end.

Lemma overview_fold d names : forall acc ov,
  fold_left (add_section_file d) names (Ok acc) = Ok ov ->
  forall k, key_after d k names ov (dict_get k acc).
Proof.
  induction names as [|n rest IH]; intros acc ov Hrun k.
  - simpl in Hrun. injection Hrun as <-. reflexivity.
  - cbn [fold_left] in Hrun. unfold add_section_file at 2 in Hrun.
    destruct (read_file d n) as [| | | | | |sec] eqn:Hn;
      try (exfalso; clear - Hrun; induction rest as [|x r IHr];
           simpl in Hrun; [discriminate Hrun|exact (IHr Hrun)]).
    specialize (IH _ _ Hrun k). unfold key_after in *. simpl.
    destruct (last_file k rest) as [n2|]; [exact IH|].
    change (section_of_stem (stem n)) with (section_key n) in IH.
    destruct (eqb k (section_key n)) eqn:E.
    + apply eqb_eq in E. subst k. exists sec. split; [exact Hn|].
      rewrite IH. unfold dict_get, dict_set. apply assoc_get_set_same.
    + rewrite IH. unfold dict_get, dict_set. apply eqb_neq in E.
      apply assoc_get_set_other. congruence.
Qed.

(** The loop returns when every file it visits decodes to an object. *)
Lemma overview_fold_returns d names : forall acc,
  (forall n, In n names -> exists sec_data, read_file d n = VDict sec_data) ->
  exists ov, fold_left (add_section_file d) names (Ok acc) = Ok ov.
Proof.
  induction names as [|n rest IH]; intros acc Hall; [exists acc; reflexivity|].
  cbn [fold_left]. destruct (Hall n (or_introl eq_refl)) as [sec Hn].
  unfold add_section_file at 2. rewrite Hn.
  apply IH. intros n' Hin. apply Hall. right. exact Hin.
Qed.

(** The loop raises at the first file that decodes to something else, and
    a loop that has raised stays so. *)
Lemma overview_fold_raised d names e :
  fold_left (add_section_file d) names (Raise e) = Raise e.
Proof. induction names as [|n rest IH]; [reflexivity|exact IH]. Qed.

Lemma overview_fold_raises d names : forall acc n,
  In n names ->
  (forall sec_data, read_file d n <> VDict sec_data) ->
  exists e, fold_left (add_section_file d) names (Ok acc) = Raise e.
Proof.
  induction names as [|n' rest IH]; intros acc n Hin Hn; [destruct Hin|].
  cbn [fold_left]. unfold add_section_file at 2.
  destruct (read_file d n') as [| | | | | |sec] eqn:Hn';
    try (eexists; apply overview_fold_raised).
  destruct Hin as [->|Hin]; [destruct (Hn sec Hn')|].
  apply (IH _ n Hin Hn).
Qed.

Lemma save_section_needs_mkdir project_id section_id data m m1 :
  save_section_memory W project_id section_id data m = (Ok tt, m1) ->
  mkdir W = Ok tt.
Proof.
  intros Hsave. destruct (mkdir W) as [[]|e] eqn:Hmk; [reflexivity|].
  unfold save_section_memory in Hsave. rewrite run_bind in Hsave.
  unfold modify at 1 in Hsave.
  rewrite run_bind, (local_path_raises _ _ _ _ Hmk) in Hsave. discriminate.
Qed.

Lemma rebuild_ext project_id (ma mb : MemStore D) :
  remote_overview W project_id ma = remote_overview W project_id mb ->
  overview_of_files W project_id (local ma)
  = overview_of_files W project_id (local mb) ->
  rebuild_overview W project_id ma = rebuild_overview W project_id mb.
Proof. intros Hr Hl. unfold rebuild_overview. rewrite Hr, Hl. reflexivity. Qed.

End MemoryFacts.

(** *** What a saved section does to the overview *)

Definition is_object (v : pyval) : bool :=
  match v with VDict _ => true | _ => false end.

(** Whether a file is there and cannot be decoded. *)
Definition is_corrupt (f : option File) : bool :=
  match f with Some Corrupt => true | _ => false end.

Section MemoryTheorems.

Context {lib : PyLib} {D : Type} (W : MemWorld D).

Implicit Types (m : MemStore D) (d : Dir) (p s : pystr) (data : pydict).

Lemma last_file_some k names n :
  In n names -> section_key n = k -> exists n', last_file k names = Some n'.
Proof.
  induction names as [|n0 rest IH]; intros Hin Hk; [destruct Hin|].
  simpl. destruct (last_file k rest) as [n2|] eqn:E; [eauto|].
  destruct Hin as [->|Hin].
  - subst k. rewrite eqb_refl. eauto.
  - destruct (IH Hin Hk) as [n' Hn']. discriminate Hn'.
Qed.

Lemma is_object_some v : is_object v = true -> exists sec, v = VDict sec.
Proof. destruct v; try discriminate. eauto. Qed.

Lemma is_object_none v : is_object v = false -> forall sec, v <> VDict sec.
Proof. intros H sec ->. discriminate H. Qed.

Lemma overview_of_docs_step docs : forall acc,
  acc <> [] ->
  fold_left (fun ov doc => dict_set (fst doc) (overview_entry (snd doc)) ov)
    docs acc <> [].
Proof.
  induction docs as [|doc rest IH]; intros acc Hacc; [exact Hacc|].
  simpl. apply IH. unfold dict_set.
  destruct acc as [|[k v] acc]; [congruence|].
  simpl. destruct (eqb (fst doc) k); discriminate.
Qed.

Lemma overview_of_docs_nonempty docs : docs <> [] -> overview_of_docs docs <> [].
Proof.
  destruct docs as [|doc rest]; [congruence|]. intros _.
  unfold overview_of_docs. simpl. apply overview_of_docs_step. discriminate.
Qed.

(** The overview of the local files holds one entry for every key that a
    listed file of the project has, and no other: the entry of the file
    that is listed last among those with this key. *)
Theorem overview_lists_sections p d ov :
  overview_of_files W p d = Ok ov ->
  (forall k, key_after d k (glob_sections W p d) ov None)
  /\ (forall n, In n (glob_sections W p d) ->
        exists sec, dict_get (section_key n) ov = Some (overview_entry sec))
  /\ (forall k v, dict_get k ov = Some v ->
        exists n sec,
          In n (glob_sections W p d) /\ section_key n = k
          /\ read_file d n = VDict sec /\ v = overview_entry sec).
Proof.
  intros Hov.
  assert (Hkeys : forall k, key_after d k (glob_sections W p d) ov None).
  { intros k. exact (overview_fold d _ [] ov Hov k). }
  split; [exact Hkeys|]. split.
  - intros n Hin. specialize (Hkeys (section_key n)). unfold key_after in Hkeys.
    destruct (last_file_some _ _ _ Hin eq_refl) as [n' Hn'].
    rewrite Hn' in Hkeys. destruct Hkeys as (sec & _ & Hget). eauto.
  - intros k v Hget. specialize (Hkeys k). unfold key_after in Hkeys.
    destruct (last_file k (glob_sections W p d)) as [n|] eqn:E.
    + destruct Hkeys as (sec & Hread & Hk). exists n, sec.
      split; [eapply last_file_in, E|]. split; [eapply last_file_key, E|].
      split; [exact Hread|]. congruence.
    + congruence.
Qed.

(** The steps of a call of [save_section_memory] that returns. *)
Lemma save_section_steps p s data m m1 :
  save_section_memory W p s data m = (Ok tt, m1) ->
  exists e ov pe,
    let m0 :=
      with_local (write_file W (local_name p (Some s)) (dict_update e data))
        (with_remote (fun db => fs_set_section W db p s data) m) in
    read_file (local m) (local_name p (Some s)) = VDict e
    /\ rebuild_overview W p m0 = Ok ov
    /\ read_file (local m0) (local_name p None) = VDict pe
    /\ m1 = with_local
               (write_file W (local_name p None)
                  (dict_update pe [(u "sections_overview", VDict ov)]))
               (with_remote
                  (fun db => fs_set_project W db p
                               [(u "sections_overview", VDict ov)]) m0).
Proof.
  intros Hsave.
  pose proof (save_section_needs_mkdir _ _ _ _ _ _ Hsave) as Hmk.
  rewrite (save_section_run _ _ _ _ _ Hmk) in Hsave.
  unfold merge_local in Hsave at 1. cbn [local with_remote] in Hsave.
  destruct (read_file (local m) (local_name p (Some s)))
    as [| | | | | |e] eqn:He; try discriminate Hsave.
  set (m0 := with_local _ _) in Hsave.
  destruct (rebuild_overview W p m0) as [ov|err] eqn:Hov; [|discriminate Hsave].
  rewrite (save_project_run _ _ _ _ Hmk) in Hsave.
  unfold merge_local in Hsave. cbn [local with_remote] in Hsave.
  destruct (read_file (local m0) (local_name p None))
    as [| | | | | |pe] eqn:Hpe; try discriminate Hsave.
  injection Hsave as <-.
  exists e, ov, pe. cbv zeta. fold m0.
  split; [reflexivity|]. split; [exact Hov|]. split; [exact Hpe|].
  reflexivity.
Qed.

(** A call of [save_section_memory] that returns has merged the data into
    the section file, rebuilt the overview from the store as it is then,
    and merged the overview into the project file; when that last write
    is stored, the project holds the rebuilt overview. *)
Theorem save_section_stores_rebuilt p s data m m1 :
  save_section_memory W p s data m = (Ok tt, m1) ->
  exists e ov pe,
    let m0 :=
      with_local (write_file W (local_name p (Some s)) (dict_update e data))
        (with_remote (fun db => fs_set_section W db p s data) m) in
    let project := dict_update pe [(u "sections_overview", VDict ov)] in
    read_file (local m) (local_name p (Some s)) = VDict e
    /\ rebuild_overview W p m0 = Ok ov
    /\ read_file (local m0) (local_name p None) = VDict pe
    /\ m1 = with_local (write_file W (local_name p None) project)
              (with_remote
                 (fun db => fs_set_project W db p
                              [(u "sections_overview", VDict ov)]) m0)
    /\ (write_text W (local_name p None) project = Stored ->
        stored_overview p m1 = Some (VDict ov)).
Proof.
  intros Hsave.
  destruct (save_section_steps _ _ _ _ _ Hsave)
    as (e & ov & pe & He & Hov & Hpe & Hm1).
  exists e, ov, pe. cbv zeta.
  split; [exact He|]. split; [exact Hov|]. split; [exact Hpe|].
  split; [exact Hm1|].
  intros Hw. rewrite Hm1. unfold stored_overview.
  cbn [local with_local with_remote].
  change (dict_update pe [(u "sections_overview", VDict ov)])
    with (dict_set (u "sections_overview") (VDict ov) pe) in Hw |- *.
  rewrite read_after_write, Hw.
  unfold dict_get, dict_set. apply assoc_get_set_same.
Qed.

(** When the database lists a section of the project, the overview is
    built from the documents it lists, and the local files are not
    read. *)
Theorem database_sections_win p m db :
  remote m = Some db ->
  fs_sections W db p <> [] ->
  rebuild_overview W p m = Ok (overview_of_docs (fs_sections W db p)).
Proof.
  intros Hdb Hdocs. unfold rebuild_overview, remote_overview. rewrite Hdb.
  cbv zeta. pose proof (overview_of_docs_nonempty _ Hdocs) as Hne.
  destruct (overview_of_docs (fs_sections W db p)); [congruence|reflexivity].
Qed.

(** Without a database, or when it lists no section, the overview is the
    overview of the local files. *)
Lemma local_sections_otherwise p m :
  match remote m with
  | Some db => fs_sections W db p = []
  | None => True
  end ->
  rebuild_overview W p m = overview_of_files W p (local m).
Proof.
  intros H. unfold rebuild_overview, remote_overview.
  destruct (remote m) as [db|]; [rewrite H|]; reflexivity.
Qed.

(** When the memory directory cannot be made, [save_section_memory]
    raises what [mkdir] raised: the database has been written, no local
    file has. *)
Theorem save_section_without_directory p s data m e :
  mkdir W = Raise e ->
  save_section_memory W p s data m
  = (Raise e, with_remote (fun db => fs_set_section W db p s data) m).
Proof.
  intros Hmk. unfold save_section_memory. rewrite run_bind.
  unfold modify at 1. rewrite run_bind, (local_path_raises _ _ _ _ _ Hmk).
  reflexivity.
Qed.

(** A file of the project that does not decode to an object makes the
    call raise once the section is written: the section file holds the
    new data and the project file, with its overview, is as it was. *)
Theorem bad_sibling_leaves_overview_stale p s data m e n :
  let m0 :=
    with_local (write_file W (local_name p (Some s)) (dict_update e data))
      (with_remote (fun db => fs_set_section W db p s data) m) in
  s <> [] ->
  mkdir W = Ok tt ->
  remote m = None ->
  read_file (local m) (local_name p (Some s)) = VDict e ->
  In n (glob_sections W p (local m0)) ->
  is_object (read_file (local m0) n) = false ->
  exists err,
    save_section_memory W p s data m = (Raise err, m0)
    /\ stored_overview p m0 = stored_overview p m
    /\ (write_text W (local_name p (Some s)) (dict_update e data) = Stored ->
        read_file (local m0) (local_name p (Some s))
        = VDict (dict_update e data)).
Proof.
  intros m0 Hs Hmk Hdb He Hin Hbad.
  destruct (overview_fold_raises (local m0) (glob_sections W p (local m0))
              [] n Hin (is_object_none _ Hbad)) as [err Herr].
  change (overview_of_files W p (local m0) = Raise err) in Herr.
  exists err. split; [|split].
  - rewrite (save_section_run _ _ _ _ _ Hmk). unfold merge_local.
    cbn [local with_remote]. rewrite He. fold m0.
    rewrite local_sections_otherwise.
    + rewrite Herr. reflexivity.
    + unfold m0. cbn [remote with_local with_remote]. rewrite Hdb. exact I.
  - unfold stored_overview, m0. cbn [local with_local with_remote].
    rewrite read_after_other_write; [reflexivity|].
    destruct s as [|c s']; [congruence|]. apply section_name_differs.
  - intros Hw. unfold m0. cbn [local with_local with_remote].
    rewrite read_after_write, Hw. reflexivity.
Qed.

(** Without a database, a section that was saved and stored is what
    [get_section_memory] returns: what the file held before, updated with
    the data. *)
Theorem saved_section_is_read_back p s data m m1 e :
  s <> [] ->
  remote m = None ->
  read_file (local m) (local_name p (Some s)) = VDict e ->
  write_text W (local_name p (Some s)) (dict_update e data) = Stored ->
  save_section_memory W p s data m = (Ok tt, m1) ->
  get_section_memory W p s m1 = (Ok (VDict (dict_update e data)), m1).
Proof.
  intros Hs Hdb He Hw Hsave.
  pose proof (save_section_needs_mkdir _ _ _ _ _ _ Hsave) as Hmk.
  destruct (save_section_steps _ _ _ _ _ Hsave)
    as (e' & ov & pe & He' & _ & _ & Hm1).
  rewrite He in He'. injection He' as <-.
  unfold get_section_memory. rewrite run_bind. unfold get_store at 1.
  assert (Hr : remote m1 = None).
  { rewrite Hm1. cbn [remote with_local with_remote]. rewrite Hdb. reflexivity. }
  rewrite Hr. cbn [mbind option_bind].
  rewrite run_bind, (local_path_run _ _ _ _ Hmk).
  unfold _read_local. rewrite run_bind. unfold get_store at 1.
  cbv [mret M_ret]. rewrite run_ret. f_equal. f_equal.
  rewrite Hm1. cbn [local with_local with_remote].
  rewrite read_after_other_write.
  - rewrite read_after_write, Hw. reflexivity.
  - destruct s as [|c s']; [congruence|].
    apply not_eq_sym, section_name_differs.
Qed.

(** *** Saving the same section twice *)

(** The store of a call of [save_section_memory] when it rebuilds the
    overview: the database and the section file have been written. *)
Definition section_written p s data m (e : pydict) : MemStore D :=
  with_local (write_file W (local_name p (Some s)) (dict_update e data))
    (with_remote (fun db => fs_set_section W db p s data) m).

(** The overview a call of [save_section_memory] rebuilds. *)
Definition rebuilds p s data m (ov : pydict) : Prop :=
  exists e,
    read_file (local m) (local_name p (Some s)) = VDict e
    /\ rebuild_overview W p (section_written p s data m e) = Ok ov.

Lemma remote_overview_ext p (ma mb : MemStore D) :
  remote ma = remote mb -> remote_overview W p ma = remote_overview W p mb.
Proof. intros H. unfold remote_overview. rewrite H. reflexivity. Qed.

(** A merge of the same data into a file that the first merge did not cut
    short reads what is to be written and leaves the directory as it
    is. *)
Lemma merge_again n (x l : pydict) d0 d :
  read_file d0 n = VDict x ->
  dir_get n d = dir_get n (write_file W n (dict_update x l) d0) ->
  is_corrupt (dir_get n d) = false ->
  exists x',
    read_file d n = VDict x'
    /\ dict_update x' l = dict_update x l
    /\ write_file W n (dict_update x' l) d = d.
Proof.
  intros Hx Hget Hok. unfold write_file in Hget.
  destruct (write_text W n (dict_update x l)) eqn:Hw; cbv beta iota in Hget.
  - assert (Hd : dir_get n d = Some (Decodes (VDict (dict_update x l)))).
    { rewrite Hget. unfold dir_get, dir_set. apply assoc_get_set_same. }
    exists (dict_update x l). split; [|split].
    + unfold read_file. rewrite Hd. reflexivity.
    + apply dict_update_idem.
    + rewrite dict_update_idem. unfold write_file. rewrite Hw.
      unfold dir_set. apply assoc_set_same. exact Hd.
  - exists x. split; [|split].
    + unfold read_file in *. rewrite Hget. exact Hx.
    + reflexivity.
    + unfold write_file. rewrite Hw. reflexivity.
  - assert (Hd : dir_get n d = Some Corrupt).
    { rewrite Hget. unfold dir_get, dir_set. apply assoc_get_set_same. }
    rewrite Hd in Hok. discriminate Hok.
Qed.

(** A second call with the same project, section and data, after a first
    call that returned, rebuilds the same overview and leaves the local
    directory, and so the overview stored there, as the first call left
    them.  This holds when neither file was cut short by the first call,
    the project file is not one of the files its own pattern matches, the
    directory lists the same section files once the project file is
    written, and the database lists the same sections once the section is
    written again. *)
Theorem second_save_same_overview p s data m m1 e :
  s <> [] ->
  fnmatch (p ++ u "__*.json") (local_name p None) = false ->
  read_file (local m) (local_name p (Some s)) = VDict e ->
  save_section_memory W p s data m = (Ok tt, m1) ->
  is_corrupt (dir_get (local_name p (Some s)) (local m1)) = false ->
  is_corrupt (dir_get (local_name p None) (local m1)) = false ->
  glob_sections W p (local m1)
  = glob_sections W p (local (section_written p s data m e)) ->
  remote_overview W p
    (with_remote (fun db => fs_set_section W db p s data) m1)
  = remote_overview W p (section_written p s data m e) ->
  exists ov m2,
    rebuilds p s data m ov
    /\ rebuilds p s data m1 ov
    /\ save_section_memory W p s data m1 = (Ok tt, m2)
    /\ local m2 = local m1
    /\ stored_overview p m2 = stored_overview p m1.
Proof.
  intros Hs Hglob He Hsave Hsn Hpn Hlist Hremote.
  pose proof (save_section_needs_mkdir _ _ _ _ _ _ Hsave) as Hmk.
  destruct (save_section_steps _ _ _ _ _ Hsave)
    as (e' & ov & pe & He' & Hov & Hpe & Hm1).
  rewrite He in He'. injection He' as <-.
  fold (section_written p s data m e) in Hov, Hpe, Hm1.
  set (m0 := section_written p s data m e) in *.
  set (sn := local_name p (Some s)) in *.
  set (pn := local_name p None) in *.
  set (l := [(u "sections_overview", VDict ov)]) in *.
  assert (Hne : pn <> sn).
  { destruct s as [|c s']; [congruence|].
    apply not_eq_sym, section_name_differs. }
  assert (Hlocal1 : local m1 = write_file W pn (dict_update pe l) (local m0)).
  { rewrite Hm1. reflexivity. }
  (* the section file, read and written again *)
  destruct (merge_again sn e data (local m) (local m1) He) as (e1 & He1 & Hx & Hw1).
  { rewrite Hlocal1, dir_get_other_write by exact Hne. reflexivity. }
  { exact Hsn. }
  (* the project file, read and written again *)
  destruct (merge_again pn pe l (local m0) (local m1) Hpe) as (pe1 & Hpe1 & Hy & Hw2).
  { rewrite Hlocal1. reflexivity. }
  { exact Hpn. }
  set (m0' := section_written p s data m1 e1).
  assert (Hlocal0' : local m0' = local m1).
  { unfold m0', section_written. cbn [local with_local with_remote].
    fold sn. exact Hw1. }
  assert (Hov' : rebuild_overview W p m0' = Ok ov).
  { rewrite <- Hov. apply rebuild_ext.
    - rewrite <- Hremote. apply remote_overview_ext. reflexivity.
    - rewrite Hlocal0'. apply overview_of_files_ext; [exact Hlist|].
      intros n Hn. rewrite Hlocal1. apply read_after_other_write.
      intros ->. congruence. }
  set (m2 := with_local (write_file W pn (dict_update pe1 l))
               (with_remote (fun db => fs_set_project W db p l) m0')).
  assert (Hlocal2 : local m2 = local m1).
  { unfold m2. cbn [local with_local with_remote]. rewrite Hlocal0'.
    exact Hw2. }
  exists ov, m2.
  split; [exists e; split; [exact He|exact Hov]|].
  split; [exists e1; split; [exact He1|exact Hov']|].
  split.
  { rewrite (save_section_run _ _ _ _ _ Hmk). unfold merge_local.
    cbn [local with_remote]. fold sn. rewrite He1.
    change (with_local (write_file W sn (dict_update e1 data))
              (with_remote (fun db => fs_set_section W db p s data) m1))
      with m0'.
    rewrite Hov'.
    rewrite (save_project_run _ _ _ _ Hmk). unfold merge_local.
    cbn [local with_remote]. fold pn. rewrite Hlocal0', Hpe1. reflexivity. }
  split; [exact Hlocal2|].
  unfold stored_overview. rewrite Hlocal2. reflexivity.
Qed.

(** Only the overview of the project file is written: every other key of
    the project memory, the style summary among them, is after the call as
    it was before. *)
Theorem project_summary_not_refreshed p s data m m1 k :
  s <> [] ->
  k <> u "sections_overview" ->
  save_section_memory W p s data m = (Ok tt, m1) ->
  is_corrupt (dir_get (local_name p None) (local m1)) = false ->
  exists pe pe1,
    read_file (local m) (local_name p None) = VDict pe
    /\ read_file (local m1) (local_name p None) = VDict pe1
    /\ dict_get k pe1 = dict_get k pe.
Proof.
  intros Hs Hk Hsave Hpn.
  destruct (save_section_steps _ _ _ _ _ Hsave)
    as (e & ov & pe & He & Hov & Hpe & Hm1).
  cbn [local with_local with_remote] in Hpe.
  rewrite read_after_other_write in Hpe.
  2:{ destruct s as [|c s']; [congruence|]. apply section_name_differs. }
  assert (Hlocal : local m1
                   = write_file W (local_name p None)
                       (dict_update pe [(u "sections_overview", VDict ov)])
                       (write_file W (local_name p (Some s))
                          (dict_update e data) (local m))).
  { rewrite Hm1. reflexivity. }
  rewrite Hlocal in Hpn |- *. exists pe.
  rewrite read_after_write.
  destruct (write_text W (local_name p None)
              (dict_update pe [(u "sections_overview", VDict ov)])) eqn:Hw.
  - eexists. split; [exact Hpe|]. split; [reflexivity|].
    unfold dict_get. apply update_get_other. simpl.
    destruct (eqb k (u "sections_overview")) eqn:E; [|reflexivity].
    apply eqb_eq in E. contradiction.
  - exists pe. split; [exact Hpe|]. split; [|reflexivity].
    rewrite read_after_other_write; [exact Hpe|].
    destruct s as [|c s']; [congruence|]. apply section_name_differs.
  - rewrite (emptied_shows _ _ _ _ Hw) in Hpn. discriminate Hpn.
Qed.

(** *** The context given to the models *)

Lemma get_project_local p m :
  mkdir W = Ok tt -> remote m = None ->
  get_project_memory W p m = (Ok (read_file (local m) (local_name p None)), m).
Proof.
  intros Hmk Hdb. unfold get_project_memory. rewrite run_bind.
  unfold get_store at 1. rewrite Hdb. cbn [mbind option_bind].
  rewrite run_bind, (local_path_run _ _ _ _ Hmk).
  unfold _read_local. rewrite run_bind. reflexivity.
Qed.

Lemma get_section_local p s m :
  mkdir W = Ok tt -> remote m = None ->
  get_section_memory W p s m
  = (Ok (read_file (local m) (local_name p (Some s))), m).
Proof.
  intros Hmk Hdb. unfold get_section_memory. rewrite run_bind.
  unfold get_store at 1. rewrite Hdb. cbn [mbind option_bind].
  rewrite run_bind, (local_path_run _ _ _ _ Hmk).
  unfold _read_local. rewrite run_bind. reflexivity.
Qed.

(** With nothing stored for the project and the section, the context is
    the empty text. *)
Theorem full_context_of_nothing p s m :
  mkdir W = Ok tt ->
  remote m = None ->
  read_file (local m) (local_name p None) = VDict [] ->
  read_file (local m) (local_name p (Some s)) = VDict [] ->
  get_full_context W p s m = (Ok [], m).
Proof.
  intros Hmk Hdb Hp Hsec. unfold get_full_context.
  rewrite run_bind, (get_project_local _ _ Hmk Hdb), Hp.
  rewrite run_bind, (get_section_local _ _ _ Hmk Hdb), Hsec.
  reflexivity.
Qed.

(** The entry of the section itself gives no line, whatever it holds: the
    loop over the overview does on all entries what it does on the
    entries of the other sections. *)
Theorem own_entry_gives_no_line s (items : pydict) m :
  other_sections s items m
  = other_sections s
      (List.filter (fun kv => negb (eqb (fst kv) s)) items) m.
Proof.
  revert m. induction items as [|[sid sdata] rest IH]; intros m; [reflexivity|].
  cbn [other_sections List.filter fst].
  destruct (negb (eqb sid s)) eqn:E.
  - cbn [other_sections]. rewrite E.
    rewrite run_bind. symmetry. rewrite run_bind. symmetry.
    match goal with
    | |- match ?c with _ => _ end = _ =>
      destruct c as [[line|err] m']; [|reflexivity]
    end.
    rewrite run_bind. symmetry. rewrite run_bind, <- IH. reflexivity.
  - rewrite run_bind, run_ret, run_bind, IH.
    destruct (other_sections s _ m) as [[lines|err] m']; reflexivity.
Qed.

(** *** Reading leaves the store as it is *)

Definition reads {A} (c : M (MemStore D) A) : Prop :=
  forall m r m', c m = (r, m') -> m' = m.

Lemma reads_ret {A} (a : A) : reads (ret a).
Proof. intros m r m' H. cbv [ret] in H. congruence. Qed.

Lemma reads_mret {A} (a : A) : reads (mret a : M (MemStore D) A).
Proof. apply reads_ret. Qed.

Lemma reads_raise {A} e : reads (raise e : M (MemStore D) A).
Proof. intros m r m' H. cbv [raise] in H. congruence. Qed.

Lemma reads_lift {A} (x : res A) : reads (lift x).
Proof. intros m r m' H. cbv [lift] in H. congruence. Qed.

Lemma reads_get_store : reads (get_store : M (MemStore D) (MemStore D)).
Proof. intros m r m' H. cbv [get_store] in H. congruence. Qed.

Lemma reads_bind {A B} (c : M (MemStore D) A) (k : A -> M (MemStore D) B) :
  reads c -> (forall a, reads (k a)) -> reads (c ≫= k).
Proof.
  intros Hc Hk m r m' Hrun. rewrite run_bind in Hrun.
  destruct (c m) as [[a|e] m1] eqn:E.
  - rewrite (Hk a _ _ _ Hrun). eapply Hc, E.
  - injection Hrun as _ <-. eapply Hc, E.
Qed.

Create HintDb reads.

Ltac reads :=
  repeat first
    [ solve [auto with reads]
    | apply reads_ret | apply reads_mret | apply reads_raise
    | apply reads_lift | apply reads_get_store
    | apply reads_bind; [|intros ?]
    | match goal with
      | |- reads (match ?x with _ => _ end) => destruct x
      | |- reads (if ?b then _ else _) => destruct b
      end ].

Lemma reads_local_path p section_id : reads (_local_path W p section_id).
Proof. unfold _local_path. reads. Qed.

Lemma reads_read_local path : reads (_read_local path : M (MemStore D) pyval).
Proof. unfold _read_local. reads. Qed.

#[local] Hint Resolve reads_local_path reads_read_local : reads.

Lemma reads_project_memory p : reads (get_project_memory W p).
Proof. unfold get_project_memory. reads. Qed.

Lemma reads_section_memory p s : reads (get_section_memory W p s).
Proof. unfold get_section_memory. reads. Qed.

Lemma reads_py_get v k dflt : reads (py_get v k dflt : M (MemStore D) pyval).
Proof. unfold py_get. reads. Qed.

Lemma reads_py_items v : reads (py_items v : M (MemStore D) pydict).
Proof. unfold py_items. reads. Qed.

Lemma reads_slice_500 v : reads (slice_500 W v).
Proof. unfold slice_500. reads. Qed.

#[local] Hint Resolve reads_project_memory reads_section_memory reads_py_get
  reads_py_items reads_slice_500 : reads.

Lemma reads_other_sections s (items : pydict) :
  reads (other_sections s items : M (MemStore D) (list pystr)).
Proof. induction items as [|[sid sdata] rest IH]; cbn [other_sections]; reads. Qed.

#[local] Hint Resolve reads_other_sections : reads.

(** Reading the memory of a project, of a section, and the context for
    the models leaves every memory file and the database as they are,
    whether the call returns or raises.  (The memory directory itself is
    made by these calls when it is missing.) *)
Theorem context_reads_only p s :
  reads (get_project_memory W p)
  /\ reads (get_section_memory W p s)
  /\ reads (get_full_context W p s).
Proof.
  split; [apply reads_project_memory|].
  split; [apply reads_section_memory|].
  unfold get_full_context. reads.
Qed.

End MemoryTheorems.

(** *** The memory store on concrete stores *)

Module MemoryRuns.

Import Sample.

Definition bath : pydict :=
  [(u "type", VStr (u "bano"));
   (u "style_summary", VStr (u "Azulejo blanco, griferia negra RAL 9005"));
   (u "last_cds", VStr (u "CAMBIAR: - ELEM_01: RAL 9005"))].

Definition kitchen : pydict :=
  [(u "style_summary", VStr (u "Frentes gris perla RAL 7035"))].

(** The entry of the bath in an overview. *)
Definition bath_entry : pyval :=
  VDict [(u "type", VStr (u "bano"));
         (u "style_summary",
          VStr (u "Azulejo blanco, griferia negra RAL 9005"))].

(** No database, an empty directory. *)
Definition offline : MemStore pydict := {| local := []; remote := None |}.

(** An empty database, an empty directory. *)
Definition online : MemStore pydict := {| local := []; remote := Some [] |}.

(** The section [bano] of a project is saved, in a store. *)
Definition saved (project_id : pystr) (m : MemStore pydict)
  : res unit * MemStore pydict :=
  save_section_memory memory project_id (u "bano") bath m.

Definition after (m : MemStore pydict) : MemStore pydict :=
  snd (saved (u "ana") m).

Example overview_offline :
  stored_overview (u "ana")
    (snd (save_section_memory memory (u "ana") (u "cocina") kitchen
            (after offline)))
  = Some (VDict
      [(u "bano", bath_entry);
       (u "cocina",
        VDict [(u "type", VStr (u "otro"));
               (u "style_summary", VStr (u "Frentes gris perla RAL 7035"))])]).
Proof. vm_compute. reflexivity. Qed.

(** C9.  The overview is not rebuilt from all known sections when the
    name of the project holds a character class.  Without a database and
    with an empty directory, the section [bano] of the project [p[1]] is
    saved: the call returns, the file [p[1]__bano.json] holds the section,
    and the pattern [p[1]__*.json] that lists the sections of the project
    does not match this file (it matches [p1__bano.json]), so that the
    overview stored for the project is empty, and stays empty when the
    same section is saved a second time.  For the project [ana] the same
    call stores an overview that holds the section. *)
Lemma overview_misses_saved_section :
  fst (saved (u "p[1]") offline) = Ok tt
  /\ read_file (local (snd (saved (u "p[1]") offline))) (u "p[1]__bano.json")
     = VDict bath
  /\ fnmatch (u "p[1]" ++ u "__*.json") (u "p[1]__bano.json") = false
  /\ fnmatch (u "p[1]" ++ u "__*.json") (u "p1__bano.json") = true
  /\ glob_sections memory (u "p[1]") (local (snd (saved (u "p[1]") offline)))
     = []
  /\ stored_overview (u "p[1]") (snd (saved (u "p[1]") offline))
     = Some (VDict [])
  /\ stored_overview (u "p[1]")
       (snd (saved (u "p[1]") (snd (saved (u "p[1]") offline))))
     = Some (VDict [])
  /\ stored_overview (u "ana") (snd (saved (u "ana") offline))
     = Some (VDict [(u "bano", bath_entry)]).
Proof.
  repeat match goal with |- _ /\ _ => split end; vm_compute; reflexivity.
Qed.

(** *** More stores *)

(** The same directory without the database. *)
Definition with_remote_none (m : MemStore pydict) : MemStore pydict :=
  {| local := local m; remote := None |}.

Definition living : pydict :=
  [(u "type", VStr (u "salon"));
   (u "style_summary", VStr (u "Paredes greige, tarima mantenida"))].

(** The database is reachable and empty; the directory holds a section
    that was saved while the database was not reachable. *)
Definition mixed : MemStore pydict :=
  {| local := [(u "ana__salon.json", Decodes (VDict living))];
     remote := Some [] |}.

(** No database; the directory holds a file of the project that decodes
    to a list. *)
Definition stale : MemStore pydict :=
  {| local :=
       [(u "ana.json",
         Decodes (VDict [(u "sections_overview", VDict [])]));
        (u "ana__old.json", Decodes (VList []))];
     remote := None |}.

(** No database; the directory holds a section of the project [ana__luis]. *)
Definition neighbours : MemStore pydict :=
  {| local := [(u "ana__luis__cocina.json", Decodes (VDict kitchen))];
     remote := None |}.

(** No database; the section file holds a text that was written as an
    escape and decodes to a lone surrogate. *)
Definition surrogate : MemStore pydict :=
  {| local :=
       [(u "ana__bano.json",
         Decodes (VDict [(u "note", VStr [55296])]))];
     remote := None |}.

(** No database; the project file holds a style and a summary. *)
Definition styled : MemStore pydict :=
  {| local :=
       [(u "ana.json",
         Decodes (VDict
           [(u "style", VStr (u "moderno elegante"));
            (u "style_summary", VStr (u "Fachada gris perla RAL 7035"))]))];
     remote := None |}.

(** A world whose memory directory cannot be made. *)
Definition no_directory : MemWorld pydict :=
  {| mkdir := Raise (Exception (u "PermissionError")
                       (u "[Errno 13] Permission denied: '/app/.adk'"));
     write_text := write_text memory;
     listing := listing memory;
     dict_slice := dict_slice memory;
     fs_set_project := fs_set_project memory;
     fs_set_section := fs_set_section memory;
     fs_get_project := fs_get_project memory;
     fs_get_section := fs_get_section memory;
     fs_sections := fs_sections memory |}.

Definition two_sections : pydict :=
  [(u "bano", bath_entry);
   (u "cocina",
    VDict [(u "type", VStr (u "otro"));
           (u "style_summary", VStr (u "Frentes gris perla RAL 7035"))])].

Definition two_saved : MemStore pydict :=
  snd (save_section_memory memory (u "ana") (u "cocina") kitchen
         (after offline)).

Lemma overview_lists_sections_witness :
  overview_of_files memory (u "ana") (local two_saved) = Ok two_sections
  /\ exists sec,
       dict_get (section_key (u "ana__bano.json")) two_sections
       = Some (overview_entry sec).
Proof.
  split; [vm_compute; reflexivity|].
  destruct (overview_lists_sections memory (u "ana") (local two_saved)
              two_sections) as (_ & Hin & _).
  - vm_compute. reflexivity.
  - apply (Hin (u "ana__bano.json")). vm_compute. left. reflexivity.
Defined.

Lemma save_section_stores_rebuilt_witness :
  exists ov,
    rebuild_overview memory (u "ana")
      (section_written memory (u "ana") (u "bano") bath offline []) = Ok ov
    /\ stored_overview (u "ana") (after offline) = Some (VDict ov).
Proof.
  destruct (save_section_stores_rebuilt memory (u "ana") (u "bano") bath
              offline (after offline))
    as (e & ov & pe & He & Hov & Hpe & Hm1 & Hstored).
  - vm_compute. reflexivity.
  - vm_compute in He. injection He as <-.
    vm_compute in Hpe. injection Hpe as <-.
    exists ov. split; [exact Hov|].
    apply Hstored. vm_compute in Hov. injection Hov as <-.
    vm_compute. reflexivity.
Defined.

Lemma database_sections_win_witness :
  dir_get (u "ana__salon.json") (local (section_written memory (u "ana")
                                          (u "bano") bath mixed []))
  = Some (Decodes (VDict living))
  /\ rebuild_overview memory (u "ana")
       (section_written memory (u "ana") (u "bano") bath mixed [])
     = Ok [(u "bano", bath_entry)].
Proof.
  split; [vm_compute; reflexivity|].
  rewrite (database_sections_win memory (u "ana")
             (section_written memory (u "ana") (u "bano") bath mixed [])
             [(u "projects/ana/sections/bano", VDict bath)]).
  - vm_compute. reflexivity.
  - vm_compute. reflexivity.
  - vm_compute. discriminate.
Defined.

Lemma save_section_without_directory_witness :
  fst (save_section_memory no_directory (u "ana") (u "bano") bath online)
  = Raise (Exception (u "PermissionError")
             (u "[Errno 13] Permission denied: '/app/.adk'"))
  /\ remote (snd (save_section_memory no_directory (u "ana") (u "bano") bath
                    online))
     = Some [(u "projects/ana/sections/bano", VDict bath)]
  /\ local (snd (save_section_memory no_directory (u "ana") (u "bano") bath
                   online))
     = [].
Proof.
  rewrite (save_section_without_directory no_directory (u "ana") (u "bano")
             bath online
             (Exception (u "PermissionError")
                (u "[Errno 13] Permission denied: '/app/.adk'"))).
  - split; [reflexivity|]. split; vm_compute; reflexivity.
  - reflexivity.
Defined.

Lemma bad_sibling_leaves_overview_stale_witness :
  exists err,
    fst (save_section_memory memory (u "ana") (u "bano") bath stale)
    = Raise err
    /\ read_file
         (local (snd (save_section_memory memory (u "ana") (u "bano") bath
                        stale)))
         (u "ana__bano.json")
       = VDict bath
    /\ stored_overview (u "ana")
         (snd (save_section_memory memory (u "ana") (u "bano") bath stale))
       = Some (VDict []).
Proof.
  destruct (bad_sibling_leaves_overview_stale memory (u "ana") (u "bano")
              bath stale [] (u "ana__old.json"))
    as (err & Hsave & Hov & _).
  - vm_compute. discriminate.
  - vm_compute. reflexivity.
  - vm_compute. reflexivity.
  - vm_compute. reflexivity.
  - vm_compute. left. reflexivity.
  - vm_compute. reflexivity.
  - exists err. rewrite Hsave. cbn [fst snd].
    split; [reflexivity|]. split.
    + vm_compute. reflexivity.
    + rewrite Hov. vm_compute. reflexivity.
Defined.

Lemma saved_section_is_read_back_witness :
  get_section_memory memory (u "ana") (u "bano") (after offline)
  = (Ok (VDict (dict_update [] bath)), after offline)
  /\ dict_update [] bath = bath.
Proof.
  split; [|vm_compute; reflexivity].
  apply (saved_section_is_read_back memory (u "ana") (u "bano") bath offline
           (after offline) []).
  - vm_compute. discriminate.
  - vm_compute. reflexivity.
  - vm_compute. reflexivity.
  - vm_compute. reflexivity.
  - vm_compute. reflexivity.
Defined.

Lemma second_save_same_overview_witness :
  exists m2,
    save_section_memory memory (u "ana") (u "bano") bath (after offline)
    = (Ok tt, m2)
    /\ local m2 = local (after offline)
    /\ stored_overview (u "ana") m2 = Some (VDict [(u "bano", bath_entry)]).
Proof.
  destruct (second_save_same_overview memory (u "ana") (u "bano") bath
              offline (after offline) [])
    as (ov & m2 & _ & _ & Hsave & Hlocal & Hov).
  - vm_compute. discriminate.
  - vm_compute. reflexivity.
  - vm_compute. reflexivity.
  - vm_compute. reflexivity.
  - vm_compute. reflexivity.
  - vm_compute. reflexivity.
  - vm_compute. reflexivity.
  - vm_compute. reflexivity.
  - exists m2. split; [exact Hsave|]. split; [exact Hlocal|].
    rewrite Hov. vm_compute. reflexivity.
Defined.

(** A write that is cut short makes two identical calls store two
    overviews.  The section file holds a text that cannot be encoded, so
    the first call empties the file and the overview gets the entry of an
    empty section; the second call merges the data into the empty file,
    writes it, and the overview gets the entry of the data. *)
Lemma cut_short_write_changes_overview :
  fst (saved (u "ana") surrogate) = Ok tt
  /\ dir_get (u "ana__bano.json") (local (snd (saved (u "ana") surrogate)))
     = Some Corrupt
  /\ stored_overview (u "ana") (snd (saved (u "ana") surrogate))
     = Some (VDict [(u "bano",
                     VDict [(u "type", VStr (u "otro"));
                            (u "style_summary", VStr [])])])
  /\ fst (saved (u "ana") (snd (saved (u "ana") surrogate))) = Ok tt
  /\ stored_overview (u "ana")
       (snd (saved (u "ana") (snd (saved (u "ana") surrogate))))
     = Some (VDict [(u "bano", bath_entry)]).
Proof.
  repeat match goal with |- _ /\ _ => split end; vm_compute; reflexivity.
Qed.

(** The pattern of a project also matches the section files of every
    project whose name starts with the name of this project and two
    underscores: the overview of [ana] lists the kitchen of [ana__luis],
    under the key [luis__cocina]. *)
Lemma other_project_sections_leak :
  local_name (u "ana__luis") (Some (u "cocina")) = u "ana__luis__cocina.json"
  /\ stored_overview (u "ana") (snd (saved (u "ana") neighbours))
     = Some (VDict
         [(u "luis__cocina",
           VDict [(u "type", VStr (u "otro"));
                  (u "style_summary", VStr (u "Frentes gris perla RAL 7035"))]);
          (u "bano", bath_entry)]).
Proof. split; vm_compute; reflexivity. Qed.

(** With a database that lists a section, a section that is only in the
    local directory is left out of the overview. *)
Lemma local_sections_left_out_online :
  fst (saved (u "ana") mixed) = Ok tt
  /\ read_file (local (snd (saved (u "ana") mixed))) (u "ana__salon.json")
     = VDict living
  /\ stored_overview (u "ana") (snd (saved (u "ana") mixed))
     = Some (VDict [(u "bano", bath_entry)])
  /\ stored_overview (u "ana") (snd (saved (u "ana") (with_remote_none mixed)))
     = Some (VDict
         [(u "salon",
           VDict [(u "type", VStr (u "salon"));
                  (u "style_summary",
                   VStr (u "Paredes greige, tarima mantenida"))]);
          (u "bano", bath_entry)]).
Proof.
  repeat match goal with |- _ /\ _ => split end; vm_compute; reflexivity.
Qed.

Lemma project_summary_not_refreshed_witness :
  exists pe1,
    read_file (local (snd (saved (u "ana") styled))) (u "ana.json") = VDict pe1
    /\ dict_get (u "style_summary") pe1
       = Some (VStr (u "Fachada gris perla RAL 7035"))
    /\ dict_get (u "sections_overview") pe1
       = Some (VDict [(u "bano", bath_entry)]).
Proof.
  destruct (project_summary_not_refreshed memory (u "ana") (u "bano") bath
              styled (snd (saved (u "ana") styled)) (u "style_summary"))
    as (pe & pe1 & Hpe & Hpe1 & Hsame).
  - vm_compute. discriminate.
  - vm_compute. discriminate.
  - vm_compute. reflexivity.
  - vm_compute. reflexivity.
  - exists pe1. split; [exact Hpe1|]. split.
    + rewrite Hsame. vm_compute in Hpe. injection Hpe as <-.
      vm_compute. reflexivity.
    + vm_compute in Hpe1. injection Hpe1 as <-. vm_compute. reflexivity.
Defined.

Lemma full_context_of_nothing_witness :
  get_full_context memory (u "ana") (u "bano") offline = (Ok [], offline).
Proof.
  apply (full_context_of_nothing memory (u "ana") (u "bano") offline);
    vm_compute; reflexivity.
Defined.

(** The context of a section names the project, the other sections that
    have a summary, and the section itself. *)
Example context_of_a_section :
  fst (get_full_context memory (u "ana") (u "bano")
         (snd (save_section_memory memory (u "ana") (u "cocina") kitchen
                 (snd (saved (u "ana") styled)))))
  = Ok (join [10]
         [u "Estilo del proyecto: moderno elegante";
          u "Resumen global: Fachada gris perla RAL 7035";
          u "Sección cocina (otro): Frentes gris perla RAL 7035";
          u "Esta sección (bano): Azulejo blanco, griferia negra RAL 9005";
          u "Último CDS de esta sección: CAMBIAR: - ELEM_01: RAL 9005"]).
Proof. vm_compute. reflexivity. Qed.

(** For the project [p[1]], whose overview is empty, the context of the
    kitchen does not name the bath that was saved. *)
Example context_misses_saved_section :
  fst (get_full_context memory (u "p[1]") (u "cocina")
         (snd (saved (u "p[1]") offline)))
  = Ok []
  /\ fst (get_full_context memory (u "ana") (u "cocina")
            (snd (saved (u "ana") offline)))
     = Ok (u "Sección bano (bano): Azulejo blanco, griferia negra RAL 9005").
Proof. split; vm_compute; reflexivity. Qed.

(** An overview that is not an object, as a project file written by hand
    may hold, makes the context raise. *)
Example context_of_a_bad_overview :
  fst (get_full_context memory (u "ana") (u "bano")
         {| local :=
              [(u "ana.json",
                Decodes (VDict [(u "sections_overview", VList [])]))];
            remote := None |})
  = Raise (AttributeError (VList []) (u "items")).
Proof. vm_compute. reflexivity. Qed.

End MemoryRuns.
